(** * Heart-rate monitor: the vital-signal simulator of [project2.py]

    The development embeds the stateful core of the application: the
    [MonitorState] object, [MonitorState.log_event], the body of the
    [run_simulation] coroutine and the two button handlers
    [start_monitoring] and [stop_monitoring].  Of the presentation layer
    it embeds what the further properties are about: [update_ui], the
    activity cards, the history list and the routing.

    Modelling conventions.
    - Python [float]s are idealised as exact rationals [Q]: every operation
      of the source ([+], [-], [*], [/], [<], [>], [==], [round], [int],
      [min], [max], [sum]) is the exact operation on [Q].  Rounding error of
      IEEE doubles, infinities and NaN are outside this model; module
      [Ieee] embeds the numeric code of lines 68 to 85 and 260 to 271 over
      binary64 floats, for the properties that pin the digits stored.
    - Python [int]s are [Z], [str]s are [string], lists are [list].
    - [random.random()], [datetime.datetime.now()] and the refresh callback
      are inputs: an environment [Env] gives the successive values, the
      world counts how many were consumed.
    - Mutation of the process-wide [monitor_state] is explicit state
      passing in a state-and-exception monad [M]; a raised exception keeps
      the mutations done before it, as in Python.  [Raise] stands for an
      instance of [Exception]; exceptions outside that class are kept
      apart ([Raised]). *)

From Stdlib Require Import ZArith QArith Qround Bool List String Ascii.
From Stdlib Require Import DecimalString Lia Lqa.
From Stdlib Require PrimFloat FloatOps SpecFloat.
Import ListNotations.

Set Warnings "-inexact-float".

Local Open Scope Q_scope.

(** ** Python built-ins used by the source *)

Module Py.

(** [x < y] on floats. *)
Definition ltb (x y : Q) : bool := negb (Qle_bool y x).

(** [min(a, b)]: the first argument unless the second is smaller. *)
Definition min (a b : Q) : Q := if ltb b a then b else a.

(** [max(a, b)]: the first argument unless the second is larger. *)
Definition max (a b : Q) : Q := if ltb a b then b else a.

(** [int(x)] on a float: truncation towards zero. *)
Definition int (x : Q) : Z := Z.quot (Qnum x) (Zpos (Qden x)).

Fixpoint pow10 (n : nat) : positive :=
  match n with
  | O => 1%positive
  | S k => (10 * pow10 k)%positive
  end.

(** Nearest integer, ties to the even neighbour. *)
Definition round_half_even (x : Q) : Z :=
  let f := Qfloor x in
  match Qcompare (x - inject_Z f) (1 # 2) with
  | Lt => f
  | Gt => (f + 1)%Z
  | Eq => if Z.even f then f else (f + 1)%Z
  end.

(** [round(x, ndigits)]: nearest multiple of [10^-ndigits], ties to even. *)
Definition round (x : Q) (ndigits : nat) : Q :=
  round_half_even (x * inject_Z (Zpos (pow10 ndigits))) # pow10 ndigits.

(** [sum(l)]: left-to-right accumulation from [0]. *)
Definition sum (l : list Q) : Q := fold_left Qplus l 0.

(** [len(l)] used as a float divisor. *)
Definition len {A : Type} (l : list A) : Q := inject_Z (Z.of_nat (List.length l)).

(** [str(n)] / [f"{n}"] for an [int]. *)
Definition str (n : Z) : string := NilZero.string_of_int (Z.to_int n).

(** [f"{n:02d}"]: zero-padded to width two. *)
Definition fmt_02d (n : Z) : string :=
  let s := str n in
  if (String.length s <? 2)%nat then ("0" ++ s)%string else s.

(** [random.uniform(a, b)] is [a + (b - a) * random.random()]; [u] is the
    value returned by [random.random()]. *)
Definition uniform_of (a b u : Q) : Q := a + (b - a) * u.

End Py.

(** ** Data model *)

(** A log entry, the dict [{"time": .., "message": .., "type": ..}]. *)
Record LogEntry : Type := mkLog {
  log_time : string;
  log_message : string;
  log_type : string
}.

(** The dict [session_data] appended to [history_sessions]. *)
Record SessionData : Type := mkSession {
  sd_date : string;
  sd_activity : string;
  sd_duration : string;
  sd_avg_bpm : Q;
  sd_max_bpm : Z;
  sd_min_bpm : Z
}.

(** [MonitorState]: the activity and monitoring fields.  The five profile
    strings ([name], [height], ...) are only displayed and are left out;
    [on_update] is a function over this record and lives in [Env]. *)
Record MonitorState : Type := mkState {
  activity : string;
  heart_rate : Q;
  history : list (Z * Q);
  logs : list LogEntry;
  time_counter : Z;
  heart_scale : Q;
  min_bpm : Q;
  max_bpm : Q;
  is_monitoring : bool;
  total_time : Z;
  avg_bpm : Q;
  session_readings : list Q;
  history_sessions : list SessionData
}.

(** [MonitorState.__init__]. *)
Definition init_state : MonitorState := {|
  activity := EmptyString;
  heart_rate := 72.0;
  history := [];
  logs := [];
  time_counter := 0;
  heart_scale := 1.0;
  min_bpm := 999.0;
  max_bpm := 0.0;
  is_monitoring := false;
  total_time := 0;
  avg_bpm := 0.0;
  session_readings := [];
  history_sessions := []
|}.

(** Attribute assignments [monitor_state.f = v]. *)
Definition set_activity (v : string) (s : MonitorState) : MonitorState :=
  mkState v (heart_rate s) (history s) (logs s) (time_counter s)
    (heart_scale s) (min_bpm s) (max_bpm s) (is_monitoring s) (total_time s)
    (avg_bpm s) (session_readings s) (history_sessions s).
Definition set_heart_rate (v : Q) (s : MonitorState) : MonitorState :=
  mkState (activity s) v (history s) (logs s) (time_counter s)
    (heart_scale s) (min_bpm s) (max_bpm s) (is_monitoring s) (total_time s)
    (avg_bpm s) (session_readings s) (history_sessions s).
Definition set_history (v : list (Z * Q)) (s : MonitorState) : MonitorState :=
  mkState (activity s) (heart_rate s) v (logs s) (time_counter s)
    (heart_scale s) (min_bpm s) (max_bpm s) (is_monitoring s) (total_time s)
    (avg_bpm s) (session_readings s) (history_sessions s).
Definition set_logs (v : list LogEntry) (s : MonitorState) : MonitorState :=
  mkState (activity s) (heart_rate s) (history s) v (time_counter s)
    (heart_scale s) (min_bpm s) (max_bpm s) (is_monitoring s) (total_time s)
    (avg_bpm s) (session_readings s) (history_sessions s).
Definition set_time_counter (v : Z) (s : MonitorState) : MonitorState :=
  mkState (activity s) (heart_rate s) (history s) (logs s) v
    (heart_scale s) (min_bpm s) (max_bpm s) (is_monitoring s) (total_time s)
    (avg_bpm s) (session_readings s) (history_sessions s).
Definition set_heart_scale (v : Q) (s : MonitorState) : MonitorState :=
  mkState (activity s) (heart_rate s) (history s) (logs s) (time_counter s)
    v (min_bpm s) (max_bpm s) (is_monitoring s) (total_time s)
    (avg_bpm s) (session_readings s) (history_sessions s).
Definition set_min_bpm (v : Q) (s : MonitorState) : MonitorState :=
  mkState (activity s) (heart_rate s) (history s) (logs s) (time_counter s)
    (heart_scale s) v (max_bpm s) (is_monitoring s) (total_time s)
    (avg_bpm s) (session_readings s) (history_sessions s).
Definition set_max_bpm (v : Q) (s : MonitorState) : MonitorState :=
  mkState (activity s) (heart_rate s) (history s) (logs s) (time_counter s)
    (heart_scale s) (min_bpm s) v (is_monitoring s) (total_time s)
    (avg_bpm s) (session_readings s) (history_sessions s).
Definition set_is_monitoring (v : bool) (s : MonitorState) : MonitorState :=
  mkState (activity s) (heart_rate s) (history s) (logs s) (time_counter s)
    (heart_scale s) (min_bpm s) (max_bpm s) v (total_time s)
    (avg_bpm s) (session_readings s) (history_sessions s).
Definition set_total_time (v : Z) (s : MonitorState) : MonitorState :=
  mkState (activity s) (heart_rate s) (history s) (logs s) (time_counter s)
    (heart_scale s) (min_bpm s) (max_bpm s) (is_monitoring s) v
    (avg_bpm s) (session_readings s) (history_sessions s).
Definition set_avg_bpm (v : Q) (s : MonitorState) : MonitorState :=
  mkState (activity s) (heart_rate s) (history s) (logs s) (time_counter s)
    (heart_scale s) (min_bpm s) (max_bpm s) (is_monitoring s) (total_time s)
    v (session_readings s) (history_sessions s).
Definition set_session_readings (v : list Q) (s : MonitorState) : MonitorState :=
  mkState (activity s) (heart_rate s) (history s) (logs s) (time_counter s)
    (heart_scale s) (min_bpm s) (max_bpm s) (is_monitoring s) (total_time s)
    (avg_bpm s) v (history_sessions s).
Definition set_history_sessions (v : list SessionData) (s : MonitorState)
  : MonitorState :=
  mkState (activity s) (heart_rate s) (history s) (logs s) (time_counter s)
    (heart_scale s) (min_bpm s) (max_bpm s) (is_monitoring s) (total_time s)
    (avg_bpm s) (session_readings s) v.

(** ** The world around the state *)

(** What the process writes for the operator: [print(..)] and
    [traceback.print_exc()]. *)
Inductive Output : Type :=
| Printed (text : string)
| Traceback (exn : string).

(** A [run_simulation] coroutine handed to [page.run_task].  It is suspended
    either before its first statement or at [await asyncio.sleep(1)], where
    it holds the profile tuple it unpacked on entry; or it has returned. *)
Definition Profile : Type := (Q * Q * Q * Q)%type.

Inductive Task : Type :=
| Created
| Sleeping (profile : Profile)
| Finished.

Record World : Type := mkWorld {
  ms : MonitorState;
  rng_pos : nat;
  clock_pos : nat;
  console : list Output;
  tasks : list Task
}.

(** The inputs of a run: the [n]-th value of [random.random()], the [n]-th
    reading of the clock in the two formats the source asks for, and the
    callback stored in [monitor_state.on_update] ([None] when unset).  The
    callback reads the state; it returns ([None]) or raises an exception
    with the given message. *)
Record Env : Type := mkEnv {
  random : nat -> Q;
  now_hms : nat -> string;
  now_date : nat -> string;
  on_update : option (MonitorState -> option string)
}.

Definition init_world : World := mkWorld init_state 0 0 [] [].

(** ** State-and-exception monad *)

Inductive Result (A : Type) : Type :=
| Ok (a : A)
| Raise (exn : string).
Arguments Ok {A} a.
Arguments Raise {A} exn.

Definition M (A : Type) : Type := World -> Result A * World.

Definition ret {A : Type} (a : A) : M A := fun w => (Ok a, w).

Definition bind {A B : Type} (m : M A) (k : A -> M B) : M B :=
  fun w =>
    match m w with
    | (Ok a, w') => k a w'
    | (Raise e, w') => (Raise e, w')
    end.

Definition raise {A : Type} (e : string) : M A := fun w => (Raise e, w).

Declare Scope monad_scope.
Delimit Scope monad_scope with monad.
Notation "x <- c ;; k" := (bind c (fun x => k))
  (at level 61, c at next level, right associativity) : monad_scope.
Notation "c ;;; k" := (bind c (fun _ => k))
  (at level 61, right associativity) : monad_scope.

Definition get_state : M MonitorState := fun w => (Ok (ms w), w).

Definition modify (f : MonitorState -> MonitorState) : M unit :=
  fun w => (Ok tt, mkWorld (f (ms w)) (rng_pos w) (clock_pos w)
                     (console w) (tasks w)).

Definition emit (o : Output) : M unit :=
  fun w => (Ok tt, mkWorld (ms w) (rng_pos w) (clock_pos w)
                     (console w ++ [o]) (tasks w)).

Definition exec {A : Type} (m : M A) (w : World) : World := snd (m w).
Definition outcome {A : Type} (m : M A) (w : World) : Result A := fst (m w).

(** ** The program *)

Section Simulator.

Variable env : Env.

Local Open Scope monad_scope.

(** *** Sources of input *)

(** [random.random()]. *)
Definition random_random : M Q :=
  fun w => (Ok (random env (rng_pos w)),
            mkWorld (ms w) (S (rng_pos w)) (clock_pos w) (console w) (tasks w)).

(** [random.uniform(a, b)]. *)
Definition uniform (a b : Q) : M Q :=
  u <- random_random ;; ret (Py.uniform_of a b u).

Definition tick_clock (w : World) : World :=
  mkWorld (ms w) (rng_pos w) (S (clock_pos w)) (console w) (tasks w).

(** [datetime.datetime.now().strftime("%H:%M:%S")]. *)
Definition strftime_hms : M string :=
  fun w => (Ok (now_hms env (clock_pos w)), tick_clock w).

(** [datetime.datetime.now().strftime("%Y-%m-%d %H:%M")]. *)
Definition strftime_date : M string :=
  fun w => (Ok (now_date env (clock_pos w)), tick_clock w).

(** *** [MonitorState.log_event] *)

(** [self.logs and self.logs[0]["message"] == message and
    self.logs[0]["type"] == type]. *)
Definition head_matches (l : list LogEntry) (message type : string) : bool :=
  match l with
  | [] => false
  | e :: _ => String.eqb (log_message e) message && String.eqb (log_type e) type
  end.

(** What [log_event] does to [self.logs], given the timestamp [now]. *)
Definition log_event_logs (now message type : string) (l : list LogEntry)
  : list LogEntry :=
  if head_matches l message type then l
  else
    let l1 := mkLog now message type :: l in
    if (100 <? List.length l1)%nat then removelast l1 else l1.

Definition log_event (message type : string) : M unit :=
  now <- strftime_hms ;;
  modify (fun s => set_logs (log_event_logs now message type (logs s)) s).

(** *** [run_simulation] *)

Definition activity_profiles : list (string * Profile) :=
  [ ("Resting"%string, (60, 80, 0.9, 0.5));
    ("Walking"%string, (90, 110, 0.7, 1.0));
    ("Running"%string, (130, 160, 0.4, 2.0));
    ("Gym"%string, (110, 140, 0.5, 1.5));
    ("Swimming"%string, (100, 130, 0.6, 1.2)) ].

Definition default_profile : Profile := (70, 100, 0.8, 0.8).

(** [d.get(key, default)] on a dict given by its items. *)
Fixpoint dict_get {V : Type} (d : list (string * V)) (key : string)
  (default : V) : V :=
  match d with
  | [] => default
  | (k, v) :: rest => if String.eqb k key then v else dict_get rest key default
  end.

(** Steps 1 to 3 and the rounding: the two draws, the momentum update and
    [round(.., 2)]. *)
Definition update_signal (p : Profile) : M unit :=
  let '(base_hr, target_range, momentum, fluctuation) := p in
  target_hr <- uniform base_hr target_range ;;
  random_step <- uniform (- fluctuation) fluctuation ;;
  modify (fun s =>
    set_heart_rate
      (heart_rate s + (target_hr - heart_rate s) * (1 - momentum) + random_step)
      s) ;;;
  modify (fun s => set_heart_rate (Py.round (heart_rate s) 2) s).

Definition low_message (h : Q) : string :=
  ("Low HR boundary hit: " ++ Py.str (Py.int h) ++ " bpm")%string.

Definition high_message (h : Q) : string :=
  ("High HR boundary hit: " ++ Py.str (Py.int h) ++ " bpm")%string.

(** Step 4. *)
Definition enforce_boundaries : M unit :=
  s <- get_state ;;
  if Py.ltb (heart_rate s) 40 then
    h <- uniform 40 45 ;;
    modify (set_heart_rate h) ;;;
    log_event (low_message h) "ALERT"
  else if Py.ltb 190 (heart_rate s) then
    h <- uniform 180 190 ;;
    modify (set_heart_rate h) ;;;
    log_event (high_message h) "ALERT"
  else ret tt.

(** Step 5. *)
Definition update_session_stats (s : MonitorState) : MonitorState :=
  let s := set_min_bpm (Py.min (min_bpm s) (heart_rate s)) s in
  let s := set_max_bpm (Py.max (max_bpm s) (heart_rate s)) s in
  let s := set_session_readings (session_readings s ++ [heart_rate s]) s in
  match session_readings s with
  | [] => s
  | _ :: _ =>
      set_avg_bpm (Py.sum (session_readings s) / Py.len (session_readings s)) s
  end.

(** Step 6; [history.pop(0)] drops the first pair. *)
Definition update_chart_history (s : MonitorState) : MonitorState :=
  let s := set_time_counter (time_counter s + 1) s in
  let s := set_total_time (total_time s + 1) s in
  let s := set_history (history s ++ [(time_counter s, heart_rate s)]) s in
  if (60 <? List.length (history s))%nat
  then set_history (tl (history s)) s
  else s.

(** Step 7. *)
Definition toggle_heart_scale (s : MonitorState) : MonitorState :=
  set_heart_scale (if Qeq_bool (heart_scale s) 1.0 then 1.2 else 1.0) s.

(** Step 8: the callback, when one is registered, may raise. *)
Definition refresh_ui : M unit :=
  match on_update env with
  | None => ret tt
  | Some callback =>
      s <- get_state ;;
      match callback s with
      | None => ret tt
      | Some e => raise e
      end
  end.

(** The body of the [while] loop, up to [await asyncio.sleep(1)]. *)
Definition simulation_step (p : Profile) : M unit :=
  update_signal p ;;;
  enforce_boundaries ;;;
  modify update_session_stats ;;;
  modify update_chart_history ;;;
  modify toggle_heart_scale ;;;
  refresh_ui.

(** One turn of [while monitor_state.is_monitoring: ...]: the test, and
    the body when it holds; the coroutine then sleeps or returns. *)
Definition loop_iteration (p : Profile) : M Task :=
  s <- get_state ;;
  if is_monitoring s
  then simulation_step p ;;; ret (Sleeping p)
  else ret Finished.

(** [try: ... except Exception as e: print(..); traceback.print_exc()];
    every [Raise] is an instance of [Exception]. *)
Definition try_except (body : M Task) : M Task :=
  fun w =>
    match body w with
    | (Ok t, w') => (Ok t, w')
    | (Raise e, w') =>
        (emit (Printed ("Simulation Error: " ++ e)) ;;;
         emit (Traceback e) ;;;
         ret Finished) w'
    end.

(** One resumption of a [run_simulation] coroutine, from where it is
    suspended to its next suspension or its return. *)
Definition run_simulation (t : Task) : M Task :=
  match t with
  | Created =>
      s <- get_state ;;
      try_except
        (loop_iteration (dict_get activity_profiles (activity s) default_profile))
  | Sleeping p => try_except (loop_iteration p)
  | Finished => ret Finished
  end.

(** *** The event loop *)

(** [page.run_task(run_simulation)]. *)
Definition run_task : M unit :=
  fun w => (Ok tt, mkWorld (ms w) (rng_pos w) (clock_pos w) (console w)
                     (tasks w ++ [Created])).

Fixpoint replace_nth {A : Type} (i : nat) (x : A) (l : list A) : list A :=
  match l, i with
  | [], _ => []
  | _ :: rest, O => x :: rest
  | y :: rest, S j => y :: replace_nth j x rest
  end.

Definition store_task (i : nat) (t : Task) : M unit :=
  fun w => (Ok tt, mkWorld (ms w) (rng_pos w) (clock_pos w) (console w)
                     (replace_nth i t (tasks w))).

(** The event loop resumes the [i]-th coroutine it was given. *)
Definition resume (i : nat) : M unit :=
  fun w =>
    match nth_error (tasks w) i with
    | None => (Ok tt, w)
    | Some t => (t' <- run_simulation t ;; store_task i t') w
    end.

(** *** Button handlers *)

(** The handler of an activity card. *)
Definition select_activity (activity_name : string) : M unit :=
  modify (set_activity activity_name).

(** [start_monitoring]; the empty string is the only falsy [str].  The
    closing [page.go("/monitor")] only changes the view. *)
Definition start_monitoring : M unit :=
  s <- get_state ;;
  if negb (String.eqb (activity s) EmptyString) then
    modify (set_is_monitoring true) ;;;
    modify (set_min_bpm 999.0) ;;;
    modify (set_max_bpm 0.0) ;;;
    modify (set_avg_bpm 0.0) ;;;
    modify (set_total_time 0) ;;;
    modify (set_session_readings []) ;;;
    modify (set_history []) ;;;
    modify (set_time_counter 0) ;;;
    modify (set_logs []) ;;;
    run_task
  else ret tt.

(** [f"{total_time // 60}:{total_time % 60:02d}"]. *)
Definition format_duration (t : Z) : string :=
  (Py.str (t / 60) ++ ":" ++ Py.fmt_02d (t mod 60))%string.

Definition session_data (date : string) (s : MonitorState) : SessionData := {|
  sd_date := date;
  sd_activity := activity s;
  sd_duration := format_duration (total_time s);
  sd_avg_bpm := Py.round (avg_bpm s) 1;
  sd_max_bpm := Py.int (max_bpm s);
  sd_min_bpm := Py.int (min_bpm s)
|}.

(** [stop_monitoring]; the closing [page.go("/activity")] only changes the
    view. *)
Definition stop_monitoring : M unit :=
  modify (set_is_monitoring false) ;;;
  s <- get_state ;;
  match session_readings s with
  | [] => ret tt
  | _ :: _ =>
      date <- strftime_date ;;
      modify (fun s =>
        set_history_sessions (history_sessions s ++ [session_data date s]) s)
  end.

(** *** Runs *)

Inductive Event : Type :=
| SelectActivity (activity_name : string)
| StartMonitoring
| StopMonitoring
| Resume (i : nat).

Definition handle (ev : Event) : M unit :=
  match ev with
  | SelectActivity a => select_activity a
  | StartMonitoring => start_monitoring
  | StopMonitoring => stop_monitoring
  | Resume i => resume i
  end.

Definition run_events (evs : list Event) (w : World) : World :=
  fold_left (fun w ev => exec (handle ev) w) evs w.

End Simulator.

(** *** What the handler of line 111 lets through

    [Raise] stands for an instance of [Exception], the class the handler
    names, and [try_except] handles every [Raise].  Python also has
    exceptions outside that class: [asyncio.CancelledError],
    [KeyboardInterrupt], [SystemExit] and [GeneratorExit] derive from
    [BaseException] only.  The event loop delivers one by throwing it into
    the coroutine where it is suspended, which for a started coroutine is
    the [await] of line 110, inside the [try]. *)
Inductive Raised : Type :=
| ExceptionInstance (text : string)
| BaseExceptionOnly (name : string).

(** How a resumption of the coroutine ends for the event loop. *)
Inductive Delivery : Type :=
| Returns (t : Task)
| Propagates (r : Raised).

(** [except Exception as e: print(..); traceback.print_exc()] applied to
    what the [try] block raised. *)
Definition except_Exception (r : Raised) (w : World) : Delivery * World :=
  match r with
  | ExceptionInstance e =>
      (Returns Finished,
       exec (bind (emit (Printed ("Simulation Error: " ++ e)))
               (fun _ => emit (Traceback e))) w)
  | BaseExceptionOnly _ => (Propagates r, w)
  end.

(** The event loop throws [r] into the coroutine instead of resuming it: a
    coroutine that has not started is not inside its [try] yet. *)
Definition throw_into (r : Raised) (t : Task) (w : World) : Delivery * World :=
  match t with
  | Created => (Propagates r, w)
  | Sleeping _ => except_Exception r w
  | Finished => (Returns Finished, w)
  end.

(** ** The numbers of the program: IEEE doubles

    The rational model above computes exactly; the program computes in
    binary64, and the two differ in the last digit [round] keeps: 70.675
    is a tie for the rational model and lies just below the tie as a
    double.  Where a property pins the digits the program stores -- the
    [round(.., 2)] of line 77, the [round(.., 1)] of line 267 -- the
    numeric code is therefore embedded a second time over the kernel's
    binary64 floats, whose [+], [-], [*], [/] and [<] are the IEEE
    operations of a Python [float]. *)

Module Ieee.

Import PrimFloat FloatOps SpecFloat.
Local Open Scope float_scope.

(** The rational a finite double stands for ([0] for NaN and the
    infinities, which stand for none). *)
Definition exact (x : float) : Q :=
  match Prim2SF x with
  | S754_finite s m e =>
      let v := if (e <? 0)%Z then Zpos m # Pos.pow 2 (Z.to_pos (- e))
               else inject_Z (Zpos m * 2 ^ e) in
      if s then Qopp v else v
  | _ => 0%Q
  end.

(** The double nearest to [k / d] for integers [k <> 0] and [d > 0]: the
    correctly rounded quotient, as the specification of IEEE division
    gives it for two exact operands. *)
Definition nearest_double (k : Z) (d : positive) : float :=
  SF2Prim (SFdiv prec emax (S754_finite (k <? 0)%Z (Z.to_pos (Z.abs k)) 0)
                           (S754_finite false d 0)).

(** [round(x, ndigits)] on a float, [ndigits >= 0]: CPython writes [x] out
    in decimal, correctly rounded to [ndigits] places (ties of the exact
    binary value to the even digit), and reads the digits back as the
    nearest double.  A result of zero keeps the sign of [x]; NaN and the
    infinities are returned as they are. *)
Definition round (x : float) (ndigits : nat) : float :=
  if is_finite x then
    let k := Py.round_half_even (exact x * inject_Z (Zpos (Py.pow10 ndigits))) in
    if (k =? 0)%Z then x * 0 else nearest_double k (Py.pow10 ndigits)
  else x.

(** [int(x)] on a float: truncation towards zero; [ValueError] on NaN,
    [OverflowError] on an infinity. *)
Definition int (x : float) : Result Z :=
  if is_nan x then Raise "cannot convert float NaN to integer"
  else if is_infinity x then Raise "cannot convert float infinity to integer"
  else Ok (Py.int (exact x)).

(** [random.uniform(a, b)] is [a + (b - a) * random.random()]. *)
Definition uniform (a b u : float) : float := a + (b - a) * u.

Record SessionData : Type := mkSession {
  sd_date : string;
  sd_activity : string;
  sd_duration : string;
  sd_avg_bpm : float;
  sd_max_bpm : Z;
  sd_min_bpm : Z
}.

(** The monitoring fields of [MonitorState], numbers as doubles. *)
Record MonitorState : Type := mkState {
  activity : string;
  heart_rate : float;
  history : list (Z * float);
  logs : list LogEntry;
  time_counter : Z;
  heart_scale : float;
  min_bpm : float;
  max_bpm : float;
  is_monitoring : bool;
  total_time : Z;
  avg_bpm : float;
  session_readings : list float;
  history_sessions : list SessionData
}.

Definition init_state : MonitorState := {|
  activity := EmptyString;
  heart_rate := 72.0;
  history := [];
  logs := [];
  time_counter := 0%Z;
  heart_scale := 1.0;
  min_bpm := 999.0;
  max_bpm := 0.0;
  is_monitoring := false;
  total_time := 0%Z;
  avg_bpm := 0.0;
  session_readings := [];
  history_sessions := []
|}.

Definition set_heart_rate (v : float) (s : MonitorState) : MonitorState :=
  mkState (activity s) v (history s) (logs s) (time_counter s) (heart_scale s)
    (min_bpm s) (max_bpm s) (is_monitoring s) (total_time s) (avg_bpm s)
    (session_readings s) (history_sessions s).

Definition set_is_monitoring (v : bool) (s : MonitorState) : MonitorState :=
  mkState (activity s) (heart_rate s) (history s) (logs s) (time_counter s)
    (heart_scale s) (min_bpm s) (max_bpm s) v (total_time s) (avg_bpm s)
    (session_readings s) (history_sessions s).

Definition set_history_sessions (v : list SessionData) (s : MonitorState)
  : MonitorState :=
  mkState (activity s) (heart_rate s) (history s) (logs s) (time_counter s)
    (heart_scale s) (min_bpm s) (max_bpm s) (is_monitoring s) (total_time s)
    (avg_bpm s) (session_readings s) v.

Definition Profile : Type := (float * float * float * float)%type.

(** The table of line 54; its integers become floats as soon as they meet
    one, without loss. *)
Definition activity_profiles : list (string * Profile) :=
  [ ("Resting"%string, (60, 80, 0.9, 0.5));
    ("Walking"%string, (90, 110, 0.7, 1.0));
    ("Running"%string, (130, 160, 0.4, 2.0));
    ("Gym"%string, (110, 140, 0.5, 1.5));
    ("Swimming"%string, (100, 130, 0.6, 1.2)) ].

Definition default_profile : Profile := (70, 100, 0.8, 0.8).

(** Lines 68 to 77; [u_target] and [u_noise] are the two values
    [random.random()] returns.  The augmented assignment of line 74 adds
    the whole right-hand side to the heart rate. *)
Definition update_signal (p : Profile) (u_target u_noise : float)
  (s : MonitorState) : MonitorState :=
  let '(base_hr, target_range, momentum, fluctuation) := p in
  let target_hr := uniform base_hr target_range u_target in
  let random_step := uniform (- fluctuation) fluctuation u_noise in
  let s :=
    set_heart_rate
      (heart_rate s + ((target_hr - heart_rate s) * (1 - momentum) + random_step))
      s in
  set_heart_rate (round (heart_rate s) 2) s.

(** The heart rate lines 80 to 85 leave; [u] is the value of
    [random.random()] they draw when a boundary is hit. *)
Definition enforce_boundaries_heart_rate (u : float) (s : MonitorState) : float :=
  if heart_rate s <? 40 then uniform 40 45 u
  else if 190 <? heart_rate s then uniform 180 190 u
  else heart_rate s.

(** The heart rate after each of a run of steps, given the draws of each
    step. *)
Fixpoint stepped_heart_rates (p : Profile) (draws : list (float * float * float))
  (s : MonitorState) : list float :=
  match draws with
  | [] => []
  | (u_target, u_noise, u_boundary) :: rest =>
      let h := enforce_boundaries_heart_rate u_boundary
                 (update_signal p u_target u_noise s) in
      h :: stepped_heart_rates p rest (set_heart_rate h s)
  end.

(** The dictionary of lines 263 to 270, its entries evaluated in order. *)
Definition session_data (date : string) (s : MonitorState) : Result SessionData :=
  let duration := format_duration (total_time s) in
  let avg := round (avg_bpm s) 1 in
  match int (max_bpm s) with
  | Raise e => Raise e
  | Ok hi =>
      match int (min_bpm s) with
      | Raise e => Raise e
      | Ok lo => Ok (mkSession date (activity s) duration avg hi lo)
      end
  end.

(** [stop_monitoring], [date] being the reading of the clock at line 264.
    An exception of line 268 or 269 leaves the flag cleared and the list
    as it was. *)
Definition stop_monitoring (date : string) (s : MonitorState)
  : Result unit * MonitorState :=
  let s := set_is_monitoring false s in
  match session_readings s with
  | [] => (Ok tt, s)
  | _ :: _ =>
      match session_data date s with
      | Ok summary => (Ok tt, set_history_sessions (history_sessions s ++ [summary]) s)
      | Raise e => (Raise e, s)
      end
  end.

(** A sample state: the monitor one tick into a "Running" session whose
    draws were 0 and 0.9625. *)
Definition one_tick_running : MonitorState :=
  mkState "Running" 108.65 [(1%Z, 108.65)] [] 1 1.2 108.65 108.65 true 1 108.65
    [108.65] [].

End Ieee.

(** ** Notions used to state the properties *)

(** The contract of [random.random()]: every value lies in the unit
    interval (the source library promises the half-open [[0, 1)]). *)
Definition unit_draws (env : Env) : Prop :=
  forall n, 0 <= random env n <= 1.

(** The smoothed and rounded value of a step as a function of the previous
    heart rate, the profile and the two draws of [random.random()]. *)
Definition signal_value (p : Profile) (hr u_target u_noise : Q) : Q :=
  let '(base_hr, target_range, momentum, fluctuation) := p in
  let target_hr := Py.uniform_of base_hr target_range u_target in
  let noise := Py.uniform_of (- fluctuation) fluctuation u_noise in
  Py.round (hr + (target_hr - hr) * (1 - momentum) + noise) 2.

(** The value kept by the boundary stage, [u] being the next draw. *)
Definition boundary_value (v u : Q) : Q :=
  if Py.ltb v 40 then Py.uniform_of 40 45 u
  else if Py.ltb 190 v then Py.uniform_of 180 190 u
  else v.

(** The sum of a list, by structural recursion. *)
Fixpoint total (l : list Q) : Q :=
  match l with
  | [] => 0
  | x :: rest => x + total rest
  end.

(** The sum of a list divided by the number of its elements. *)
Definition arithmetic_mean (l : list Q) : Q :=
  total l / inject_Z (Z.of_nat (List.length l)).

(** [min_bpm] and [max_bpm] bracket every reading of the session. *)
Definition brackets (s : MonitorState) : Prop :=
  Forall (fun r => min_bpm s <= r <= max_bpm s) (session_readings s).

(** The [n] most recent elements of a sequence that grows at the back. *)
Definition last_n {A : Type} (n : nat) (l : list A) : list A :=
  skipn (List.length l - n) l.

(** The tick numbers [a, a+1, ..] of [n] consecutive steps. *)
Definition ticks_from (a : Z) (n : nat) : list Z :=
  map (fun k => (a + Z.of_nat k)%Z) (seq 0 n).

(** Every sample of the session with its tick number, oldest first. *)
Definition session_samples (s : MonitorState) : list (Z * Q) :=
  combine (ticks_from 1 (List.length (session_readings s))) (session_readings s).

(** Neighbouring pairs carry tick numbers that differ by one. *)
Definition consecutive_ticks (h : list (Z * Q)) : Prop :=
  forall i a b,
    nth_error h i = Some a -> nth_error h (S i) = Some b ->
    fst b = (fst a + 1)%Z.

(** Two entries that [log_event] would take for the same event. *)
Definition same_event (a b : LogEntry) : Prop :=
  log_message a = log_message b /\ log_type a = log_type b.

(** The entries at positions 0 and 1, when both exist, differ in message
    or type. *)
Definition head_pair_distinct (l : list LogEntry) : Prop :=
  forall a b, nth_error l 0 = Some a -> nth_error l 1 = Some b -> ~ same_event a b.

(** A coroutine that has not returned. *)
Definition live (t : Task) : bool :=
  match t with
  | Finished => false
  | _ => true
  end.

(** The number of stepping tasks the event loop still holds. *)
Definition live_tasks (w : World) : nat := List.length (filter live (tasks w)).

(** The profile a suspended coroutine steps with when it is resumed in
    state [s]: the one it holds, or the one it is about to look up. *)
Definition profile_of (t : Task) (s : MonitorState) : Profile :=
  match t with
  | Sleeping p => p
  | _ => dict_get activity_profiles (activity s) default_profile
  end.

(** [history] after the append and the eviction of step 6. *)
Definition window (h : list (Z * Q)) : list (Z * Q) :=
  if (60 <? List.length h)%nat then tl h else h.

(** The invariant of the statistics of a session. *)
Definition statistics_consistent (s : MonitorState) : Prop :=
  brackets s /\
  (session_readings s <> [] -> avg_bpm s == arithmetic_mean (session_readings s)).

(** The invariant of the chart window of a session. *)
Definition window_consistent (s : MonitorState) : Prop :=
  history s = last_n 60 (session_samples s) /\
  time_counter s = Z.of_nat (List.length (session_readings s)).

(** The new entry repeats the head of the log: same message, same type. *)
Definition duplicates_head (l : list LogEntry) (message type : string) : Prop :=
  exists e rest, l = e :: rest /\ log_message e = message /\ log_type e = type.

(** The invariant of the alert log. *)
Definition log_consistent (s : MonitorState) : Prop :=
  (List.length (logs s) <= 100)%nat /\ head_pair_distinct (logs s).

(** [z] is [x] truncated towards zero. *)
Definition truncation_of (x : Q) (z : Z) : Prop :=
  (0 <= x -> inject_Z z <= x < inject_Z z + 1) /\
  (x <= 0 -> inject_Z z - 1 < x <= inject_Z z).

(** [k] is the integer nearest to [y]; half-way between two integers it is
    the even one. *)
Definition nearest_even (y : Q) (k : Z) : Prop :=
  y - (1 # 2) <= inject_Z k <= y + (1 # 2) /\
  (inject_Z k - y == 1 # 2 \/ y - inject_Z k == 1 # 2 -> Z.even k = true).

(** ** Sample inputs *)

(** A fixed sequence of draws in [[0, 1)]: 0.11, 0.48, 0.85, 0.22, ... *)
Definition sample_random (n : nat) : Q := Z.of_nat ((n * 37 + 11) mod 100) # 100.

Definition sample_env : Env := {|
  random := sample_random;
  now_hms := fun n => ("12:00:" ++ Py.fmt_02d (Z.of_nat (n mod 60)))%string;
  now_date := fun _ => "2024-01-01 12:00"%string;
  on_update := None
|}.

(** The same inputs with a refresh callback that fails once the session
    holds three readings. *)
Definition faulty_env : Env := {|
  random := sample_random;
  now_hms := now_hms sample_env;
  now_date := now_date sample_env;
  on_update := Some (fun s =>
    if (3 <=? List.length (session_readings s))%nat
    then Some "control is detached"%string
    else None)
|}.

(** The same inputs with every draw equal to 0.125. *)
Definition eighth_env : Env := {|
  random := fun _ => 0.125;
  now_hms := now_hms sample_env;
  now_date := now_date sample_env;
  on_update := None
|}.

(** Two rows of [activity_profiles]. *)
Definition resting : Profile := (60, 80, 0.9, 0.5).
Definition running : Profile := (130, 160, 0.4, 2.0).

(** A monitoring world, [ticks] steps into a "Running" session. *)
Definition running_session (ticks : nat) : World :=
  run_events sample_env
    ([SelectActivity "Running"; StartMonitoring] ++ repeat (Resume 0) ticks)
    init_world.

(** A world whose heart rate was forced far below the floor. *)
Definition low_world : World :=
  mkWorld (set_heart_rate 10 (set_is_monitoring true init_state)) 0 0 [] [Sleeping resting].

(** A world whose heart rate was forced far above the ceiling. *)
Definition high_world : World :=
  mkWorld (set_heart_rate 400 (set_is_monitoring true init_state)) 0 0 [] [Sleeping resting].

(** The world after the step that hits the floor: one ALERT in the log. *)
Definition alert_world : World := exec (simulation_step sample_env resting) low_world.

(** A "Running" session under the failing callback. *)
Definition faulty_session (ticks : nat) : World :=
  run_events faulty_env
    ([SelectActivity "Running"; StartMonitoring] ++ repeat (Resume 0) ticks)
    init_world.

(** ** Notions and samples for the further properties *)

(** The keys of [activity_profiles]. *)
Definition activity_names : list string := map fst activity_profiles.

(** Every tuple [run_simulation] can unpack: the rows of the table and the
    fallback of [dict.get]. *)
Definition known_profiles : list Profile :=
  default_profile :: map snd activity_profiles.

(** A profile whose steps keep a heart rate between [lo] and [hi] there:
    the target band lies inside, far enough from both ends to absorb the
    noise. *)
Definition keeps_within (lo hi : Q) (p : Profile) : Prop :=
  let '(base_hr, target_range, momentum, fluctuation) := p in
  0 <= momentum <= 1 /\ base_hr <= target_range /\ 0 <= fluctuation /\
  fluctuation <= (1 - momentum) * (base_hr - lo) /\
  fluctuation <= (1 - momentum) * (hi - target_range).

(** A suspended coroutine holds a tuple of the table or the fallback. *)
Definition task_profile_known (t : Task) : Prop :=
  match t with
  | Sleeping p => In p known_profiles
  | _ => True
  end.

(** The heart rate has stayed in the band [[55, 164]] and nothing was ever
    logged. *)
Definition quiet (w : World) : Prop :=
  55 <= heart_rate (ms w) <= 164 /\
  logs (ms w) = [] /\
  Forall (fun r => 55 <= r <= 164) (session_readings (ms w)) /\
  Forall (fun point => 55 <= snd point <= 164) (history (ms w)) /\
  Forall task_profile_known (tasks w).

(** What the statistics of a session look like: before the first reading
    the sentinels, afterwards extremes that are readings themselves; every
    reading within the bounds of step 4. *)
Definition session_sound (s : MonitorState) : Prop :=
  (session_readings s = [] -> min_bpm s = 999.0 /\ max_bpm s = 0.0 /\ avg_bpm s = 0.0) /\
  (session_readings s <> [] ->
   In (min_bpm s) (session_readings s) /\ In (max_bpm s) (session_readings s)) /\
  Forall (fun r => 40 <= r <= 190) (session_readings s) /\
  statistics_consistent s.

(** A summary whose numbers fit together. *)
Definition summary_sane (sd : SessionData) : Prop :=
  (40 <= sd_min_bpm sd)%Z /\ (sd_min_bpm sd <= sd_max_bpm sd)%Z /\
  (sd_max_bpm sd <= 190)%Z /\
  inject_Z (sd_min_bpm sd) <= sd_avg_bpm sd <= inject_Z (sd_max_bpm sd) + 1 /\
  40 <= sd_avg_bpm sd <= 190.

(** Both counters count the readings of the session. *)
Definition counters_consistent (s : MonitorState) : Prop :=
  total_time s = Z.of_nat (List.length (session_readings s)) /\
  time_counter s = Z.of_nat (List.length (session_readings s)).

(** The number of [stop_monitoring] events in a run. *)
Definition count_stops (evs : list Event) : nat :=
  List.length (filter (fun ev => match ev with StopMonitoring => true | _ => false end) evs).

(** The controls [update_ui] pushes to the client with [update()]. *)
Inductive Control : Type :=
| HrText
| MinBpmText
| MaxBpmText
| AvgBpmText
| Chart
| HeartIcon
| LogList.

(** The [ft.LineChart] of the monitor page: the points of its one data
    series and its axis bounds. *)
Record LineChart : Type := mkChart {
  data_points : list (Z * Q);
  min_x : option Z;
  max_x : option Z;
  min_y : Q;
  max_y : Q
}.

(** A row of the alert panel: the icon and its colour, the two texts and
    the border colour. *)
Record LogRow : Type := mkRow {
  row_icon : string;
  row_color : string;
  row_time : string;
  row_message : string;
  row_border : string
}.

(** The widgets [main] creates and [update_ui] writes; [chart_ref] and
    [heart_icon_ref] are the [ft.Ref]s, empty until the monitor page is
    built; [pushed] lists the successful [update()] calls, oldest first. *)
Record Ui : Type := mkUi {
  hr_text : string;
  min_bpm_text : string;
  max_bpm_text : string;
  avg_bpm_text : string;
  chart_ref : option LineChart;
  heart_icon_ref : option (option Q);
  dashboard_log_list : list LogRow;
  route : string;
  pushed : list Control
}.

(** The widgets as [main] creates them, on route [r]. *)
Definition init_ui (r : string) : Ui :=
  mkUi "72" "--" "--" "--" None None [] r [].

(** The chart as [create_monitor_page] builds it. *)
Definition new_chart : LineChart := mkChart [] None None 30 180.

(** Statements over the widgets that may raise. *)
Definition U (A : Type) : Type := Ui -> Result A * Ui.

Definition assign (f : Ui -> Ui) : U unit := fun u => (Ok tt, f u).

Definition useq (a b : U unit) : U unit :=
  fun u =>
    match a u with
    | (Ok _, u') => b u'
    | (Raise e, u') => (Raise e, u')
    end.

(** [try: body except Exception: pass]. *)
Definition try_pass (body : U unit) : U unit :=
  fun u =>
    match body u with
    | (Ok _, u') => (Ok tt, u')
    | (Raise _, u') => (Ok tt, u')
    end.

Definition mark_pushed (c : Control) (u : Ui) : Ui :=
  mkUi (hr_text u) (min_bpm_text u) (max_bpm_text u) (avg_bpm_text u)
    (chart_ref u) (heart_icon_ref u) (dashboard_log_list u) (route u)
    (pushed u ++ [c]).

(** [control.update()]: it raises when [fails] says so, else the control
    is pushed to the client. *)
Definition update_control (fails : Control -> option string) (c : Control) : U unit :=
  fun u =>
    match fails c with
    | Some e => (Raise e, u)
    | None => (Ok tt, mark_pushed c u)
    end.

(** What the widgets show, whatever was pushed. *)
Definition shown (u : Ui) :=
  (hr_text u, min_bpm_text u, max_bpm_text u, avg_bpm_text u,
   chart_ref u, heart_icon_ref u, dashboard_log_list u, route u).

Definition set_hr_text (v : string) (u : Ui) : Ui :=
  mkUi v (min_bpm_text u) (max_bpm_text u) (avg_bpm_text u)
    (chart_ref u) (heart_icon_ref u) (dashboard_log_list u) (route u) (pushed u).
Definition set_min_bpm_text (v : string) (u : Ui) : Ui :=
  mkUi (hr_text u) v (max_bpm_text u) (avg_bpm_text u)
    (chart_ref u) (heart_icon_ref u) (dashboard_log_list u) (route u) (pushed u).
Definition set_max_bpm_text (v : string) (u : Ui) : Ui :=
  mkUi (hr_text u) (min_bpm_text u) v (avg_bpm_text u)
    (chart_ref u) (heart_icon_ref u) (dashboard_log_list u) (route u) (pushed u).
Definition set_avg_bpm_text (v : string) (u : Ui) : Ui :=
  mkUi (hr_text u) (min_bpm_text u) (max_bpm_text u) v
    (chart_ref u) (heart_icon_ref u) (dashboard_log_list u) (route u) (pushed u).
Definition set_chart_ref (v : option LineChart) (u : Ui) : Ui :=
  mkUi (hr_text u) (min_bpm_text u) (max_bpm_text u) (avg_bpm_text u)
    v (heart_icon_ref u) (dashboard_log_list u) (route u) (pushed u).
Definition set_heart_icon_ref (v : option (option Q)) (u : Ui) : Ui :=
  mkUi (hr_text u) (min_bpm_text u) (max_bpm_text u) (avg_bpm_text u)
    (chart_ref u) v (dashboard_log_list u) (route u) (pushed u).
Definition set_dashboard_log_list (v : list LogRow) (u : Ui) : Ui :=
  mkUi (hr_text u) (min_bpm_text u) (max_bpm_text u) (avg_bpm_text u)
    (chart_ref u) (heart_icon_ref u) v (route u) (pushed u).

(** The four text values. *)
Definition update_texts (s : MonitorState) (u : Ui) : Ui :=
  let u := set_hr_text (Py.str (Py.int (heart_rate s))) u in
  let u := if Py.ltb (min_bpm s) 999
           then set_min_bpm_text (Py.str (Py.int (min_bpm s))) u else u in
  let u := if Py.ltb 0 (max_bpm s)
           then set_max_bpm_text (Py.str (Py.int (max_bpm s))) u else u in
  match session_readings s with
  | [] => u
  | _ :: _ => set_avg_bpm_text (Py.str (Py.int (avg_bpm s))) u
  end.

(** The chart with the points and the x axis of [history]. *)
Definition plot (h : list (Z * Q)) (c : LineChart) : LineChart :=
  match h with
  | [] => mkChart h (min_x c) (max_x c) (min_y c) (max_y c)
  | first :: _ =>
      let lo := fst first in
      let hi := fst (last h first) in
      mkChart h (Some lo)
        (Some (if (lo + 60 <? hi)%Z then hi else (lo + 60)%Z))
        (min_y c) (max_y c)
  end.

Definition update_chart (fails : Control -> option string) (s : MonitorState) : U unit :=
  fun u =>
    match chart_ref u with
    | None => (Ok tt, u)
    | Some c =>
        try_pass
          (useq (assign (set_chart_ref (Some (plot (history s) c))))
                (update_control fails Chart)) u
    end.

Definition update_heart_icon (fails : Control -> option string) (s : MonitorState) : U unit :=
  fun u =>
    match heart_icon_ref u with
    | None => (Ok tt, u)
    | Some _ =>
        try_pass
          (useq (assign (set_heart_icon_ref (Some (Some (heart_scale s)))))
                (update_control fails HeartIcon)) u
    end.

(** The row built for one log entry. *)
Definition log_row (e : LogEntry) : LogRow :=
  let color :=
    if String.eqb (log_type e) "ALERT" then "redAccent"%string
    else if String.eqb (log_type e) "WARNING" then "orangeAccent"%string
    else "grey"%string in
  let icon :=
    if String.eqb (log_type e) "ALERT" then "warning"%string
    else if String.eqb (log_type e) "WARNING" then "info"%string
    else "circle"%string in
  mkRow icon color (log_time e) (log_message e) (color ++ "30")%string.

Definition update_log_list (fails : Control -> option string) (s : MonitorState) : U unit :=
  fun u =>
    if String.eqb (route u) "/monitor" then
      try_pass
        (useq (assign (set_dashboard_log_list (map log_row (firstn 8 (logs s)))))
              (update_control fails LogList)) u
    else (Ok tt, u).

Definition push_texts (fails : Control -> option string) : U unit :=
  try_pass
    (useq (update_control fails HrText)
       (useq (update_control fails MinBpmText)
          (useq (update_control fails MaxBpmText)
             (update_control fails AvgBpmText)))).

(** [update_ui], for the state [s] it reads. *)
Definition update_ui (fails : Control -> option string) (s : MonitorState) : U unit :=
  useq (assign (update_texts s))
    (useq (update_chart fails s)
       (useq (update_heart_icon fails s)
          (useq (update_log_list fails s)
             (push_texts fails)))).

(** [update_ui] as the callback [monitor_state.on_update], over widgets
    [u]: what it raises, if anything. *)
Definition ui_callback (fails : Control -> option string) (u : Ui)
  : MonitorState -> option string :=
  fun s =>
    match fst (update_ui fails s u) with
    | Ok _ => None
    | Raise e => Some e
    end.

(** An environment whose refresh callback is [update_ui]. *)
Definition ui_env (env : Env) (fails : Control -> option string) (u : Ui) : Env :=
  mkEnv (random env) (now_hms env) (now_date env) (Some (ui_callback fails u)).

(** The four routes the application knows. *)
Definition known_routes : list string :=
  ["/profile"; "/activity"; "/monitor"; "/history"]%string.

(** [view_pop] on the stack [views]: the stack it leaves and the route it
    passes to [page.go], or the [IndexError] of [pop()] or of
    [page.views[-1]]. *)
Definition view_pop (views : list string) : Result string * list string :=
  match views with
  | [] => (Raise "pop from empty list", views)
  | _ :: _ =>
      let views := removelast views in
      match views with
      | [] => (Raise "list index out of range", views)
      | _ :: _ => (Ok (last views EmptyString), views)
      end
  end.

(** The container [build_activity_card] returns: name, icon and the
    attributes that depend on the selection. *)
Record Card : Type := mkCard {
  card_name : string;
  card_icon : string;
  card_icon_color : string;
  card_text_color : string;
  card_bgcolor : string;
  card_border_width : Z;
  card_border_color : string
}.

Definition build_activity_card (activity_name icon color : string)
  (is_selected : bool) : Card :=
  mkCard activity_name icon
    (if is_selected then color else "white70"%string)
    (if is_selected then "white"%string else "white70"%string)
    (if is_selected then (color ++ "30")%string else "white10"%string)
    (if is_selected then 3%Z else 1%Z)
    (if is_selected then color else "white10"%string).

(** The five cards, as [create_activity_page] and the handler of
    [select_activity] build them from [monitor_state.activity]. *)
Definition activity_cards (s : MonitorState) : list Card :=
  [ build_activity_card "Resting" "spa" "#9C27B0"
      (String.eqb (activity s) "Resting");
    build_activity_card "Walking" "directions_walk" "#4CAF50"
      (String.eqb (activity s) "Walking");
    build_activity_card "Running" "directions_run" "#FF9800"
      (String.eqb (activity s) "Running");
    build_activity_card "Gym" "fitness_center" "#F44336"
      (String.eqb (activity s) "Gym");
    build_activity_card "Swimming" "pool" "#2196F3"
      (String.eqb (activity s) "Swimming") ].

(** A card drawn as selected: the thick border. *)
Definition card_selected (c : Card) : bool := (card_border_width c =? 3)%Z.

(** [activity_colors] of [build_history_list]. *)
Definition activity_colors : list (string * string) :=
  [ ("Resting", "#9C27B0"); ("Walking", "#4CAF50"); ("Running", "#FF9800");
    ("Gym", "#F44336"); ("Swimming", "#2196F3") ]%string.

(** A control of the history list: the placeholder text, or the row of a
    session with the colour of its bar; the texts of a row are formatted
    from the fields of the session. *)
Inductive HistoryItem : Type :=
| Placeholder (text : string)
| SessionRow (bar_color : string) (session : SessionData).

Definition session_row (session : SessionData) : HistoryItem :=
  SessionRow (dict_get activity_colors (sd_activity session) "white"%string) session.

(** [Control.update()]: flet asserts that the control is on a page. *)
Definition control_update (on_page : bool) : Result unit :=
  if on_page then Ok tt else Raise "Control must be added to the page first".

(** [build_history_list]: [controls.clear()], then the placeholder or one
    [controls.insert(0, ..)] for each session in order, then
    [history_list.update()] on the [Column] line 503 has just created,
    which is on no page.  The controls are those of the [Column] when the
    function ends. *)
Definition build_history_list (sessions : list SessionData)
  : Result unit * list HistoryItem :=
  let controls :=
    match sessions with
    | [] => [Placeholder "No sessions recorded yet"%string]
    | _ :: _ =>
        fold_left (fun controls session => session_row session :: controls)
          sessions []
    end in
  (control_update false, controls).

(** [create_history_page]: the list of the page it returns, when
    [build_history_list] lets it. *)
Definition create_history_page (sessions : list SessionData)
  : Result (list HistoryItem) :=
  match build_history_list sessions with
  | (Ok _, controls) => Ok controls
  | (Raise e, _) => Raise e
  end.

(** [route_change] for [page.route = r]: the routes of the views on
    [page.views] when it ends, bottom first, and whether it ended by an
    exception; [sessions] is [monitor_state.history_sessions].  The pages
    other than the history page are built without a call that can fail. *)
Definition route_change (r : string) (sessions : list SessionData)
  : Result unit * list string :=
  let views := ["/profile"%string] in
  let views :=
    if String.eqb r "/activity" || String.eqb r "/monitor" || String.eqb r "/history"
    then views ++ ["/activity"%string] else views in
  let views :=
    if String.eqb r "/monitor" then views ++ ["/monitor"%string] else views in
  if String.eqb r "/history" then
    let views :=
      if negb (existsb (String.eqb "/activity") views)
      then views ++ ["/activity"%string] else views in
    let views :=
      if negb (existsb (String.eqb "/monitor") views)
      then views ++ ["/monitor"%string] else views in
    match create_history_page sessions with
    | Ok _ => (Ok tt, views ++ ["/history"%string])
    | Raise e => (Raise e, views)
    end
  else (Ok tt, views).

(** * Properties *)

(** ** Comparisons and draws *)

Lemma ltb_true_iff (x y : Q) : Py.ltb x y = true <-> x < y.
Proof.
  unfold Py.ltb. rewrite negb_true_iff.
  destruct (Qle_bool y x) eqn:E.
  - apply Qle_bool_iff in E. split; [discriminate | lra].
  - split; [intros _ | reflexivity].
    destruct (Qlt_le_dec x y) as [H | H]; [exact H |].
    apply Qle_bool_iff in H. congruence.
Qed.

Lemma ltb_false_iff (x y : Q) : Py.ltb x y = false <-> y <= x.
Proof.
  destruct (Py.ltb x y) eqn:E.
  - apply ltb_true_iff in E. split; [discriminate | lra].
  - split; [intros _ | reflexivity].
    destruct (Qlt_le_dec x y) as [H | H]; [| exact H].
    apply ltb_true_iff in H. congruence.
Qed.

Lemma low_draw_range (u : Q) :
  0 <= u <= 1 -> 40 <= Py.uniform_of 40 45 u <= 45.
Proof. unfold Py.uniform_of. lra. Qed.

Lemma high_draw_range (u : Q) :
  0 <= u <= 1 -> 180 <= Py.uniform_of 180 190 u <= 190.
Proof. unfold Py.uniform_of. lra. Qed.

Lemma boundary_value_range (v u : Q) :
  0 <= u <= 1 -> 40 <= boundary_value v u <= 190.
Proof.
  intros Hu. unfold boundary_value.
  destruct (Py.ltb v 40) eqn:Elow.
  - pose proof (low_draw_range u Hu). lra.
  - destruct (Py.ltb 190 v) eqn:Ehigh.
    + pose proof (high_draw_range u Hu). lra.
    + apply ltb_false_iff in Elow, Ehigh. lra.
Qed.

(** ** The stages of a step *)

Lemma update_signal_exec env p w :
  update_signal env p w =
  (Ok tt,
   mkWorld
     (set_heart_rate
        (signal_value p (heart_rate (ms w))
           (random env (rng_pos w)) (random env (S (rng_pos w))))
        (ms w))
     (S (S (rng_pos w))) (clock_pos w) (console w) (tasks w)).
Proof.
  destruct p as [[[base_hr target_range] momentum] fluctuation].
  reflexivity.
Qed.

Lemma enforce_boundaries_ok env w :
  outcome (enforce_boundaries env) w = Ok tt.
Proof.
  unfold outcome, enforce_boundaries, bind, get_state.
  destruct (Py.ltb (heart_rate (ms w)) 40); [reflexivity |].
  destruct (Py.ltb 190 (heart_rate (ms w))); reflexivity.
Qed.

Lemma enforce_boundaries_heart_rate env w :
  heart_rate (ms (exec (enforce_boundaries env) w)) =
  boundary_value (heart_rate (ms w)) (random env (rng_pos w)).
Proof.
  unfold exec, enforce_boundaries, boundary_value, bind, get_state.
  destruct (Py.ltb (heart_rate (ms w)) 40); [reflexivity |].
  destruct (Py.ltb 190 (heart_rate (ms w))); reflexivity.
Qed.

Lemma stats_heart_rate s : heart_rate (update_session_stats s) = heart_rate s.
Proof.
  unfold update_session_stats.
  destruct (session_readings _); reflexivity.
Qed.

Lemma chart_heart_rate s : heart_rate (update_chart_history s) = heart_rate s.
Proof.
  unfold update_chart_history.
  destruct (_ <? _)%nat; reflexivity.
Qed.

Lemma toggle_heart_rate s : heart_rate (toggle_heart_scale s) = heart_rate s.
Proof. reflexivity. Qed.

Lemma post_clamp_heart_rate s :
  heart_rate (toggle_heart_scale (update_chart_history (update_session_stats s)))
  = heart_rate s.
Proof.
  rewrite toggle_heart_rate, chart_heart_rate. apply stats_heart_rate.
Qed.

Lemma simulation_step_state env p w :
  ms (exec (simulation_step env p) w) =
  toggle_heart_scale (update_chart_history (update_session_stats
    (ms (exec (enforce_boundaries env) (exec (update_signal env p) w))))).
Proof.
  unfold simulation_step, exec at 1, bind at 1.
  rewrite update_signal_exec.
  unfold exec at 2. rewrite update_signal_exec. cbn [snd].
  set (w1 := mkWorld _ _ _ _ _).
  unfold bind at 1.
  pose proof (enforce_boundaries_ok env w1) as Hok.
  unfold outcome in Hok. unfold exec.
  destruct (enforce_boundaries env w1) as [r w2]. cbn [fst snd] in *. subst r.
  cbn [bind modify ms].
  unfold refresh_ui. destruct (on_update env) as [callback |]; [| reflexivity].
  unfold bind, get_state. cbn [ms].
  match goal with |- context [callback ?s] => destruct (callback s) end;
    reflexivity.
Qed.

Lemma simulation_step_heart_rate env p w :
  heart_rate (ms (exec (simulation_step env p) w)) =
  boundary_value
    (signal_value p (heart_rate (ms w))
       (random env (rng_pos w)) (random env (S (rng_pos w))))
    (random env (S (S (rng_pos w)))).
Proof.
  rewrite simulation_step_state, post_clamp_heart_rate.
  rewrite enforce_boundaries_heart_rate.
  unfold exec. rewrite update_signal_exec. reflexivity.
Qed.

(** C1.  After every step of the loop the stored heart rate lies in
    [[40, 190]], whatever the state before the step: a smoothed and rounded
    value [v] below 40 is replaced by the draw [uniform(40, 45)], one above
    190 by the draw [uniform(180, 190)], any other is kept. *)
Theorem heart_rate_within_bounds (env : Env) (p : Profile) (w : World)
  (Hdraws : unit_draws env) :
  let v := heart_rate (ms (exec (update_signal env p) w)) in
  let u := random env (S (S (rng_pos w))) in
  let h := heart_rate (ms (exec (simulation_step env p) w)) in
  40 <= h <= 190 /\
  (v < 40 -> h = Py.uniform_of 40 45 u /\ 40 <= h <= 45) /\
  (190 < v -> h = Py.uniform_of 180 190 u /\ 180 <= h <= 190) /\
  (40 <= v <= 190 -> h = v).
Proof.
  intros v u h.
  assert (Hh : h = boundary_value v u).
  { subst h v u. rewrite simulation_step_heart_rate.
    unfold exec. rewrite update_signal_exec. reflexivity. }
  pose proof (Hdraws (S (S (rng_pos w)))) as Hu. fold u in Hu.
  split; [rewrite Hh; apply boundary_value_range; exact Hu |].
  rewrite Hh. unfold boundary_value.
  split; [| split].
  - intros Hv. apply ltb_true_iff in Hv. rewrite Hv.
    split; [reflexivity | apply low_draw_range; exact Hu].
  - intros Hv.
    assert (Py.ltb v 40 = false) as -> by (apply ltb_false_iff; lra).
    apply ltb_true_iff in Hv. rewrite Hv.
    split; [reflexivity | apply high_draw_range; exact Hu].
  - intros [Hlo Hhi].
    assert (Py.ltb v 40 = false) as -> by (apply ltb_false_iff; lra).
    assert (Py.ltb 190 v = false) as -> by (apply ltb_false_iff; lra).
    reflexivity.
Qed.

Lemma sample_random_unit : unit_draws sample_env.
Proof.
  intros n. unfold sample_env, random, sample_random, Qle, Qlt.
  cbn [Qnum Qden].
  pose proof (Nat.mod_upper_bound (n * 37 + 11) 100). lia.
Qed.

Lemma heart_rate_within_bounds_witness :
  unit_draws sample_env /\
  40 <= heart_rate (ms (exec (simulation_step sample_env resting) low_world)) <= 45 /\
  180 <= heart_rate (ms (exec (simulation_step sample_env resting) high_world)) <= 190 /\
  40 <= heart_rate (ms (exec (simulation_step sample_env running) init_world)) <= 190.
Proof.
  split; [exact sample_random_unit |].
  pose proof (heart_rate_within_bounds sample_env resting low_world sample_random_unit)
    as (_ & Hlow & _).
  pose proof (heart_rate_within_bounds sample_env resting high_world sample_random_unit)
    as (_ & _ & Hhigh & _).
  pose proof (heart_rate_within_bounds sample_env running init_world sample_random_unit)
    as (Hrange & _).
  split; [apply Hlow; vm_compute; reflexivity |].
  split; [apply Hhigh; vm_compute; reflexivity | exact Hrange].
Defined.

(** ** Rounding and truncation *)

Lemma round_half_even_near (y : Q) :
  y - (1 # 2) <= inject_Z (Py.round_half_even y) <= y + (1 # 2).
Proof.
  unfold Py.round_half_even.
  pose proof (Qfloor_le y) as Hlo.
  pose proof (Qlt_floor y) as Hhi.
  rewrite inject_Z_plus in Hhi. change (inject_Z 1) with 1 in Hhi.
  destruct (Qcompare (y - inject_Z (Qfloor y)) (1 # 2)) eqn:E.
  - apply Qeq_alt in E.
    destruct (Z.even (Qfloor y)); [| rewrite inject_Z_plus; change (inject_Z 1) with 1]; lra.
  - apply Qlt_alt in E. lra.
  - apply Qgt_alt in E. rewrite inject_Z_plus. change (inject_Z 1) with 1. lra.
Qed.




Lemma uniform_of_range (a b u : Q) :
  0 <= u <= 1 -> a <= b -> a <= Py.uniform_of a b u <= b.
Proof.
  intros Hu Hab. unfold Py.uniform_of.
  assert (H0 : 0 <= (b - a) * u) by (apply Qmult_le_0_compat; lra).
  assert (H1 : 0 <= (b - a) * (1 - u)) by (apply Qmult_le_0_compat; lra).
  split; lra.
Qed.

Lemma round_half_even_nearest (y : Q) : nearest_even y (Py.round_half_even y).
Proof.
  split; [apply round_half_even_near |].
  unfold Py.round_half_even.
  pose proof (Qfloor_le y) as Hlo.
  pose proof (Qlt_floor y) as Hhi.
  rewrite inject_Z_plus in Hhi. change (inject_Z 1) with 1 in Hhi.
  destruct (Qcompare (y - inject_Z (Qfloor y)) (1 # 2)) eqn:E.
  - destruct (Z.even (Qfloor y)) eqn:Ev; [intros _; exact Ev |].
    intros _. rewrite Z.even_add, Ev. reflexivity.
  - apply Qlt_alt in E. intros [H | H]; exfalso; lra.
  - apply Qgt_alt in E. rewrite inject_Z_plus. change (inject_Z 1) with 1.
    intros [H | H]; exfalso; lra.
Qed.

Lemma nearest_even_unique (y : Q) (k1 k2 : Z) :
  nearest_even y k1 -> nearest_even y k2 -> k1 = k2.
Proof.
  assert (Hstep : forall a b, nearest_even y a -> nearest_even y b ->
                              (a < b)%Z -> False).
  { intros a b [[Ha _] Hea] [[_ Hb] Heb] Hlt.
    assert (Hb1 : (a + 1 <= b)%Z) by lia.
    rewrite Zle_Qle, inject_Z_plus in Hb1. change (inject_Z 1) with 1 in Hb1.
    assert (Hya : y - inject_Z a == 1 # 2) by lra.
    assert (Hyb : inject_Z b - y == 1 # 2) by lra.
    assert (Hba : inject_Z b == inject_Z (a + 1))
      by (rewrite inject_Z_plus; change (inject_Z 1) with 1; lra).
    assert (Hz : b = (a + 1)%Z) by (apply inject_Z_injective; exact Hba).
    specialize (Hea (or_intror Hya)). specialize (Heb (or_introl Hyb)).
    rewrite Hz, Z.even_add, Hea in Heb. discriminate. }
  intros H1 H2.
  destruct (Z.lt_trichotomy k1 k2) as [H | [H | H]];
    [destruct (Hstep k1 k2 H1 H2 H) | exact H | destruct (Hstep k2 k1 H2 H1 H)].
Qed.

Section Doubles.

Import PrimFloat FloatOps.

Lemma round_is_nearest (x : float) (n : nat) :
  (is_finite x = true ->
   exists k : Z,
     nearest_even (Ieee.exact x * inject_Z (Zpos (Py.pow10 n))) k /\
     Ieee.round x n =
       if (k =? 0)%Z then (x * 0)%float else Ieee.nearest_double k (Py.pow10 n)) /\
  (is_finite x = false -> Ieee.round x n = x).
Proof.
  unfold Ieee.round. split; intros Hf; rewrite Hf; [| reflexivity].
  eexists. split; [apply round_half_even_nearest | reflexivity].
Qed.

Lemma heart_rate_set (v : float) (s : Ieee.MonitorState) :
  Ieee.heart_rate (Ieee.set_heart_rate v s) = v.
Proof. reflexivity. Qed.

Lemma update_signal_heart_rate (p : Ieee.Profile) (u_target u_noise : float)
  (s : Ieee.MonitorState) :
  let '(base_hr, target_range, momentum, fluctuation) := p in
  Ieee.heart_rate (Ieee.update_signal p u_target u_noise s) =
  Ieee.round
    (Ieee.heart_rate s +
     ((Ieee.uniform base_hr target_range u_target - Ieee.heart_rate s) * (1 - momentum) +
      Ieee.uniform (- fluctuation) fluctuation u_noise))%float 2.
Proof. destruct p as [[[b r] m] f]. reflexivity. Qed.

Lemma stepped_heart_rates_from (p : Ieee.Profile)
  (draws : list (float * float * float)) (s s2 : Ieee.MonitorState) :
  Ieee.heart_rate s2 = Ieee.heart_rate s ->
  Ieee.stepped_heart_rates p draws s2 = Ieee.stepped_heart_rates p draws s.
Proof.
  revert s s2. induction draws as [| [[u1 u2] u3] rest IH]; intros s s2 Hhr;
    [reflexivity |].
  cbn [Ieee.stepped_heart_rates].
  assert (Hsig : Ieee.heart_rate (Ieee.update_signal p u1 u2 s2) =
                 Ieee.heart_rate (Ieee.update_signal p u1 u2 s)).
  { pose proof (update_signal_heart_rate p u1 u2 s) as H1.
    pose proof (update_signal_heart_rate p u1 u2 s2) as H2.
    destruct p as [[[b r] m] f]. rewrite H1, H2, Hhr. reflexivity. }
  assert (Hb : Ieee.enforce_boundaries_heart_rate u3 (Ieee.update_signal p u1 u2 s2) =
               Ieee.enforce_boundaries_heart_rate u3 (Ieee.update_signal p u1 u2 s)).
  { unfold Ieee.enforce_boundaries_heart_rate. rewrite Hsig. reflexivity. }
  rewrite Hb. f_equal. apply IH. reflexivity.
Qed.

(** C2.  A step sets the heart rate to
    [heart_rate + ((target_hr - heart_rate) * (1 - momentum) + noise)],
    computed in doubles with [target_hr = uniform(base_hr, target_range)]
    and [noise = uniform(-fluctuation, fluctuation)], and stores its
    [round(.., 2)]: the double nearest to [k / 100], [k] being the integer
    nearest to a hundred times the exact value of the sum (the even one at
    a tie).  No other field changes, the boundary stage reads the rounded
    value, and the stepped values are a function of the previous heart
    rate, the profile and the draws. *)
Theorem signal_update_in_doubles
  (base_hr target_range momentum fluctuation : float)
  (u_target u_noise u_boundary : float) (s : Ieee.MonitorState) :
  let p := (base_hr, target_range, momentum, fluctuation) in
  let hr := Ieee.heart_rate s in
  let target_hr := (base_hr + (target_range - base_hr) * u_target)%float in
  let noise := (- fluctuation + (fluctuation - - fluctuation) * u_noise)%float in
  let smoothed := (hr + ((target_hr - hr) * (1 - momentum) + noise))%float in
  let s' := Ieee.update_signal p u_target u_noise s in
  Ieee.heart_rate s' = Ieee.round smoothed 2 /\
  (is_finite smoothed = true ->
   exists k : Z,
     nearest_even (Ieee.exact smoothed * 100) k /\
     (forall k', nearest_even (Ieee.exact smoothed * 100) k' -> k' = k) /\
     Ieee.heart_rate s' =
       if (k =? 0)%Z then (smoothed * 0)%float else Ieee.nearest_double k 100) /\
  (is_finite smoothed = false -> Ieee.heart_rate s' = smoothed) /\
  Ieee.set_heart_rate hr s' = s /\
  Ieee.stepped_heart_rates p [(u_target, u_noise, u_boundary)] s =
    [Ieee.enforce_boundaries_heart_rate u_boundary s'] /\
  (forall draws s2,
     Ieee.heart_rate s2 = hr ->
     Ieee.stepped_heart_rates p draws s2 = Ieee.stepped_heart_rates p draws s).
Proof.
  intros p hr target_hr noise smoothed s'.
  assert (Hr : Ieee.heart_rate s' = Ieee.round smoothed 2) by reflexivity.
  destruct (round_is_nearest smoothed 2) as [Hfin Hinf].
  split; [exact Hr |].
  split.
  { intros Hf. destruct (Hfin Hf) as (k & Hk & Hround).
    exists k. split; [exact Hk |].
    split; [intros k' Hk'; exact (nearest_even_unique _ k' k Hk' Hk) |].
    rewrite Hr. exact Hround. }
  split; [intros Hf; rewrite Hr; apply Hinf; exact Hf |].
  split; [destruct s; reflexivity |].
  split; [reflexivity |].
  intros draws s2 Hhr. apply stepped_heart_rates_from. exact Hhr.
Qed.

Lemma signal_update_in_doubles_witness :
  is_finite
    (72.0 + ((60 + (80 - 60) * 0.125 - 72.0) * (1 - 0.9)
             + (- 0.5 + (0.5 - - 0.5) * 0.125)))%float = true /\
  7067 - (1 # 2) <
    Ieee.exact
      (72.0 + ((60 + (80 - 60) * 0.125 - 72.0) * (1 - 0.9)
               + (- 0.5 + (0.5 - - 0.5) * 0.125)))%float * 100
    < 7067 + (1 # 2) /\
  Ieee.heart_rate
    (Ieee.update_signal (60, 80, 0.9, 0.5)%float 0.125%float 0.125%float
       Ieee.init_state) = 70.67%float /\
  Ieee.stepped_heart_rates (90, 110, 0.7, 1.0)%float
    [(0.11, 0.48, 0); (0.85, 0.22, 0); (0.59, 0.96, 0)]%float Ieee.init_state =
    [78.02; 86.15; 91.77]%float.
Proof.
  pose proof (signal_update_in_doubles 60 80 0.9 0.5 0.125 0.125 0 Ieee.init_state)
    as (Hround & _).
  assert (Hfinite : is_finite
            (72.0 + ((60 + (80 - 60) * 0.125 - 72.0) * (1 - 0.9)
                     + (- 0.5 + (0.5 - - 0.5) * 0.125)))%float = true)
    by (vm_compute; reflexivity).
  split; [exact Hfinite |].
  split.
  { split; unfold Qlt; vm_compute; reflexivity. }
  split; [rewrite Hround; vm_compute; reflexivity |].
  vm_compute. reflexivity.
Defined.

(** The rational model does not give these digits: on the same input it
    meets the tie 70.675 and rounds it to the even neighbour. *)
Remark rational_model_rounds_the_tie :
  heart_rate (ms (exec (update_signal eighth_env resting) init_world)) == 70.68 /\
  Ieee.heart_rate
    (Ieee.update_signal (60, 80, 0.9, 0.5)%float 0.125%float 0.125%float
       Ieee.init_state) = 70.67%float.
Proof. split; vm_compute; reflexivity. Qed.

End Doubles.

(** ** The state after a step, field by field *)

Lemma update_session_stats_eq s :
  update_session_stats s =
  let readings := session_readings s ++ [heart_rate s] in
  mkState (activity s) (heart_rate s) (history s) (logs s) (time_counter s)
    (heart_scale s) (Py.min (min_bpm s) (heart_rate s))
    (Py.max (max_bpm s) (heart_rate s)) (is_monitoring s) (total_time s)
    (Py.sum readings / Py.len readings) readings (history_sessions s).
Proof.
  unfold update_session_stats.
  cbn [session_readings set_session_readings set_max_bpm set_min_bpm heart_rate].
  destruct (session_readings s ++ [heart_rate s]) eqn:E.
  - destruct (session_readings s); discriminate.
  - reflexivity.
Qed.

Lemma update_chart_history_eq s :
  update_chart_history s =
  mkState (activity s) (heart_rate s)
    (window (history s ++ [((time_counter s + 1)%Z, heart_rate s)]))
    (logs s) (time_counter s + 1)
    (heart_scale s) (min_bpm s) (max_bpm s) (is_monitoring s) (total_time s + 1)
    (avg_bpm s) (session_readings s) (history_sessions s).
Proof.
  unfold update_chart_history, window.
  cbn [history set_history set_total_time set_time_counter time_counter heart_rate].
  destruct (_ <? _)%nat; reflexivity.
Qed.

Lemma enforce_boundaries_state env w :
  ms (exec (enforce_boundaries env) w) =
  set_logs (logs (ms (exec (enforce_boundaries env) w)))
    (set_heart_rate (boundary_value (heart_rate (ms w)) (random env (rng_pos w)))
       (ms w)).
Proof.
  destruct w as [s r c o t]. destruct s.
  unfold exec, enforce_boundaries, boundary_value, bind, get_state.
  cbn [ms heart_rate].
  destruct (Py.ltb heart_rate0 40); [reflexivity |].
  destruct (Py.ltb 190 heart_rate0); reflexivity.
Qed.

Lemma enforce_boundaries_logs env w :
  logs (ms (exec (enforce_boundaries env) w)) = logs (ms w) \/
  exists now message,
    logs (ms (exec (enforce_boundaries env) w)) =
    log_event_logs now message "ALERT" (logs (ms w)).
Proof.
  unfold exec, enforce_boundaries, bind, get_state.
  destruct (Py.ltb (heart_rate (ms w)) 40).
  - right. eexists _, _. reflexivity.
  - destruct (Py.ltb 190 (heart_rate (ms w))).
    + right. eexists _, _. reflexivity.
    + left. reflexivity.
Qed.

Lemma simulation_step_fields env p w :
  let s := ms w in
  let s' := ms (exec (simulation_step env p) w) in
  let h := heart_rate s' in
  let readings := session_readings s ++ [h] in
  s' =
  mkState (activity s) h
    (window (history s ++ [((time_counter s + 1)%Z, h)]))
    (logs s') (time_counter s + 1)
    (if Qeq_bool (heart_scale s) 1.0 then 1.2 else 1.0)
    (Py.min (min_bpm s) h) (Py.max (max_bpm s) h)
    (is_monitoring s) (total_time s + 1)
    (Py.sum readings / Py.len readings) readings (history_sessions s).
Proof.
  intros s s' h readings. subst readings h s'.
  rewrite simulation_step_heart_rate.
  rewrite simulation_step_state.
  rewrite enforce_boundaries_state.
  set (l := logs (ms (exec (enforce_boundaries env) _))).
  unfold exec. rewrite update_signal_exec. cbn [snd ms rng_pos].
  fold s.
  set (h := boundary_value _ _).
  rewrite update_session_stats_eq. cbv zeta.
  rewrite update_chart_history_eq.
  unfold toggle_heart_scale.
  destruct s. reflexivity.
Qed.

Lemma simulation_step_logs env p w :
  logs (ms (exec (simulation_step env p) w)) = logs (ms w) \/
  exists now message,
    logs (ms (exec (simulation_step env p) w)) =
    log_event_logs now message "ALERT" (logs (ms w)).
Proof.
  rewrite simulation_step_state.
  unfold toggle_heart_scale.
  rewrite update_chart_history_eq, update_session_stats_eq.
  cbn [logs set_heart_scale].
  destruct (enforce_boundaries_logs env (exec (update_signal env p) w)) as [H | H].
  - left. rewrite H. unfold exec. rewrite update_signal_exec. reflexivity.
  - right. destruct H as (now & message & H). exists now, message.
    rewrite H. unfold exec. rewrite update_signal_exec. reflexivity.
Qed.

(** ** The handlers and the event loop *)

Lemma start_monitoring_exec w :
  start_monitoring w =
  (Ok tt,
   if negb (String.eqb (activity (ms w)) EmptyString) then
     mkWorld
       (mkState (activity (ms w)) (heart_rate (ms w)) [] [] 0
          (heart_scale (ms w)) 999.0 0.0 true 0 0.0 []
          (history_sessions (ms w)))
       (rng_pos w) (clock_pos w) (console w) (tasks w ++ [Created])
   else w).
Proof.
  destruct w as [s r c o t]. destruct s.
  unfold start_monitoring, bind, get_state. cbn [ms activity].
  destruct (negb _); reflexivity.
Qed.

Lemma stop_monitoring_exec env w :
  stop_monitoring env w =
  (Ok tt,
   let s := ms w in
   match session_readings s with
   | [] =>
       mkWorld (set_is_monitoring false s)
         (rng_pos w) (clock_pos w) (console w) (tasks w)
   | _ :: _ =>
       mkWorld
         (set_history_sessions
            (history_sessions s ++
             [session_data (now_date env (clock_pos w)) (set_is_monitoring false s)])
            (set_is_monitoring false s))
         (rng_pos w) (S (clock_pos w)) (console w) (tasks w)
   end).
Proof.
  destruct w as [s r c o t]. destruct s.
  unfold stop_monitoring, bind, get_state, modify.
  cbn [ms session_readings set_is_monitoring].
  destruct session_readings0; reflexivity.
Qed.

Lemma start_monitoring_state w :
  activity (ms w) <> EmptyString ->
  ms (exec start_monitoring w) =
  mkState (activity (ms w)) (heart_rate (ms w)) [] [] 0
    (heart_scale (ms w)) 999.0 0.0 true 0 0.0 [] (history_sessions (ms w)).
Proof.
  intros Hact. unfold exec. rewrite start_monitoring_exec. cbn [snd].
  assert (Hne : negb (String.eqb (activity (ms w)) EmptyString) = true).
  { apply negb_true_iff. apply String.eqb_neq. exact Hact. }
  rewrite Hne. reflexivity.
Qed.

(** One resumption of a live coroutine: the loop test, the step, and the
    handler of the [try] statement. *)
Lemma try_loop_iteration env p w :
  try_except (loop_iteration env p) w =
  if is_monitoring (ms w) then
    match simulation_step env p w with
    | (Ok _, w1) => (Ok (Sleeping p), w1)
    | (Raise e, w1) =>
        (Ok Finished,
         mkWorld (ms w1) (rng_pos w1) (clock_pos w1)
           (console w1 ++ [Printed ("Simulation Error: " ++ e); Traceback e])
           (tasks w1))
    end
  else (Ok Finished, w).
Proof.
  unfold try_except, loop_iteration, bind at 1, get_state.
  destruct (is_monitoring (ms w)); [| reflexivity].
  unfold bind at 1.
  destruct (simulation_step env p w) as [[[] | e] w1]; [reflexivity |].
  unfold bind, emit, ret. cbn [ms rng_pos clock_pos console tasks].
  rewrite <- app_assoc. reflexivity.
Qed.

Lemma run_simulation_exec env t w :
  run_simulation env t w =
  match t with
  | Finished => (Ok Finished, w)
  | _ => try_except (loop_iteration env (profile_of t (ms w))) w
  end.
Proof. destruct t; reflexivity. Qed.

Lemma run_simulation_state env t w :
  ms (exec (run_simulation env t) w) = ms w \/
  (is_monitoring (ms w) = true /\
   ms (exec (run_simulation env t) w) =
   ms (exec (simulation_step env (profile_of t (ms w))) w)).
Proof.
  unfold exec. rewrite run_simulation_exec.
  destruct t; [| | left; reflexivity];
    rewrite try_loop_iteration;
    (destruct (is_monitoring (ms w)); [right; split; [reflexivity |] | left; reflexivity]);
    destruct (simulation_step env _ w) as [[[] | e] w1]; reflexivity.
Qed.

Lemma run_simulation_ok env t w :
  exists t', outcome (run_simulation env t) w = Ok t'.
Proof.
  unfold outcome. rewrite run_simulation_exec.
  destruct t; [| | eexists; reflexivity];
    rewrite try_loop_iteration;
    (destruct (is_monitoring (ms w)); [| eexists; reflexivity]);
    destruct (simulation_step env _ w) as [[[] | e] w1]; eexists; reflexivity.
Qed.

Lemma resume_state env i w :
  ms (exec (resume env i) w) = ms w \/
  exists p,
    is_monitoring (ms w) = true /\
    ms (exec (resume env i) w) = ms (exec (simulation_step env p) w).
Proof.
  unfold exec at 1 2, resume.
  destruct (nth_error (tasks w) i) as [t |]; [| left; reflexivity].
  unfold bind.
  destruct (run_simulation_ok env t w) as [t' Hok].
  pose proof (run_simulation_state env t w) as Hst.
  unfold outcome in Hok. unfold exec at 1 2 in Hst.
  destruct (run_simulation env t w) as [r w1]. cbn [fst snd] in *. subst r.
  cbn [store_task snd ms].
  destruct Hst as [H | [Hm H]]; [left; exact H | right].
  exists (profile_of t (ms w)). split; assumption.
Qed.

(** A property of the state that every handler and every step preserves
    holds in every world the application reaches. *)
Lemma reachable_state_invariant env (P : MonitorState -> Prop) :
  P init_state ->
  (forall a s, P s -> P (set_activity a s)) ->
  (forall w, P (ms w) -> P (ms (exec start_monitoring w))) ->
  (forall w, P (ms w) -> P (ms (exec (stop_monitoring env) w))) ->
  (forall p w, P (ms w) -> is_monitoring (ms w) = true ->
     P (ms (exec (simulation_step env p) w))) ->
  forall evs, P (ms (run_events env evs init_world)).
Proof.
  intros Hinit Hselect Hstart Hstop Hstep evs.
  assert (H : forall w, P (ms w) -> P (ms (run_events env evs w))).
  { induction evs as [| ev evs IH]; intros w Hw; [exact Hw |].
    cbn [run_events fold_left]. apply IH.
    destruct ev as [a | | | i]; cbn [handle].
    - apply Hselect. exact Hw.
    - apply Hstart. exact Hw.
    - apply Hstop. exact Hw.
    - destruct (resume_state env i w) as [H | (p & Hm & H)]; rewrite H.
      + exact Hw.
      + apply Hstep; assumption. }
  apply H. exact Hinit.
Qed.

(** ** Session statistics *)

Lemma min_lower (a b : Q) : Py.min a b <= a /\ Py.min a b <= b.
Proof.
  unfold Py.min. destruct (Py.ltb b a) eqn:E.
  - apply ltb_true_iff in E. lra.
  - apply ltb_false_iff in E. lra.
Qed.

Lemma max_upper (a b : Q) : a <= Py.max a b /\ b <= Py.max a b.
Proof.
  unfold Py.max. destruct (Py.ltb a b) eqn:E.
  - apply ltb_true_iff in E. lra.
  - apply ltb_false_iff in E. lra.
Qed.

Lemma fold_left_total (l : list Q) (a : Q) : fold_left Qplus l a == a + total l.
Proof.
  revert a. induction l as [| x l IH]; intros a; cbn [fold_left total].
  - lra.
  - rewrite IH. lra.
Qed.

Lemma sum_is_total (l : list Q) : Py.sum l == total l.
Proof. unfold Py.sum. rewrite fold_left_total. lra. Qed.

Lemma average_is_mean (l : list Q) : Py.sum l / Py.len l == arithmetic_mean l.
Proof. unfold arithmetic_mean, Py.len. rewrite sum_is_total. reflexivity. Qed.

Lemma step_keeps_brackets env p w :
  brackets (ms w) -> brackets (ms (exec (simulation_step env p) w)).
Proof.
  intros Hb. rewrite simulation_step_fields. cbv zeta.
  set (h := heart_rate _).
  unfold brackets in *. cbn [min_bpm max_bpm session_readings].
  pose proof (min_lower (min_bpm (ms w)) h) as [Hmin1 Hmin2].
  pose proof (max_upper (max_bpm (ms w)) h) as [Hmax1 Hmax2].
  apply Forall_app. split.
  - eapply Forall_impl; [| exact Hb]. cbn beta. intros r Hr. lra.
  - constructor; [lra | constructor].
Qed.

Lemma step_average_is_mean env p w :
  let s' := ms (exec (simulation_step env p) w) in
  avg_bpm s' == arithmetic_mean (session_readings s').
Proof.
  cbv zeta. rewrite simulation_step_fields. cbv zeta.
  cbn [avg_bpm session_readings]. apply average_is_mean.
Qed.





(** ** The rolling window *)

Section Windows.

Context {A : Type}.

Lemma skipn_S_tl (k : nat) (l : list A) : skipn (S k) l = tl (skipn k l).
Proof.
  revert l. induction k as [| k IH]; intros [| x l]; try reflexivity.
  rewrite skipn_cons. rewrite IH. reflexivity.
Qed.

Lemma last_n_length (n : nat) (l : list A) :
  List.length (last_n n l) = Nat.min n (List.length l).
Proof. unfold last_n. rewrite length_skipn. lia. Qed.

(** Appending at the back and dropping the front element once the bound
    [n] is exceeded keeps the [n] most recent elements. *)
Lemma last_n_snoc (n : nat) (l : list A) (x : A) :
  (0 < n)%nat ->
  (let h := last_n n l ++ [x] in
   if (n <? List.length h)%nat then tl h else h) = last_n n (l ++ [x]).
Proof.
  intros Hn. cbv zeta. unfold last_n.
  rewrite !length_app, length_skipn. cbn [List.length].
  destruct (Nat.ltb_spec n
              (List.length l - (List.length l - n) + 1)) as [Hgt | Hle].
  - assert (Hk : (List.length l + 1 - n = S (List.length l - n))%nat) by lia.
    rewrite Hk, skipn_S_tl, skipn_app.
    replace (List.length l - n - List.length l)%nat with 0%nat by lia.
    reflexivity.
  - replace (List.length l - n)%nat with 0%nat by lia.
    replace (List.length l + 1 - n)%nat with 0%nat by lia.
    reflexivity.
Qed.

End Windows.

Lemma ticks_from_snoc (a : Z) (n : nat) :
  ticks_from a (S n) = ticks_from a n ++ [(a + Z.of_nat n)%Z].
Proof. unfold ticks_from. rewrite seq_S, map_app. reflexivity. Qed.

Lemma ticks_from_length (a : Z) (n : nat) : List.length (ticks_from a n) = n.
Proof. unfold ticks_from. rewrite length_map, length_seq. reflexivity. Qed.

Lemma ticks_from_nth (a : Z) (n i : nat) (t : Z) :
  nth_error (ticks_from a n) i = Some t -> t = (a + Z.of_nat i)%Z.
Proof.
  unfold ticks_from. rewrite nth_error_map, nth_error_seq.
  destruct (i <? n)%nat; cbn; congruence.
Qed.

Lemma combine_snoc {A B : Type} (l1 : list A) (l2 : list B) (x : A) (y : B) :
  List.length l1 = List.length l2 ->
  combine (l1 ++ [x]) (l2 ++ [y]) = combine l1 l2 ++ [(x, y)].
Proof.
  revert l2. induction l1 as [| a l1 IH]; intros [| b l2] Hlen;
    try discriminate; [reflexivity |].
  cbn. rewrite IH by (cbn in Hlen; lia). reflexivity.
Qed.

Lemma combine_nth_fst {A B : Type} (l1 : list A) (l2 : list B) (i : nat) p :
  nth_error (combine l1 l2) i = Some p -> nth_error l1 i = Some (fst p).
Proof.
  revert l2 i. induction l1 as [| a l1 IH]; intros [| b l2] [| i] H;
    cbn in *; try discriminate.
  - injection H as <-. reflexivity.
  - eapply IH. exact H.
Qed.

Lemma samples_snoc (readings : list Q) (h : Q) :
  combine (ticks_from 1 (List.length (readings ++ [h]))) (readings ++ [h]) =
  combine (ticks_from 1 (List.length readings)) readings
  ++ [((Z.of_nat (List.length readings) + 1)%Z, h)].
Proof.
  rewrite length_app. cbn [List.length].
  replace (List.length readings + 1)%nat with (S (List.length readings)) by lia.
  rewrite ticks_from_snoc.
  rewrite combine_snoc by apply ticks_from_length.
  rewrite Z.add_comm. reflexivity.
Qed.

Lemma samples_consecutive (readings : list Q) (k : nat) :
  consecutive_ticks
    (skipn k (combine (ticks_from 1 (List.length readings)) readings)).
Proof.
  intros i a b Ha Hb.
  rewrite nth_error_skipn in Ha, Hb.
  apply combine_nth_fst, ticks_from_nth in Ha.
  apply combine_nth_fst, ticks_from_nth in Hb.
  lia.
Qed.

Lemma step_keeps_window env p w :
  window_consistent (ms w) ->
  window_consistent (ms (exec (simulation_step env p) w)).
Proof.
  intros [Hh Ht]. rewrite simulation_step_fields. cbv zeta.
  set (h := heart_rate _).
  unfold window_consistent, session_samples.
  cbn [history time_counter session_readings].
  split.
  - rewrite samples_snoc, Hh, Ht. unfold window, session_samples.
    apply (last_n_snoc 60). lia.
  - rewrite Ht, length_app. cbn [List.length]. lia.
Qed.

(** C4.  In every world the application reaches, [history] has at most 60
    entries, neighbouring entries carry tick numbers that differ by one, and
    [history] is exactly the (at most) 60 most recent [(tick, bpm)] pairs of
    the session; a step appends one pair at the back, with the incremented
    tick and the stored heart rate, and drops the front pair when the
    length exceeds 60. *)
Theorem history_rolling_window (env : Env) (evs : list Event) :
  let s := ms (run_events env evs init_world) in
  (List.length (history s) <= 60)%nat /\
  consecutive_ticks (history s) /\
  history s = last_n 60 (session_samples s) /\
  List.length (history s) = Nat.min 60 (List.length (session_readings s)) /\
  (forall p w,
     let s0 := ms w in
     let s' := ms (exec (simulation_step env p) w) in
     let appended := history s0 ++ [((time_counter s0 + 1)%Z, heart_rate s')] in
     time_counter s' = (time_counter s0 + 1)%Z /\
     history s' =
       (if (60 <? List.length appended)%nat then tl appended else appended) /\
     ((List.length (history s0) <= 60)%nat ->
      (List.length (history s') <= 60)%nat)).
Proof.
  intros s.
  assert (Hinv : window_consistent s).
  { subst s. apply reachable_state_invariant.
    - split; reflexivity.
    - intros a s0 H. destruct s0. exact H.
    - intros w H. unfold exec. rewrite start_monitoring_exec. cbn [snd].
      destruct (negb _); [split; reflexivity | exact H].
    - intros w H. unfold exec. rewrite stop_monitoring_exec. cbn [snd].
      destruct (session_readings (ms w)) eqn:E; cbn [ms];
        destruct (ms w); exact H.
    - intros p w H _. apply step_keeps_window. exact H. }
  destruct Hinv as [Hh Ht].
  assert (Hlen : List.length (history s) =
                 Nat.min 60 (List.length (session_readings s))).
  { rewrite Hh, last_n_length. unfold session_samples.
    rewrite length_combine, ticks_from_length. lia. }
  split; [lia |]. split.
  { rewrite Hh. apply samples_consecutive. }
  split; [exact Hh |]. split; [exact Hlen |].
  intros p w s0 s' appended.
  pose proof (simulation_step_fields env p w) as Hs'.
  cbv zeta in Hs'. fold s' s0 in Hs'.
  assert (Hhist : history s' = window appended).
  { rewrite Hs'. reflexivity. }
  split; [rewrite Hs'; reflexivity |].
  split; [exact Hhist |].
  intros Hbound. rewrite Hhist. unfold window.
  assert (Happ : List.length appended = S (List.length (history s0))).
  { subst appended. rewrite length_app. cbn [List.length]. lia. }
  destruct (Nat.ltb_spec 60 (List.length appended)) as [Hgt | Hle].
  - destruct appended; cbn [tl List.length] in *; lia.
  - exact Hle.
Qed.

Lemma history_rolling_window_witness :
  List.length (history (ms (running_session 65))) = 60%nat /\
  map fst (history (ms (running_session 65))) = ticks_from 6 60 /\
  map snd (history (ms (running_session 65))) =
    skipn 5 (session_readings (ms (running_session 65))) /\
  ((List.length (history (ms (running_session 64))) <= 60)%nat ->
   (List.length
      (history (ms (exec (simulation_step sample_env running) (running_session 64))))
    <= 60)%nat).
Proof.
  pose proof (history_rolling_window sample_env
                ([SelectActivity "Running"; StartMonitoring] ++ repeat (Resume 0) 65))
    as (_ & _ & Hrecent & Hlen & Hstep).
  unfold running_session.
  split; [rewrite Hlen; vm_compute; reflexivity |].
  split; [rewrite Hrecent; vm_compute; reflexivity |].
  split; [rewrite Hrecent; vm_compute; reflexivity |].
  apply (Hstep running
           (run_events sample_env
              ([SelectActivity "Running"; StartMonitoring] ++ repeat (Resume 0) 64)
              init_world)).
Defined.

(** ** The alert log *)

Lemma head_matches_true (l : list LogEntry) (message type : string) :
  head_matches l message type = true <-> duplicates_head l message type.
Proof.
  unfold duplicates_head. destruct l as [| e rest]; cbn [head_matches].
  - split; [discriminate | intros (e & rest & H & _); discriminate].
  - rewrite andb_true_iff, !String.eqb_eq. split.
    + intros [Hm Ht]. exists e, rest. auto.
    + intros (e' & rest' & H & Hm & Ht). injection H as <- <-. auto.
Qed.

Lemma log_event_state env message type w :
  logs (ms (exec (log_event env message type) w)) =
  log_event_logs (now_hms env (clock_pos w)) message type (logs (ms w)).
Proof. reflexivity. Qed.

Lemma removelast_nth {A : Type} (l : list A) (i : nat) :
  (S i < List.length l)%nat -> nth_error (removelast l) i = nth_error l i.
Proof.
  intros Hi. rewrite removelast_firstn_len, nth_error_firstn.
  destruct (Nat.ltb_spec i (Nat.pred (List.length l))); [reflexivity | lia].
Qed.

Lemma removelast_length {A : Type} (l : list A) :
  List.length (removelast l) = Nat.pred (List.length l).
Proof. rewrite removelast_firstn_len, length_firstn. lia. Qed.

Lemma log_event_logs_length now message type l :
  (List.length l <= 100)%nat ->
  (List.length (log_event_logs now message type l) <= 100)%nat.
Proof.
  intros Hl. unfold log_event_logs.
  destruct (head_matches l message type); [exact Hl |].
  destruct (Nat.ltb_spec 100 (List.length (mkLog now message type :: l)))
    as [Hgt | Hle]; [| exact Hle].
  rewrite removelast_length. cbn [List.length] in *. lia.
Qed.

Lemma log_event_logs_head now message type l :
  head_matches l message type = false ->
  nth_error (log_event_logs now message type l) 0 = Some (mkLog now message type) /\
  nth_error (log_event_logs now message type l) 1 = nth_error l 0.
Proof.
  intros Hm. unfold log_event_logs. rewrite Hm.
  destruct (Nat.ltb_spec 100 (List.length (mkLog now message type :: l)))
    as [Hgt | Hle]; [| split; reflexivity].
  rewrite !removelast_nth by lia. split; reflexivity.
Qed.

Lemma log_event_logs_distinct now message type l :
  head_pair_distinct l -> head_pair_distinct (log_event_logs now message type l).
Proof.
  intros Hl.
  destruct (head_matches l message type) eqn:Hm.
  - unfold log_event_logs. rewrite Hm. exact Hl.
  - destruct (log_event_logs_head now message type l Hm) as [H0 H1].
    intros a b Ha Hb [Hsm Hst].
    rewrite H0 in Ha. rewrite H1 in Hb. injection Ha as <-.
    cbn [log_message log_type] in Hsm, Hst.
    assert (Hdup : duplicates_head l message type).
    { destruct l as [| e rest]; [discriminate |].
      injection Hb as ->. exists b, rest. auto. }
    apply head_matches_true in Hdup. congruence.
Qed.

Lemma step_keeps_log env p w :
  log_consistent (ms w) -> log_consistent (ms (exec (simulation_step env p) w)).
Proof.
  intros [Hlen Hd]. unfold log_consistent.
  destruct (simulation_step_logs env p w) as [H | (now & message & H)]; rewrite H.
  - split; assumption.
  - split; [apply log_event_logs_length | apply log_event_logs_distinct]; assumption.
Qed.

(** C5.  [log_event] leaves the log unchanged when the new message and type
    equal those of the head entry and otherwise puts the new entry at the
    head, dropping the last entry when the length would exceed 100; it
    keeps the length within 100 and keeps the entries at positions 0 and 1
    from being the same event; both hold in every world the application
    reaches. *)
Theorem log_event_bounded_deque (env : Env) (message type : string) (w : World) :
  let l := logs (ms w) in
  let entry := mkLog (now_hms env (clock_pos w)) message type in
  let l' := logs (ms (exec (log_event env message type) w)) in
  (duplicates_head l message type -> l' = l) /\
  (~ duplicates_head l message type ->
   nth_error l' 0 = Some entry /\
   l' = (if (100 <? List.length (entry :: l))%nat
         then removelast (entry :: l) else entry :: l) /\
   ((List.length l <= 100)%nat -> l' = firstn 100 (entry :: l))) /\
  ((List.length l <= 100)%nat -> (List.length l' <= 100)%nat) /\
  (head_pair_distinct l -> head_pair_distinct l') /\
  (forall evs,
     let reached := logs (ms (run_events env evs init_world)) in
     (List.length reached <= 100)%nat /\ head_pair_distinct reached).
Proof.
  intros l entry l'.
  assert (Hl' : l' = log_event_logs (now_hms env (clock_pos w)) message type l)
    by apply log_event_state.
  split; [| split; [| split; [| split]]].
  - intros Hdup. apply head_matches_true in Hdup.
    rewrite Hl'. unfold log_event_logs. rewrite Hdup. reflexivity.
  - intros Hnew.
    assert (Hm : head_matches l message type = false).
    { destruct (head_matches l message type) eqn:E; [| reflexivity].
      apply head_matches_true in E. contradiction. }
    split; [rewrite Hl'; apply log_event_logs_head; exact Hm |].
    assert (Heq : l' = (if (100 <? List.length (entry :: l))%nat
                        then removelast (entry :: l) else entry :: l)).
    { rewrite Hl'. unfold log_event_logs. rewrite Hm. reflexivity. }
    split; [exact Heq |].
    intros Hlen. rewrite Heq.
    destruct (Nat.ltb_spec 100 (List.length (entry :: l))) as [Hgt | Hle].
    + rewrite removelast_firstn_len. f_equal. cbn [List.length] in *. lia.
    + symmetry. apply firstn_all2. exact Hle.
  - intros Hlen. rewrite Hl'. apply log_event_logs_length. exact Hlen.
  - intros Hd. rewrite Hl'. apply log_event_logs_distinct. exact Hd.
  - intros evs. cbv zeta.
    apply (reachable_state_invariant env log_consistent).
    + split; [cbn; lia | intros a b Ha; discriminate].
    + intros a s H. destruct s. exact H.
    + intros w0 H. unfold exec. rewrite start_monitoring_exec. cbn [snd].
      destruct (negb _); [| exact H].
      split; [cbn; lia | intros a b Ha; discriminate].
    + intros w0 H. unfold exec. rewrite stop_monitoring_exec. cbn [snd].
      destruct (session_readings (ms w0)) eqn:E; cbn [ms];
        destruct (ms w0); exact H.
    + intros p w0 H _. apply step_keeps_log. exact H.
Qed.

Lemma log_event_bounded_deque_witness :
  logs (ms (exec (log_event sample_env "Low HR boundary hit: 44 bpm" "ALERT")
              alert_world)) = logs (ms alert_world) /\
  nth_error
    (logs (ms (exec (log_event sample_env "Low HR boundary hit: 41 bpm" "ALERT")
                 alert_world))) 0 =
  Some (mkLog "12:00:01" "Low HR boundary hit: 41 bpm" "ALERT") /\
  (List.length
     (logs (ms (exec (log_event sample_env "Low HR boundary hit: 41 bpm" "ALERT")
                  alert_world))) <= 100)%nat /\
  head_pair_distinct
    (logs (ms (exec (log_event sample_env "Low HR boundary hit: 41 bpm" "ALERT")
                 alert_world))).
Proof.
  pose proof (log_event_bounded_deque sample_env
                "Low HR boundary hit: 44 bpm" "ALERT" alert_world)
    as (Hsame & _).
  pose proof (log_event_bounded_deque sample_env
                "Low HR boundary hit: 41 bpm" "ALERT" alert_world)
    as (_ & Hnew & Hlen & Hdist & _).
  split.
  { apply Hsame. apply head_matches_true. vm_compute. reflexivity. }
  split.
  { apply Hnew. intros Hdup. apply head_matches_true in Hdup.
    vm_compute in Hdup. discriminate. }
  split.
  { apply Hlen. vm_compute. lia. }
  apply Hdist. intros a b Ha Hb. vm_compute in Hb. discriminate.
Defined.

(** ** Stopping a session *)

Lemma session_data_ignores_flag date b s :
  session_data date (set_is_monitoring b s) = session_data date s.
Proof. destruct s. reflexivity. Qed.

Lemma stop_monitoring_sessions env w :
  history_sessions (ms (exec (stop_monitoring env) w)) =
  match session_readings (ms w) with
  | [] => history_sessions (ms w)
  | _ :: _ =>
      history_sessions (ms w) ++ [session_data (now_date env (clock_pos w)) (ms w)]
  end.
Proof.
  unfold exec. rewrite stop_monitoring_exec. cbn [snd].
  destruct (session_readings (ms w)); cbn [ms].
  - destruct (ms w). reflexivity.
  - rewrite session_data_ignores_flag. destruct (ms w). reflexivity.
Qed.

Lemma stop_monitoring_flag env w :
  is_monitoring (ms (exec (stop_monitoring env) w)) = false.
Proof.
  unfold exec. rewrite stop_monitoring_exec. cbn [snd].
  destruct (session_readings (ms w)); destruct (ms w); reflexivity.
Qed.

(** C6.  [stop_monitoring] clears [is_monitoring] and appends one summary
    to [history_sessions] exactly when [session_readings] is non-empty; with
    no reading, [history_sessions] is unchanged.  It returns normally. *)
Theorem stop_appends_summary_iff_readings (env : Env) (w : World) :
  let s := ms w in
  let s' := ms (exec (stop_monitoring env) w) in
  outcome (stop_monitoring env) w = Ok tt /\
  is_monitoring s' = false /\
  (session_readings s = [] -> history_sessions s' = history_sessions s) /\
  (session_readings s <> [] ->
   history_sessions s' =
   history_sessions s ++ [session_data (now_date env (clock_pos w)) s]) /\
  (List.length (history_sessions s') = S (List.length (history_sessions s)) <->
   session_readings s <> []) /\
  session_readings s' = session_readings s.
Proof.
  intros s s'.
  pose proof (stop_monitoring_sessions env w) as Hs. fold s s' in Hs.
  split; [unfold outcome; rewrite stop_monitoring_exec; reflexivity |].
  split; [apply stop_monitoring_flag |].
  split; [intros E; rewrite Hs, E; reflexivity |].
  split.
  { intros Hne. rewrite Hs. destruct (session_readings s); [contradiction | reflexivity]. }
  split.
  { rewrite Hs. destruct (session_readings s) as [| r rest].
    - split; [lia | intros H; contradiction].
    - rewrite length_app. cbn [List.length]. split; [discriminate | lia]. }
  subst s s'. unfold exec. rewrite stop_monitoring_exec. cbn [snd].
  destruct (session_readings (ms w)) eqn:E; cbn [ms]; destruct (ms w);
    cbn in *; congruence.
Qed.

Lemma stop_appends_summary_iff_readings_witness :
  history_sessions (ms (exec (stop_monitoring sample_env) init_world)) = [] /\
  history_sessions (ms (exec (stop_monitoring sample_env) (running_session 65))) =
    [mkSession "2024-01-01 12:00" "Running" "1:05" 144.1 151 108].
Proof.
  pose proof (stop_appends_summary_iff_readings sample_env init_world)
    as (_ & _ & Hempty & _).
  pose proof (stop_appends_summary_iff_readings sample_env (running_session 65))
    as (_ & _ & _ & Hfull & _).
  split.
  - apply Hempty. reflexivity.
  - cbv zeta in Hfull. rewrite Hfull.
    + vm_compute. reflexivity.
    + vm_compute. discriminate.
Defined.

(** ** The session summary *)

Lemma int_nonneg (x : Q) : 0 <= x -> Py.int x = Qfloor x.
Proof.
  destruct x as [n d]. unfold Qle, Py.int, Qfloor. cbn [Qnum Qden].
  intros Hn. apply Z.quot_div_nonneg; lia.
Qed.

Lemma int_opp (x : Q) : Py.int (- x) = (- Py.int x)%Z.
Proof.
  destruct x as [n d]. unfold Py.int, Qopp. cbn [Qnum Qden].
  apply Z.quot_opp_l. discriminate.
Qed.

Lemma int_truncates (x : Q) : truncation_of x (Py.int x).
Proof.
  split; intros Hx.
  - rewrite (int_nonneg x Hx).
    pose proof (Qfloor_le x). pose proof (Qlt_floor x) as Hlt.
    rewrite inject_Z_plus in Hlt. change (inject_Z 1) with 1 in Hlt. lra.
  - assert (Hneg : 0 <= - x) by lra.
    pose proof (int_nonneg (- x) Hneg) as Hint. rewrite int_opp in Hint.
    assert (Hz : Py.int x = (- Qfloor (- x))%Z) by lia.
    rewrite Hz, inject_Z_opp.
    pose proof (Qfloor_le (- x)). pose proof (Qlt_floor (- x)) as Hlt.
    rewrite inject_Z_plus in Hlt. change (inject_Z 1) with 1 in Hlt. lra.
Qed.

Lemma fmt_02d_two_digits (r : Z) :
  (0 <= r < 100)%Z -> String.length (Py.fmt_02d r) = 2%nat.
Proof.
  intros Hr.
  assert (Hall : forallb
                   (fun n => (String.length (Py.fmt_02d (Z.of_nat n)) =? 2)%nat)
                   (seq 0 100) = true) by (vm_compute; reflexivity).
  rewrite forallb_forall in Hall.
  specialize (Hall (Z.to_nat r)).
  rewrite Z2Nat.id in Hall by lia.
  apply Nat.eqb_eq, Hall, in_seq. lia.
Qed.

Section SummaryInDoubles.

Import PrimFloat FloatOps.

Lemma int_of_finite (x : float) :
  is_finite x = true -> Ieee.int x = Ok (Py.int (Ieee.exact x)).
Proof.
  unfold is_finite, Ieee.int. intros Hf.
  destruct (is_nan x); [discriminate |].
  destruct (is_infinity x); [discriminate | reflexivity].
Qed.

Lemma str_one_digit (m : Z) : (0 <= m < 10)%Z -> String.length (Py.str m) = 1%nat.
Proof.
  intros Hm.
  assert (Hall : forallb (fun n => (String.length (Py.str (Z.of_nat n)) =? 1)%nat)
                   (seq 0 10) = true) by (vm_compute; reflexivity).
  rewrite forallb_forall in Hall.
  specialize (Hall (Z.to_nat m)).
  rewrite Z2Nat.id in Hall by lia.
  apply Nat.eqb_eq, Hall, in_seq. lia.
Qed.

Lemma stop_monitoring_appends (date : string) (s : Ieee.MonitorState) (hi lo : Z) :
  Ieee.session_readings s <> [] ->
  Ieee.int (Ieee.max_bpm s) = Ok hi ->
  Ieee.int (Ieee.min_bpm s) = Ok lo ->
  Ieee.stop_monitoring date s =
  (Ok tt,
   Ieee.set_history_sessions
     (Ieee.history_sessions s ++
      [Ieee.mkSession date (Ieee.activity s) (format_duration (Ieee.total_time s))
         (Ieee.round (Ieee.avg_bpm s) 1) hi lo])
     (Ieee.set_is_monitoring false s)).
Proof.
  intros Hne Hhi Hlo.
  unfold Ieee.stop_monitoring, Ieee.session_data. cbv zeta.
  cbn [Ieee.set_is_monitoring Ieee.session_readings Ieee.max_bpm Ieee.min_bpm
       Ieee.total_time Ieee.avg_bpm Ieee.activity Ieee.history_sessions].
  destruct (Ieee.session_readings s); [contradiction |].
  rewrite Hhi, Hlo. reflexivity.
Qed.

(** C7, amended.  The summary [stop_monitoring] appends copies the date
    read at the stop and the activity; its duration is the minutes
    [total_time // 60] printed as they are (a single digit below ten
    minutes), a colon and the seconds [total_time % 60] on two digits; its
    average is [round(avg_bpm, 1)] on the double -- the double nearest to
    [k / 10], [k] being the integer nearest to ten times the exact value
    of [avg_bpm] (the even one at a tie); its extremes are [max_bpm] and
    [min_bpm] truncated towards zero. *)
Theorem session_summary_in_doubles (date : string) (s : Ieee.MonitorState)
  (Hreadings : Ieee.session_readings s <> [])
  (Hmax : is_finite (Ieee.max_bpm s) = true)
  (Hmin : is_finite (Ieee.min_bpm s) = true) :
  let t := Ieee.total_time s in
  let avg := Ieee.avg_bpm s in
  exists summary,
    Ieee.stop_monitoring date s =
      (Ok tt,
       Ieee.set_history_sessions (Ieee.history_sessions s ++ [summary])
         (Ieee.set_is_monitoring false s)) /\
    Ieee.sd_date summary = date /\
    Ieee.sd_activity summary = Ieee.activity s /\
    Ieee.sd_duration summary =
      (Py.str (t / 60) ++ ":" ++ Py.fmt_02d (t mod 60))%string /\
    (t = 60 * (t / 60) + t mod 60 /\ 0 <= t mod 60 < 60)%Z /\
    String.length (Py.fmt_02d (t mod 60)) = 2%nat /\
    ((0 <= t < 600)%Z -> String.length (Py.str (t / 60)) = 1%nat) /\
    Ieee.sd_avg_bpm summary = Ieee.round avg 1 /\
    (is_finite avg = true ->
     exists k : Z,
       nearest_even (Ieee.exact avg * 10) k /\
       (forall k', nearest_even (Ieee.exact avg * 10) k' -> k' = k) /\
       Ieee.sd_avg_bpm summary =
         if (k =? 0)%Z then (avg * 0)%float else Ieee.nearest_double k 10) /\
    Ieee.int (Ieee.max_bpm s) = Ok (Ieee.sd_max_bpm summary) /\
    Ieee.int (Ieee.min_bpm s) = Ok (Ieee.sd_min_bpm summary) /\
    truncation_of (Ieee.exact (Ieee.max_bpm s)) (Ieee.sd_max_bpm summary) /\
    truncation_of (Ieee.exact (Ieee.min_bpm s)) (Ieee.sd_min_bpm summary).
Proof.
  intros t avg.
  pose proof (int_of_finite _ Hmax) as Hhi.
  pose proof (int_of_finite _ Hmin) as Hlo.
  exists (Ieee.mkSession date (Ieee.activity s) (format_duration t)
            (Ieee.round avg 1) (Py.int (Ieee.exact (Ieee.max_bpm s)))
            (Py.int (Ieee.exact (Ieee.min_bpm s)))).
  cbn [Ieee.sd_date Ieee.sd_activity Ieee.sd_duration Ieee.sd_avg_bpm
       Ieee.sd_max_bpm Ieee.sd_min_bpm].
  pose proof (Z.mod_pos_bound t 60 ltac:(lia)) as Hmod.
  pose proof (Z.div_mod t 60 ltac:(lia)) as Hdiv.
  split; [apply stop_monitoring_appends; assumption |].
  split; [reflexivity |]. split; [reflexivity |]. split; [reflexivity |].
  split; [lia |].
  split; [apply fmt_02d_two_digits; lia |].
  split.
  { intros Ht. apply str_one_digit.
    split; [apply Z.div_pos; lia | apply Z.div_lt_upper_bound; lia]. }
  split; [reflexivity |].
  split.
  { intros Hf. destruct (round_is_nearest avg 1) as [Hfin _].
    destruct (Hfin Hf) as (k & Hk & Hround).
    exists k. split; [exact Hk |].
    split; [intros k' Hk'; exact (nearest_even_unique _ k' k Hk' Hk) | exact Hround]. }
  split; [exact Hhi |]. split; [exact Hlo |].
  split; apply int_truncates.
Qed.

Lemma session_summary_in_doubles_witness :
  Ieee.heart_rate
    (Ieee.update_signal (130, 160, 0.4, 2.0)%float 0%float 0.9625%float
       Ieee.init_state) = Ieee.heart_rate Ieee.one_tick_running /\
  exists summary,
    snd (Ieee.stop_monitoring "2024-01-01 12:00" Ieee.one_tick_running) =
      Ieee.set_history_sessions [summary]
        (Ieee.set_is_monitoring false Ieee.one_tick_running) /\
    Ieee.sd_activity summary = "Running"%string /\
    Ieee.sd_duration summary = "0:01"%string /\
    Ieee.sd_avg_bpm summary = 108.7%float /\
    Ieee.sd_max_bpm summary = 108%Z /\
    Ieee.sd_min_bpm summary = 108%Z.
Proof.
  assert (Hne : Ieee.session_readings Ieee.one_tick_running <> [])
    by (vm_compute; discriminate).
  destruct (session_summary_in_doubles "2024-01-01 12:00" Ieee.one_tick_running
              Hne eq_refl eq_refl)
    as (summary & Hstop & _ & Hact & Hdur & _ & _ & _ & Havg & _ & Hmax & Hmin & _).
  split; [vm_compute; reflexivity |].
  exists summary.
  split; [rewrite Hstop; reflexivity |].
  split; [rewrite Hact; reflexivity |].
  split; [rewrite Hdur; vm_compute; reflexivity |].
  split; [rewrite Havg; vm_compute; reflexivity |].
  split.
  - assert (E : Ok (Ieee.sd_max_bpm summary) = Ok 108%Z)
      by (rewrite <- Hmax; vm_compute; reflexivity).
    injection E as E. exact E.
  - assert (E : Ok (Ieee.sd_min_bpm summary) = Ok 108%Z)
      by (rewrite <- Hmin; vm_compute; reflexivity).
    injection E as E. exact E.
Defined.

End SummaryInDoubles.

(** C7, as stated, fails on the form of the duration: the minutes are not
    padded.  A session stopped after 65 steps records "1:05", four
    characters, where the form mm:ss has "01:05". *)
Lemma duration_minutes_unpadded_counterexample :
  total_time (ms (running_session 65)) = 65%Z /\
  exists summary,
    history_sessions (ms (exec (stop_monitoring sample_env) (running_session 65))) =
      [summary] /\
    sd_duration summary = "1:05"%string /\
    sd_duration summary <> "01:05"%string /\
    String.length (sd_duration summary) = 4%nat.
Proof.
  split; [vm_compute; reflexivity |].
  eexists. split; [vm_compute; reflexivity |].
  cbn [sd_duration].
  split; [reflexivity |]. split; [discriminate | reflexivity].
Qed.

(** ** Starting a session *)

Lemma live_tasks_launch (l : list Task) :
  List.length (filter live (l ++ [Created])) = S (List.length (filter live l)).
Proof. rewrite filter_app, length_app. cbn. lia. Qed.

(** C8, as the code has it.  [start_monitoring] has no guard on
    [is_monitoring]: whenever [activity] is non-empty it resets the session
    fields, sets [is_monitoring] and hands one more [run_simulation]
    coroutine to the event loop, so the number of live coroutines grows by
    one, also when a session is already being monitored; with an empty
    [activity] it does nothing. *)
Theorem start_always_launches_task (w : World) :
  let w' := exec start_monitoring w in
  outcome start_monitoring w = Ok tt /\
  (activity (ms w) <> EmptyString ->
   tasks w' = tasks w ++ [Created] /\
   live_tasks w' = S (live_tasks w) /\
   ms w' =
     mkState (activity (ms w)) (heart_rate (ms w)) [] [] 0
       (heart_scale (ms w)) 999.0 0.0 true 0 0.0 [] (history_sessions (ms w))) /\
  (activity (ms w) = EmptyString -> w' = w).
Proof.
  intros w'. subst w'.
  split; [unfold outcome; rewrite start_monitoring_exec; reflexivity |].
  split.
  - intros Hact.
    split; [| split; [| apply start_monitoring_state; exact Hact]];
      unfold live_tasks, exec; rewrite start_monitoring_exec; cbn [snd];
      (assert (Hne : negb (String.eqb (activity (ms w)) EmptyString) = true)
        by (apply negb_true_iff, String.eqb_neq; exact Hact));
      rewrite Hne; cbn [tasks].
    + reflexivity.
    + apply live_tasks_launch.
  - intros Hact. unfold exec. rewrite start_monitoring_exec. cbn [snd].
    rewrite Hact. reflexivity.
Qed.

Lemma start_always_launches_task_witness :
  is_monitoring (ms (running_session 2)) = true /\
  live_tasks (exec start_monitoring (running_session 2)) =
    S (live_tasks (running_session 2)).
Proof.
  split; [vm_compute; reflexivity |].
  apply (start_always_launches_task (running_session 2)).
  vm_compute. discriminate.
Defined.

(** C8, as stated, fails: two ticks into a session ([is_monitoring] set,
    one live coroutine) a second start resets the session and leaves two
    live coroutines, and both step when the event loop resumes them. *)
Lemma second_start_counterexample :
  is_monitoring (ms (running_session 2)) = true /\
  live_tasks (running_session 2) = 1%nat /\
  exec start_monitoring (running_session 2) <> running_session 2 /\
  ~ (live_tasks (exec start_monitoring (running_session 2)) <= 1)%nat /\
  tasks (exec start_monitoring (running_session 2)) = [Sleeping running; Created] /\
  session_readings (ms (running_session 2)) = [108.70; 135.66] /\
  session_readings (ms (exec start_monitoring (running_session 2))) = [] /\
  tasks (run_events sample_env [StartMonitoring; Resume 0; Resume 1]
           (running_session 2)) = [Sleeping running; Sleeping running] /\
  time_counter (ms (run_events sample_env [StartMonitoring; Resume 0; Resume 1]
                      (running_session 2))) = 2%Z.
Proof.
  split; [vm_compute; reflexivity |].
  split; [vm_compute; reflexivity |].
  split.
  { intros H. apply (f_equal tasks) in H. vm_compute in H. discriminate. }
  split.
  { intros H. vm_compute in H. lia. }
  vm_compute. repeat split; reflexivity.
Qed.

(** ** Faults during a step *)

Lemma simulation_step_exec env p w :
  let w2 := exec (enforce_boundaries env) (exec (update_signal env p) w) in
  let s' := toggle_heart_scale (update_chart_history (update_session_stats (ms w2))) in
  simulation_step env p w =
  (match on_update env with
   | None => Ok tt
   | Some callback =>
       match callback s' with
       | None => Ok tt
       | Some e => Raise e
       end
   end,
   mkWorld s' (rng_pos w2) (clock_pos w2) (console w2) (tasks w2)).
Proof.
  cbv zeta. unfold simulation_step, bind at 1.
  unfold exec at 2 4 6 8 10 12.
  rewrite update_signal_exec. cbn [snd].
  set (w1 := mkWorld _ _ _ _ _).
  unfold bind at 1.
  pose proof (enforce_boundaries_ok env w1) as Hok.
  unfold outcome in Hok. unfold exec.
  destruct (enforce_boundaries env w1) as [r w2]. cbn [fst snd] in *. subst r.
  cbn [bind modify ms rng_pos clock_pos console tasks].
  unfold refresh_ui. destruct (on_update env) as [callback |]; [| reflexivity].
  unfold bind, get_state. cbn [ms].
  match goal with |- context [callback ?s] => destruct (callback s) end;
    reflexivity.
Qed.

Lemma enforce_boundaries_console env w :
  console (exec (enforce_boundaries env) w) = console w /\
  tasks (exec (enforce_boundaries env) w) = tasks w.
Proof.
  unfold exec, enforce_boundaries, bind, get_state.
  destruct (Py.ltb (heart_rate (ms w)) 40); [split; reflexivity |].
  destruct (Py.ltb 190 (heart_rate (ms w))); split; reflexivity.
Qed.

Lemma simulation_step_console env p w :
  console (exec (simulation_step env p) w) = console w /\
  tasks (exec (simulation_step env p) w) = tasks w.
Proof.
  unfold exec at 1 2. rewrite simulation_step_exec. cbn [snd console tasks].
  destruct (enforce_boundaries_console env (exec (update_signal env p) w))
    as [Hc Ht].
  rewrite Hc, Ht. unfold exec. rewrite update_signal_exec. split; reflexivity.
Qed.

Lemma simulation_step_flag env p w :
  is_monitoring (ms (exec (simulation_step env p) w)) = is_monitoring (ms w).
Proof. rewrite simulation_step_fields. reflexivity. Qed.

Lemma resume_ok env i w : outcome (resume env i) w = Ok tt.
Proof.
  unfold outcome, resume.
  destruct (nth_error (tasks w) i) as [t |]; [| reflexivity].
  unfold bind. destruct (run_simulation_ok env t w) as [t' Hok].
  unfold outcome in Hok.
  destruct (run_simulation env t w) as [r w1]. cbn [fst] in Hok. subst r.
  reflexivity.
Qed.

Lemma replace_nth_same {A : Type} (i : nat) (x y : A) (l : list A) :
  nth_error l i = Some y -> nth_error (replace_nth i x l) i = Some x.
Proof.
  revert i. induction l as [| a l IH]; intros [| i] H; cbn in *;
    try discriminate; [reflexivity | apply IH; exact H].
Qed.

Lemma try_except_is_except_Exception (body : M Task) (w : World) (e : string) :
  outcome body w = Raise e ->
  exec (try_except body) w = snd (except_Exception (ExceptionInstance e) (exec body w)) /\
  outcome (try_except body) w = Ok Finished.
Proof.
  unfold outcome, exec, try_except. intros H.
  destruct (body w) as [[t | e'] w1]; cbn [fst snd] in *; [discriminate |].
  injection H as ->. split; reflexivity.
Qed.

(** C9, amended.  When the step of a resumed coroutine raises an instance
    of [Exception] with message [e], [run_simulation] returns normally:
    the handler of line 111 writes "Simulation Error: e" and the
    traceback, the coroutine returns, and [is_monitoring] keeps the value
    [True] it had when the loop tested it.  The same happens to an
    instance of [Exception] thrown into the [await].  An exception
    outside [Exception], such as the [CancelledError] of a cancelled task,
    is not handled: it leaves the coroutine, nothing is written and the
    state is untouched. *)
Theorem exception_instances_are_contained (env : Env) (t : Task) (w : World)
  (e : string)
  (Hlive : live t = true)
  (Hraise : outcome (loop_iteration env (profile_of t (ms w))) w = Raise e) :
  let w' := exec (run_simulation env t) w in
  outcome (run_simulation env t) w = Ok Finished /\
  w' = snd (except_Exception (ExceptionInstance e)
              (exec (loop_iteration env (profile_of t (ms w))) w)) /\
  console w' = console w ++ [Printed ("Simulation Error: " ++ e); Traceback e] /\
  is_monitoring (ms w) = true /\
  is_monitoring (ms w') = true /\
  (forall i,
     nth_error (tasks w) i = Some t ->
     outcome (resume env i) w = Ok tt /\
     nth_error (tasks (exec (resume env i) w)) i = Some Finished /\
     is_monitoring (ms (exec (resume env i) w)) = true) /\
  (forall p0 w0 e0,
     fst (throw_into (ExceptionInstance e0) (Sleeping p0) w0) = Returns Finished /\
     console (snd (throw_into (ExceptionInstance e0) (Sleeping p0) w0)) =
       console w0 ++ [Printed ("Simulation Error: " ++ e0); Traceback e0] /\
     ms (snd (throw_into (ExceptionInstance e0) (Sleeping p0) w0)) = ms w0) /\
  (forall p0 w0 name,
     except_Exception (BaseExceptionOnly name) w0 =
       (Propagates (BaseExceptionOnly name), w0) /\
     throw_into (BaseExceptionOnly name) (Sleeping p0) w0 =
       (Propagates (BaseExceptionOnly name), w0)).
Proof.
  intros w'.
  set (p := profile_of t (ms w)) in *.
  assert (Hm : is_monitoring (ms w) = true).
  { unfold outcome, loop_iteration, bind, get_state in Hraise.
    destruct (is_monitoring (ms w)); [reflexivity | discriminate]. }
  assert (Hstep : outcome (simulation_step env p) w = Raise e).
  { unfold outcome, loop_iteration, bind, get_state in Hraise. rewrite Hm in Hraise.
    unfold outcome.
    destruct (simulation_step env p w) as [[[] | e'] w1]; cbn in *; congruence. }
  assert (Hloop : exec (loop_iteration env p) w = exec (simulation_step env p) w).
  { unfold exec, loop_iteration, bind, get_state. rewrite Hm.
    unfold outcome in Hstep.
    destruct (simulation_step env p w) as [[[] | e'] w1]; cbn [fst snd] in *;
      [discriminate | reflexivity]. }
  assert (Hrun : run_simulation env t w = try_except (loop_iteration env p) w).
  { rewrite run_simulation_exec. destruct t; [reflexivity | reflexivity | discriminate]. }
  destruct (try_except_is_except_Exception (loop_iteration env p) w e Hraise)
    as [Hexec Hout].
  assert (Hw' : w' = snd (except_Exception (ExceptionInstance e)
                            (exec (loop_iteration env p) w))).
  { subst w'. unfold exec at 1. rewrite Hrun. exact Hexec. }
  assert (Hok : outcome (run_simulation env t) w = Ok Finished).
  { unfold outcome. rewrite Hrun. exact Hout. }
  destruct (simulation_step_console env p w) as [Hconsole Htasks].
  pose proof (simulation_step_flag env p w) as Hflag.
  assert (Hc' : console w' =
                console w ++ [Printed ("Simulation Error: " ++ e); Traceback e]).
  { rewrite Hw', Hloop. cbn. rewrite Hconsole, <- app_assoc. reflexivity. }
  assert (Hf' : is_monitoring (ms w') = true).
  { rewrite Hw', Hloop. cbn. rewrite Hflag. exact Hm. }
  assert (Ht' : tasks w' = tasks w).
  { rewrite Hw', Hloop. cbn. exact Htasks. }
  split; [exact Hok |].
  split; [exact Hw' |].
  split; [exact Hc' |].
  split; [exact Hm |].
  split; [exact Hf' |].
  split.
  { intros i Hi.
    split; [apply resume_ok |].
    assert (Hres : exec (resume env i) w =
                   mkWorld (ms w') (rng_pos w') (clock_pos w') (console w')
                     (replace_nth i Finished (tasks w'))).
    { unfold exec at 1, resume. rewrite Hi. unfold bind.
      unfold outcome in Hok. subst w'. unfold exec.
      destruct (run_simulation env t w) as [r w1]. cbn [fst snd] in *.
      subst r. reflexivity. }
    rewrite Hres. cbn [tasks ms]. rewrite Ht'.
    split; [eapply replace_nth_same; exact Hi | exact Hf']. }
  split.
  { intros p0 w0 e0. cbn. rewrite <- app_assoc. repeat split; reflexivity. }
  intros p0 w0 name. split; reflexivity.
Qed.

Lemma exception_instances_are_contained_witness :
  outcome (run_simulation faulty_env (Sleeping running)) (faulty_session 2) =
    Ok Finished /\
  console (exec (run_simulation faulty_env (Sleeping running)) (faulty_session 2)) =
    [Printed "Simulation Error: control is detached";
     Traceback "control is detached"] /\
  is_monitoring
    (ms (exec (run_simulation faulty_env (Sleeping running)) (faulty_session 2)))
  = true.
Proof.
  assert (Hraise : outcome (loop_iteration faulty_env
                              (profile_of (Sleeping running) (ms (faulty_session 2))))
                     (faulty_session 2) = Raise "control is detached")
    by (vm_compute; reflexivity).
  pose proof (exception_instances_are_contained faulty_env (Sleeping running)
                (faulty_session 2) "control is detached" eq_refl Hraise)
    as (Hok & _ & Hconsole & _ & Hflag & _).
  split; [exact Hok |].
  split; [rewrite Hconsole; vm_compute; reflexivity | exact Hflag].
Defined.

(** C9, as stated, fails for an exception that is no instance of
    [Exception]: two ticks into a session the coroutine sleeps at line
    110; a [CancelledError] thrown into it there passes the handler and
    leaves the coroutine, and nothing is written. *)
Lemma cancellation_is_not_caught_counterexample :
  nth_error (tasks (running_session 2)) 0 = Some (Sleeping running) /\
  is_monitoring (ms (running_session 2)) = true /\
  fst (throw_into (BaseExceptionOnly "CancelledError") (Sleeping running)
         (running_session 2)) = Propagates (BaseExceptionOnly "CancelledError") /\
  fst (throw_into (BaseExceptionOnly "CancelledError") (Sleeping running)
         (running_session 2)) <> Returns Finished /\
  console (snd (throw_into (BaseExceptionOnly "CancelledError") (Sleeping running)
                  (running_session 2))) = [].
Proof.
  split; [vm_compute; reflexivity |].
  split; [vm_compute; reflexivity |].
  split; [reflexivity |].
  split; [discriminate |].
  vm_compute. reflexivity.
Qed.

(** ** The heart rate across sessions *)

(** C10.  [start_monitoring] leaves [heart_rate] as it is: besides setting
    [is_monitoring] it resets [min_bpm], [max_bpm], [avg_bpm], [total_time],
    [session_readings], [history], [time_counter] and [logs] only, so the
    first step of a session smooths from the heart rate the previous session
    ended with, and the first session starts from 72.0. *)
Theorem start_keeps_heart_rate (env : Env) (w : World) :
  let w' := exec start_monitoring w in
  heart_rate (ms w') = heart_rate (ms w) /\
  heart_scale (ms w') = heart_scale (ms w) /\
  history_sessions (ms w') = history_sessions (ms w) /\
  activity (ms w') = activity (ms w) /\
  heart_rate init_state = 72.0 /\
  (activity (ms w) <> EmptyString ->
   min_bpm (ms w') = 999.0 /\ max_bpm (ms w') = 0.0 /\ avg_bpm (ms w') = 0.0 /\
   total_time (ms w') = 0%Z /\ session_readings (ms w') = [] /\
   history (ms w') = [] /\ time_counter (ms w') = 0%Z /\ logs (ms w') = [] /\
   is_monitoring (ms w') = true) /\
  (forall p,
     heart_rate (ms (exec (update_signal env p) w')) =
     signal_value p (heart_rate (ms w))
       (random env (rng_pos w)) (random env (S (rng_pos w)))) /\
  heart_rate (ms (exec start_monitoring (exec (stop_monitoring env) w))) =
    heart_rate (ms w) /\
  (forall a,
     heart_rate (ms (run_events env [SelectActivity a; StartMonitoring] init_world))
     = 72.0).
Proof.
  intros w'.
  assert (Hframe : forall w0,
            heart_rate (ms (exec start_monitoring w0)) = heart_rate (ms w0) /\
            heart_scale (ms (exec start_monitoring w0)) = heart_scale (ms w0) /\
            history_sessions (ms (exec start_monitoring w0)) =
              history_sessions (ms w0) /\
            activity (ms (exec start_monitoring w0)) = activity (ms w0) /\
            rng_pos (exec start_monitoring w0) = rng_pos w0).
  { intros w0. unfold exec. rewrite start_monitoring_exec. cbn [snd].
    destruct (negb _); repeat split; reflexivity. }
  destruct (Hframe w) as (Hhr & Hscale & Hsessions & Hact & Hrng).
  fold w' in Hhr, Hscale, Hsessions, Hact, Hrng.
  split; [exact Hhr |]. split; [exact Hscale |]. split; [exact Hsessions |].
  split; [exact Hact |]. split; [reflexivity |].
  split.
  { intros Hne. subst w'. rewrite (start_monitoring_state w Hne).
    repeat split; reflexivity. }
  split.
  { intros p. unfold exec at 1. rewrite update_signal_exec. cbn [snd ms heart_rate
      set_heart_rate]. rewrite Hhr, Hrng. reflexivity. }
  split.
  { destruct (Hframe (exec (stop_monitoring env) w)) as (H & _). rewrite H.
    unfold exec. rewrite stop_monitoring_exec. cbn [snd].
    destruct (session_readings (ms w)); destruct (ms w); reflexivity. }
  intros a. cbn [run_events fold_left handle].
  destruct (Hframe (exec (select_activity a) init_world)) as (H & _).
  rewrite H. reflexivity.
Qed.

Lemma start_keeps_heart_rate_witness :
  heart_rate (ms (running_session 5)) = 136.07 /\
  heart_rate
    (ms (exec start_monitoring (exec (stop_monitoring sample_env) (running_session 5))))
  = 136.07 /\
  session_readings
    (ms (exec start_monitoring (exec (stop_monitoring sample_env) (running_session 5))))
  = [].
Proof.
  pose proof (start_keeps_heart_rate sample_env (running_session 5))
    as (_ & _ & _ & _ & _ & _ & _ & Hrestart & _).
  pose proof (start_keeps_heart_rate sample_env
                (exec (stop_monitoring sample_env) (running_session 5)))
    as (_ & _ & _ & _ & _ & Hreset & _).
  split; [vm_compute; reflexivity |].
  split; [rewrite Hrestart; vm_compute; reflexivity |].
  apply Hreset. vm_compute. discriminate.
Defined.

(** * Further properties of the simulator *)

(** ** Profiles *)

Lemma dict_get_default {V : Type} (d : list (string * V)) (key : string) (default : V) :
  ~ In key (map fst d) -> dict_get d key default = default.
Proof.
  induction d as [| [k v] d IH]; intros Hnot; cbn [dict_get]; [reflexivity |].
  destruct (String.eqb_spec k key) as [-> | _].
  - exfalso. apply Hnot. left. reflexivity.
  - apply IH. intros Hin. apply Hnot. right. exact Hin.
Qed.

Lemma dict_get_cases {V : Type} (d : list (string * V)) (key : string) (default : V) :
  dict_get d key default = default \/ In (key, dict_get d key default) d.
Proof.
  induction d as [| [k v] d IH]; cbn [dict_get]; [left; reflexivity |].
  destruct (String.eqb_spec k key) as [-> | _].
  - right. left. reflexivity.
  - destruct IH as [H | H]; [left; exact H | right; right; exact H].
Qed.

Lemma profile_lookup_known (a : string) :
  In (dict_get activity_profiles a default_profile) known_profiles.
Proof.
  destruct (dict_get_cases activity_profiles a default_profile) as [H | H].
  - rewrite H. left. reflexivity.
  - right. apply (in_map snd) in H. exact H.
Qed.

Lemma known_profiles_keep_within (p : Profile) :
  In p known_profiles -> keeps_within 55 164 p.
Proof.
  intros Hin. cbn in Hin.
  repeat (destruct Hin as [<- | Hin]; [cbn; repeat split; lra |]).
  destruct Hin.
Qed.

(** X1.  [activity_profiles.get(activity, default)]: an activity that is
    none of the five keys, the empty one included, steps with the fallback
    tuple (70, 100, 0.8, 0.8); whatever the activity, the tuple has a
    momentum strictly between 0 and 1, a positive noise size and a target
    band that lies in [[60, 160]]. *)
Theorem profile_lookup_total (a : string) :
  let p := dict_get activity_profiles a default_profile in
  (~ In a activity_names -> p = default_profile) /\
  dict_get activity_profiles EmptyString default_profile = (70, 100, 0.8, 0.8) /\
  (let '(base_hr, target_range, momentum, fluctuation) := p in
   0 < momentum < 1 /\ 0 < fluctuation /\
   60 <= base_hr /\ base_hr < target_range /\ target_range <= 160).
Proof.
  intros p.
  split; [intros Hnot; apply dict_get_default; exact Hnot |].
  split; [reflexivity |].
  pose proof (profile_lookup_known a) as Hin. fold p in Hin.
  clearbody p. cbn in Hin.
  repeat (destruct Hin as [<- | Hin]; [cbn; repeat split; lra |]).
  destruct Hin.
Qed.

Lemma profile_lookup_total_witness :
  dict_get activity_profiles "Cycling" default_profile = default_profile /\
  dict_get activity_profiles "Gym" default_profile = (110, 140, 0.5, 1.5).
Proof.
  split; [| reflexivity].
  pose proof (profile_lookup_total "Cycling") as [Hdefault _].
  apply Hdefault.
  vm_compute. intros H.
  repeat (destruct H as [H | H]; [discriminate |]). exact H.
Defined.

(** ** The signal stays in its band *)

Lemma round_half_even_between (a b : Z) (y : Q) :
  inject_Z a <= y <= inject_Z b ->
  (a <= Py.round_half_even y <= b)%Z.
Proof.
  intros [Ha Hb].
  assert (Hfa : (a <= Qfloor y)%Z).
  { rewrite <- (Qfloor_Z a). apply Qfloor_resp_le. exact Ha. }
  assert (Hfb : (Qfloor y <= b)%Z).
  { rewrite <- (Qfloor_Z b). apply Qfloor_resp_le. exact Hb. }
  assert (Hup : (1 # 2) <= y - inject_Z (Qfloor y) -> (Qfloor y + 1 <= b)%Z).
  { intros Hhalf.
    assert (Hlt : inject_Z (Qfloor y) < inject_Z b) by lra.
    rewrite <- Zlt_Qlt in Hlt. lia. }
  unfold Py.round_half_even.
  destruct (Qcompare (y - inject_Z (Qfloor y)) (1 # 2)) eqn:E.
  - apply Qeq_alt in E.
    destruct (Z.even (Qfloor y)); [lia |].
    split; [lia | apply Hup; lra].
  - lia.
  - apply Qgt_alt in E. split; [lia | apply Hup; lra].
Qed.

(** Rounding never crosses an integer. *)
Lemma round_keeps_bounds (x : Q) (n : nat) (a b : Z) :
  inject_Z a <= x <= inject_Z b ->
  inject_Z a <= Py.round x n <= inject_Z b.
Proof.
  intros [Ha Hb]. unfold Py.round.
  set (d := Py.pow10 n).
  assert (HD : 0 <= inject_Z (Zpos d)) by (unfold Qle; cbn; lia).
  destruct (round_half_even_between (a * Zpos d) (b * Zpos d)
              (x * inject_Z (Zpos d))) as [Hlo Hhi].
  { rewrite !inject_Z_mult. split; apply Qmult_le_compat_r; assumption. }
  set (r := Py.round_half_even _) in *.
  unfold Qle, inject_Z. cbn [Qnum Qden]. split; lia.
Qed.

Lemma smoothed_between (lo hi m f hr u1 u2 : Q) :
  0 <= m <= 1 -> lo <= hi -> 0 <= f -> 0 <= u1 <= 1 -> 0 <= u2 <= 1 ->
  let x := hr + (Py.uniform_of lo hi u1 - hr) * (1 - m)
           + Py.uniform_of (- f) f u2 in
  m * hr + (1 - m) * lo - f <= x <= m * hr + (1 - m) * hi + f.
Proof.
  intros Hm Hband Hf Hu1 Hu2 x.
  pose proof (uniform_of_range lo hi u1 Hu1 Hband) as Ht.
  assert (Hff : - f <= f) by lra.
  pose proof (uniform_of_range (- f) f u2 Hu2 Hff) as Hn.
  subst x.
  set (t := Py.uniform_of lo hi u1) in *.
  set (n := Py.uniform_of (- f) f u2) in *.
  assert (H1 : 0 <= (1 - m) * (t - lo)) by (apply Qmult_le_0_compat; lra).
  assert (H2 : 0 <= (1 - m) * (hi - t)) by (apply Qmult_le_0_compat; lra).
  split; lra.
Qed.

Lemma signal_value_within (p : Profile) (a b : Z) (hr u1 u2 : Q) :
  keeps_within (inject_Z a) (inject_Z b) p ->
  0 <= u1 <= 1 -> 0 <= u2 <= 1 ->
  inject_Z a <= hr <= inject_Z b ->
  inject_Z a <= signal_value p hr u1 u2 <= inject_Z b.
Proof.
  destruct p as [[[lo hi] m] f].
  intros (Hm & Hband & Hf & Hlow & Hhigh) Hu1 Hu2 Hhr.
  unfold signal_value. apply round_keeps_bounds.
  pose proof (smoothed_between lo hi m f hr u1 u2 Hm Hband Hf Hu1 Hu2) as Hx.
  cbv zeta in Hx.
  set (x := hr + _ + _) in *.
  assert (H1 : 0 <= m * (hr - inject_Z a)) by (apply Qmult_le_0_compat; lra).
  assert (H2 : 0 <= m * (inject_Z b - hr)) by (apply Qmult_le_0_compat; lra).
  split; lra.
Qed.



Lemma enforce_boundaries_in_range env w :
  40 <= heart_rate (ms w) <= 190 -> enforce_boundaries env w = (Ok tt, w).
Proof.
  intros [Hlo Hhi]. unfold enforce_boundaries, bind, get_state.
  assert (Py.ltb (heart_rate (ms w)) 40 = false) as ->
    by (apply ltb_false_iff; exact Hlo).
  assert (Py.ltb 190 (heart_rate (ms w)) = false) as ->
    by (apply ltb_false_iff; exact Hhi).
  reflexivity.
Qed.

Lemma boundary_value_in_range (v u : Q) :
  40 <= v <= 190 -> boundary_value v u = v.
Proof.
  intros [Hlo Hhi]. unfold boundary_value.
  assert (Py.ltb v 40 = false) as -> by (apply ltb_false_iff; exact Hlo).
  assert (Py.ltb 190 v = false) as -> by (apply ltb_false_iff; exact Hhi).
  reflexivity.
Qed.

(** A step whose smoothed value needs no correction: two draws, no reading
    of the clock, no log entry. *)
Lemma simulation_step_in_range env p w :
  let v := signal_value p (heart_rate (ms w))
             (random env (rng_pos w)) (random env (S (rng_pos w))) in
  let w' := exec (simulation_step env p) w in
  40 <= v <= 190 ->
  heart_rate (ms w') = v /\ logs (ms w') = logs (ms w) /\
  rng_pos w' = S (S (rng_pos w)) /\ clock_pos w' = clock_pos w /\
  tasks w' = tasks w /\ console w' = console w.
Proof.
  intros v w' Hv.
  assert (Hw2 : exec (enforce_boundaries env) (exec (update_signal env p) w) =
                exec (update_signal env p) w).
  { unfold exec at 1. rewrite enforce_boundaries_in_range; [reflexivity |].
    unfold exec. rewrite update_signal_exec. exact Hv. }
  split.
  { subst w'. rewrite simulation_step_heart_rate.
    apply boundary_value_in_range. exact Hv. }
  split.
  { subst w'. rewrite simulation_step_state, Hw2. unfold toggle_heart_scale.
    rewrite update_chart_history_eq, update_session_stats_eq.
    unfold exec. rewrite update_signal_exec. reflexivity. }
  subst w'. unfold exec at 1 2 3 4. rewrite simulation_step_exec.
  cbn [snd rng_pos clock_pos tasks console]. rewrite Hw2.
  unfold exec. rewrite update_signal_exec. repeat split; reflexivity.
Qed.

(** One resumption, case by case. *)
Lemma resume_exec env i w :
  exec (resume env i) w =
  match nth_error (tasks w) i with
  | None => w
  | Some t =>
      if live t && is_monitoring (ms w) then
        let p := profile_of t (ms w) in
        let w1 := exec (simulation_step env p) w in
        match outcome (simulation_step env p) w with
        | Ok _ =>
            mkWorld (ms w1) (rng_pos w1) (clock_pos w1) (console w1)
              (replace_nth i (Sleeping p) (tasks w1))
        | Raise e =>
            mkWorld (ms w1) (rng_pos w1) (clock_pos w1)
              (console w1 ++ [Printed ("Simulation Error: " ++ e); Traceback e])
              (replace_nth i Finished (tasks w1))
        end
      else
        mkWorld (ms w) (rng_pos w) (clock_pos w) (console w)
          (replace_nth i Finished (tasks w))
  end.
Proof.
  unfold exec at 1, resume.
  destruct (nth_error (tasks w) i) as [t |]; [| reflexivity].
  unfold bind. rewrite run_simulation_exec.
  destruct t as [| p |]; cbn [live andb profile_of]; [| | reflexivity];
    rewrite try_loop_iteration;
    (destruct (is_monitoring (ms w)); [| reflexivity]);
    unfold outcome, exec; cbv zeta;
    destruct (simulation_step env _ w) as [[[] | e] w1]; reflexivity.
Qed.

Lemma Forall_replace_nth {A : Type} (P : A -> Prop) (i : nat) (x : A) (l : list A) :
  P x -> Forall P l -> Forall P (replace_nth i x l).
Proof.
  intros Hx Hl. revert i.
  induction Hl as [| a l Ha Hl IH]; intros [| i]; cbn [replace_nth];
    constructor; auto.
Qed.

Lemma Forall_tl {A : Type} (P : A -> Prop) (l : list A) :
  Forall P l -> Forall P (tl l).
Proof. intros H. destruct H; [constructor | assumption]. Qed.

Lemma Forall_window (P : Z * Q -> Prop) (h : list (Z * Q)) :
  Forall P h -> Forall P (window h).
Proof.
  intros H. unfold window.
  destruct (_ <? _)%nat; [apply Forall_tl |]; exact H.
Qed.

(** Every world is reached through the four handlers. *)
Lemma reachable_world_invariant env (P : World -> Prop) :
  P init_world ->
  (forall ev w, P w -> P (exec (handle env ev) w)) ->
  forall evs, P (run_events env evs init_world).
Proof.
  intros Hinit Hstep evs.
  assert (H : forall w, P w -> P (run_events env evs w)).
  { induction evs as [| ev evs IH]; intros w Hw; [exact Hw |].
    cbn [run_events fold_left]. apply IH, Hstep, Hw. }
  apply H, Hinit.
Qed.

Lemma task_profile_of_known (t : Task) (s : MonitorState) :
  task_profile_known t -> In (profile_of t s) known_profiles.
Proof.
  destruct t as [| p |]; cbn [task_profile_known profile_of]; intros H;
    [apply profile_lookup_known | exact H | apply profile_lookup_known].
Qed.

Lemma step_value_in_band env p w :
  unit_draws env -> In p known_profiles ->
  55 <= heart_rate (ms w) <= 164 ->
  55 <= signal_value p (heart_rate (ms w))
          (random env (rng_pos w)) (random env (S (rng_pos w))) <= 164.
Proof.
  intros Hdraws Hp Hhr.
  apply (signal_value_within p 55 164); auto.
  apply known_profiles_keep_within. exact Hp.
Qed.

Lemma step_keeps_quiet env p w :
  unit_draws env -> In p known_profiles -> quiet w ->
  let w' := exec (simulation_step env p) w in
  (55 <= heart_rate (ms w') <= 164 /\ logs (ms w') = [] /\
   Forall (fun r => 55 <= r <= 164) (session_readings (ms w')) /\
   Forall (fun point => 55 <= snd point <= 164) (history (ms w'))) /\
  tasks w' = tasks w /\ rng_pos w' = S (S (rng_pos w)) /\
  clock_pos w' = clock_pos w /\ console w' = console w.
Proof.
  intros Hdraws Hp (Hhr & Hlogs & Hreadings & Hhistory & Htasks) w'.
  pose proof (step_value_in_band env p w Hdraws Hp Hhr) as Hv.
  destruct (simulation_step_in_range env p w) as (Hh & Hl & Hr & Hc & Ht & Ho).
  { lra. }
  fold w' in Hh, Hl, Hr, Hc, Ht, Ho.
  assert (Hband : 55 <= heart_rate (ms w') <= 164) by (rewrite Hh; exact Hv).
  split; [| repeat split; assumption].
  split; [exact Hband |].
  split; [rewrite Hl; exact Hlogs |].
  pose proof (simulation_step_fields env p w) as Hs. cbv zeta in Hs.
  fold w' in Hs.
  split.
  - rewrite Hs. cbn [session_readings].
    apply Forall_app. split; [exact Hreadings | constructor; [exact Hband | constructor]].
  - rewrite Hs. cbn [history].
    apply Forall_window, Forall_app.
    split; [exact Hhistory | constructor; [exact Hband | constructor]].
Qed.

Lemma handle_keeps_quiet env ev w :
  unit_draws env -> quiet w -> quiet (exec (handle env ev) w).
Proof.
  intros Hdraws Hq.
  pose proof Hq as (Hhr & Hlogs & Hreadings & Hhistory & Htasks).
  destruct ev as [a | | | i]; cbn [handle].
  - destruct w as [s r c o t]. destruct s. exact Hq.
  - unfold exec. rewrite start_monitoring_exec. cbn [snd].
    destruct (negb _); [| exact Hq].
    unfold quiet. cbn [ms heart_rate logs session_readings history tasks].
    repeat split; try (apply Hhr); try constructor.
    apply Forall_app. split; [exact Htasks | constructor; [exact I | constructor]].
  - unfold exec. rewrite stop_monitoring_exec. cbn [snd].
    destruct w as [s r c o t].
    destruct s as [a hr h l tc hs mn mx im tt av sr hss].
    destruct sr; exact Hq.
  - rewrite resume_exec.
    destruct (nth_error (tasks w) i) as [t |] eqn:Hi; [| exact Hq].
    assert (Ht : task_profile_known t).
    { rewrite Forall_forall in Htasks. apply Htasks.
      eapply nth_error_In. exact Hi. }
    destruct (live t && is_monitoring (ms w)).
    + cbv zeta.
      pose proof (task_profile_of_known t (ms w) Ht) as Hp.
      destruct (step_keeps_quiet env (profile_of t (ms w)) w Hdraws Hp Hq)
        as ((Hhr' & Hlogs' & Hreadings' & Hhistory') & Ht' & _).
      cbv zeta in Ht'.
      destruct (outcome (simulation_step env (profile_of t (ms w))) w);
        unfold quiet; cbn [ms tasks]; rewrite Ht';
        (repeat split; try assumption; try (apply Hhr'));
        apply Forall_replace_nth; try assumption; try exact I.
    + unfold quiet. cbn [ms tasks]. repeat split; try assumption; try (apply Hhr).
      apply Forall_replace_nth; [exact I | exact Htasks].
Qed.

Lemma reachable_quiet env evs :
  unit_draws env -> quiet (run_events env evs init_world).
Proof.
  intros Hdraws. apply reachable_world_invariant.
  - unfold quiet. cbn. repeat split; try lra; constructor.
  - intros ev w0 H. apply handle_keeps_quiet; assumption.
Qed.

(** X3.  With draws in the unit interval, in every world the application
    reaches the heart rate, every reading and every charted value lie in
    [[55, 164]]: the boundary checks of step 4 never fire, no alert is ever
    logged, and a step consumes exactly two draws and does not read the
    clock. *)
Theorem boundaries_never_hit (env : Env) (evs : list Event)
  (Hdraws : unit_draws env) :
  let w := run_events env evs init_world in
  55 <= heart_rate (ms w) <= 164 /\
  logs (ms w) = [] /\
  Forall (fun r => 55 <= r <= 164) (session_readings (ms w)) /\
  Forall (fun point => 55 <= snd point <= 164) (history (ms w)) /\
  (forall i t,
     nth_error (tasks w) i = Some t ->
     let p := profile_of t (ms w) in
     let w' := exec (simulation_step env p) w in
     heart_rate (ms w') =
       signal_value p (heart_rate (ms w))
         (random env (rng_pos w)) (random env (S (rng_pos w))) /\
     rng_pos w' = S (S (rng_pos w)) /\ clock_pos w' = clock_pos w).
Proof.
  intros w.
  pose proof (reachable_quiet env evs Hdraws) as Hq. fold w in Hq.
  pose proof Hq as (Hhr & Hlogs & Hreadings & Hhistory & Htasks).
  repeat (split; [assumption |]).
  intros i t Hi p w'.
  assert (Hp : In p known_profiles).
  { apply task_profile_of_known. rewrite Forall_forall in Htasks.
    apply Htasks. eapply nth_error_In. exact Hi. }
  pose proof (step_value_in_band env p w Hdraws Hp Hhr) as Hv.
  destruct (simulation_step_in_range env p w) as (Hh & _ & Hr & Hc & _);
    [lra |].
  repeat split; assumption.
Qed.

Lemma boundaries_never_hit_witness :
  unit_draws sample_env /\
  logs (ms (running_session 65)) = [] /\
  55 <= heart_rate (ms (running_session 65)) <= 164.
Proof.
  pose proof (boundaries_never_hit sample_env
                ([SelectActivity "Running"; StartMonitoring] ++ repeat (Resume 0) 65)
                sample_random_unit) as (Hhr & Hlogs & _).
  split; [exact sample_random_unit |].
  split; [exact Hlogs | exact Hhr].
Defined.

(** ** Sound statistics *)

Lemma total_between (l : list Q) (a b : Q) :
  Forall (fun r => a <= r <= b) l ->
  a * Py.len l <= total l <= b * Py.len l.
Proof.
  unfold Py.len. induction 1 as [| r l Hr Hl IH]; cbn [total List.length].
  - change (inject_Z (Z.of_nat 0)) with 0. lra.
  - rewrite Nat2Z.inj_succ, <- Z.add_1_r, inject_Z_plus.
    change (inject_Z 1) with 1. lra.
Qed.

Lemma mean_between (l : list Q) (a b : Q) :
  l <> [] -> Forall (fun r => a <= r <= b) l ->
  a <= arithmetic_mean l <= b.
Proof.
  intros Hne Hl. pose proof (total_between l a b Hl) as [Hlo Hhi].
  assert (Hn : 0 < Py.len l).
  { unfold Py.len. destruct l; [contradiction |].
    rewrite <- (Zlt_Qlt 0). cbn [List.length]. lia. }
  unfold arithmetic_mean. fold (Py.len l). split.
  - apply Qle_shift_div_l; assumption.
  - apply Qle_shift_div_r; assumption.
Qed.

Lemma step_keeps_session_sound env p w :
  unit_draws env -> session_sound (ms w) ->
  session_sound (ms (exec (simulation_step env p) w)).
Proof.
  intros Hdraws (Hempty & Hattained & Hrange & Hstats).
  assert (Hh : 40 <= heart_rate (ms (exec (simulation_step env p) w)) <= 190).
  { rewrite simulation_step_heart_rate. apply boundary_value_range, Hdraws. }
  assert (Hstats' : statistics_consistent (ms (exec (simulation_step env p) w))).
  { destruct Hstats as [Hb _]. split.
    - apply step_keeps_brackets. exact Hb.
    - intros _. apply step_average_is_mean. }
  pose proof (simulation_step_fields env p w) as Hs. cbv zeta in Hs.
  set (s' := ms (exec (simulation_step env p) w)) in *.
  set (h := heart_rate s') in *.
  unfold session_sound. rewrite Hs.
  cbn [session_readings min_bpm max_bpm avg_bpm].
  split; [intros E; destruct (session_readings (ms w)); discriminate |].
  split.
  { intros _.
    destruct (session_readings (ms w)) as [| r rest] eqn:E.
    - destruct (Hempty eq_refl) as (Hmin & Hmax & _). rewrite Hmin, Hmax.
      unfold Py.min, Py.max.
      assert (Py.ltb h 999.0 = true) as -> by (apply ltb_true_iff; lra).
      assert (Py.ltb 0.0 h = true) as -> by (apply ltb_true_iff; lra).
      split; left; reflexivity.
    - destruct Hattained as [Hmin Hmax]; [discriminate |].
      unfold Py.min, Py.max. split.
      + destruct (Py.ltb h (min_bpm (ms w)));
          apply in_or_app; [right; left; reflexivity | left; exact Hmin].
      + destruct (Py.ltb (max_bpm (ms w)) h);
          apply in_or_app; [right; left; reflexivity | left; exact Hmax]. }
  split.
  { apply Forall_app. split; [exact Hrange | constructor; [exact Hh | constructor]]. }
  rewrite <- Hs. exact Hstats'.
Qed.

Lemma session_sound_fresh (s : MonitorState) :
  session_readings s = [] -> min_bpm s = 999.0 -> max_bpm s = 0.0 ->
  avg_bpm s = 0.0 -> session_sound s.
Proof.
  intros Hr Hmin Hmax Havg. unfold session_sound, statistics_consistent, brackets.
  rewrite Hr.
  split; [intros _; auto |].
  split; [intros H; congruence |].
  split; [constructor |].
  split; [constructor | intros H; congruence].
Qed.

Lemma reachable_session_sound env evs :
  unit_draws env -> session_sound (ms (run_events env evs init_world)).
Proof.
  intros Hdraws. apply reachable_state_invariant.
  - apply session_sound_fresh; reflexivity.
  - intros a s H. destruct s. exact H.
  - intros w H. unfold exec. rewrite start_monitoring_exec. cbn [snd].
    destruct (negb _); [| exact H].
    apply session_sound_fresh; reflexivity.
  - intros w H. unfold exec. rewrite stop_monitoring_exec. cbn [snd].
    destruct (session_readings (ms w)) eqn:E; cbn [ms]; destruct (ms w); exact H.
  - intros p w H _. apply step_keeps_session_sound; assumption.
Qed.

(** X4.  With draws in the unit interval, in every world the application
    reaches: before the first reading of a session [min_bpm], [max_bpm] and
    [avg_bpm] hold 999.0, 0.0 and 0.0; afterwards [min_bpm] and [max_bpm]
    are themselves readings of the session (the smallest and the largest)
    and every reading lies in [[40, 190]]. *)
Theorem extremes_are_readings (env : Env) (evs : list Event)
  (Hdraws : unit_draws env) :
  let s := ms (run_events env evs init_world) in
  (session_readings s = [] ->
   min_bpm s = 999.0 /\ max_bpm s = 0.0 /\ avg_bpm s = 0.0) /\
  (session_readings s <> [] ->
   In (min_bpm s) (session_readings s) /\
   In (max_bpm s) (session_readings s) /\
   Forall (fun r => min_bpm s <= r <= max_bpm s) (session_readings s) /\
   Forall (fun r => 40 <= r <= 190) (session_readings s)).
Proof.
  intros s.
  destruct (reachable_session_sound env evs Hdraws)
    as (Hempty & Hattained & Hrange & Hb & _).
  fold s in Hempty, Hattained, Hrange, Hb.
  split; [exact Hempty |].
  intros Hne. destruct (Hattained Hne) as [Hmin Hmax].
  repeat (split; [assumption |]).
  assumption.
Qed.

Lemma extremes_are_readings_witness :
  unit_draws sample_env /\
  In (min_bpm (ms (running_session 5))) (session_readings (ms (running_session 5))) /\
  In (max_bpm (ms (running_session 5))) (session_readings (ms (running_session 5))).
Proof.
  pose proof (extremes_are_readings sample_env
                ([SelectActivity "Running"; StartMonitoring] ++ repeat (Resume 0) 5)
                sample_random_unit) as (_ & Hfull).
  split; [exact sample_random_unit |].
  unfold running_session.
  assert (Hne : session_readings (ms (run_events sample_env
                  ([SelectActivity "Running"; StartMonitoring]
                   ++ repeat (Resume 0) 5) init_world)) <> [])
    by (vm_compute; discriminate).
  destruct (Hfull Hne) as (Hmin & Hmax & _).
  split; [exact Hmin | exact Hmax].
Defined.

(** ** Counters and the pulse *)

(** X5.  In every world the application reaches, [total_time] and
    [time_counter] both equal the number of readings of the session, so the
    duration of a summary counts the steps taken, one second each; a step
    adds one to each of the three. *)
Theorem counters_count_readings (env : Env) (evs : list Event) :
  let s := ms (run_events env evs init_world) in
  total_time s = Z.of_nat (List.length (session_readings s)) /\
  time_counter s = Z.of_nat (List.length (session_readings s)) /\
  (forall p w,
     let s0 := ms w in
     let s' := ms (exec (simulation_step env p) w) in
     total_time s' = (total_time s0 + 1)%Z /\
     time_counter s' = (time_counter s0 + 1)%Z /\
     List.length (session_readings s') = S (List.length (session_readings s0))).
Proof.
  intros s.
  assert (Hstep : forall p w,
            let s0 := ms w in
            let s' := ms (exec (simulation_step env p) w) in
            total_time s' = (total_time s0 + 1)%Z /\
            time_counter s' = (time_counter s0 + 1)%Z /\
            List.length (session_readings s') = S (List.length (session_readings s0))).
  { intros p w s0 s'. subst s' s0. rewrite simulation_step_fields. cbv zeta.
    cbn [total_time time_counter session_readings].
    rewrite length_app. cbn [List.length]. repeat split; lia. }
  assert (Hinv : counters_consistent s).
  { subst s. apply reachable_state_invariant.
    - split; reflexivity.
    - intros a s0 H. destruct s0. exact H.
    - intros w H. unfold exec. rewrite start_monitoring_exec. cbn [snd].
      destruct (negb _); [split; reflexivity | exact H].
    - intros w H. unfold exec. rewrite stop_monitoring_exec. cbn [snd].
      destruct (session_readings (ms w)) eqn:E; cbn [ms]; destruct (ms w); exact H.
    - intros p w [Ht Hc] _. destruct (Hstep p w) as (Ht' & Hc' & Hl').
      cbv zeta in Ht', Hc', Hl'.
      split; [rewrite Ht', Hl', Ht | rewrite Hc', Hl', Hc]; lia. }
  destruct Hinv as [Ht Hc].
  split; [exact Ht |]. split; [exact Hc | exact Hstep].
Qed.

(** X6.  The pulse: in every world the application reaches [heart_scale]
    is 1.0 or 1.2, a step switches it to the other value, and
    [start_monitoring] does not reset it. *)
Theorem heart_scale_alternates (env : Env) (evs : list Event) :
  let w := run_events env evs init_world in
  (heart_scale (ms w) = 1.0 \/ heart_scale (ms w) = 1.2) /\
  (forall p,
     let s' := ms (exec (simulation_step env p) w) in
     (heart_scale (ms w) = 1.0 -> heart_scale s' = 1.2) /\
     (heart_scale (ms w) = 1.2 -> heart_scale s' = 1.0)) /\
  heart_scale (ms (exec start_monitoring w)) = heart_scale (ms w).
Proof.
  intros w.
  assert (Hstep : forall p w0,
            heart_scale (ms (exec (simulation_step env p) w0)) =
            if Qeq_bool (heart_scale (ms w0)) 1.0 then 1.2 else 1.0).
  { intros p w0. rewrite simulation_step_fields. reflexivity. }
  assert (Hstart : forall w0,
            heart_scale (ms (exec start_monitoring w0)) = heart_scale (ms w0)).
  { intros w0. unfold exec. rewrite start_monitoring_exec. cbn [snd].
    destruct (negb _); reflexivity. }
  split.
  { subst w.
    apply (reachable_state_invariant env
             (fun s => heart_scale s = 1.0 \/ heart_scale s = 1.2)).
    - left. reflexivity.
    - intros a s0 H. destruct s0. exact H.
    - intros w0 H. rewrite Hstart. exact H.
    - intros w0 H. unfold exec. rewrite stop_monitoring_exec. cbn [snd].
      destruct (session_readings (ms w0)) eqn:E; cbn [ms]; destruct (ms w0); exact H.
    - intros p w0 H _. rewrite Hstep.
      destruct (Qeq_bool (heart_scale (ms w0)) 1.0); [right | left]; reflexivity. }
  split; [| apply Hstart].
  intros p s'. subst s'. rewrite Hstep.
  split; intros E; rewrite E; reflexivity.
Qed.

(** ** The list of summaries *)

Lemma run_events_snoc env evs ev w :
  run_events env (evs ++ [ev]) w = exec (handle env ev) (run_events env evs w).
Proof. unfold run_events. rewrite fold_left_app. reflexivity. Qed.

Lemma handle_sessions env ev w :
  exists added,
    history_sessions (ms (exec (handle env ev) w)) = history_sessions (ms w) ++ added /\
    (List.length added <= count_stops [ev])%nat.
Proof.
  destruct ev as [a | | | i]; cbn [handle].
  - exists []. rewrite app_nil_r. destruct (ms w) eqn:E.
    unfold exec, select_activity, modify. cbn [snd ms]. rewrite E.
    split; [reflexivity | cbn; lia].
  - exists []. rewrite app_nil_r. unfold exec. rewrite start_monitoring_exec.
    cbn [snd]. destruct (negb _); split; try reflexivity; cbn; lia.
  - rewrite stop_monitoring_sessions.
    destruct (session_readings (ms w)).
    + exists []. rewrite app_nil_r. split; [reflexivity | cbn; lia].
    + eexists. split; [reflexivity | cbn; lia].
  - exists []. rewrite app_nil_r.
    destruct (resume_state env i w) as [H | (p & _ & H)]; rewrite H.
    + split; [reflexivity | cbn; lia].
    + rewrite simulation_step_fields. split; [reflexivity | cbn; lia].
Qed.

(** X7.  [history_sessions] only grows at the back: whatever happens after
    a run, the summaries recorded so far stay where they are, unchanged,
    and at most one summary is added for each [stop_monitoring]. *)
Theorem history_sessions_append_only (env : Env) (evs more : list Event) :
  exists added,
    history_sessions (ms (run_events env (evs ++ more) init_world)) =
    history_sessions (ms (run_events env evs init_world)) ++ added /\
    (List.length added <= count_stops more)%nat.
Proof.
  induction more as [| ev more IH] using rev_ind.
  - exists []. rewrite !app_nil_r. split; [reflexivity | cbn; lia].
  - destruct IH as (added & Heq & Hlen).
    rewrite app_assoc, run_events_snoc.
    destruct (handle_sessions env ev (run_events env (evs ++ more) init_world))
      as (extra & Hextra & Hcount).
    exists (added ++ extra). split.
    + rewrite Hextra, Heq, app_assoc. reflexivity.
    + unfold count_stops in *. rewrite filter_app, !length_app. lia.
Qed.

Lemma heart_scale_alternates_witness :
  heart_scale (ms (running_session 4)) = 1.0 /\
  heart_scale (ms (exec (simulation_step sample_env running) (running_session 4))) = 1.2.
Proof.
  pose proof (heart_scale_alternates sample_env
                ([SelectActivity "Running"; StartMonitoring] ++ repeat (Resume 0) 4))
    as (_ & Hflip & _).
  unfold running_session.
  assert (H : heart_scale
                (ms (run_events sample_env
                       ([SelectActivity "Running"; StartMonitoring]
                        ++ repeat (Resume 0) 4) init_world)) = 1.0)
    by (vm_compute; reflexivity).
  split; [exact H |].
  apply (Hflip running). exact H.
Defined.

Lemma int_is_floor_in_range (x : Q) (a b : Z) :
  (0 <= a)%Z -> inject_Z a <= x <= inject_Z b ->
  (a <= Py.int x <= b)%Z /\ inject_Z (Py.int x) <= x < inject_Z (Py.int x) + 1.
Proof.
  intros Ha [Hlo Hhi].
  assert (Hx : 0 <= x).
  { assert (0 <= inject_Z a) by (rewrite <- (Zle_Qle 0); exact Ha). lra. }
  rewrite (int_nonneg x Hx).
  pose proof (Qfloor_le x). pose proof (Qlt_floor x) as Hlt.
  rewrite inject_Z_plus in Hlt. change (inject_Z 1) with 1 in Hlt.
  split; [| lra].
  split.
  - rewrite <- (Qfloor_Z a). apply Qfloor_resp_le. exact Hlo.
  - rewrite <- (Qfloor_Z b). apply Qfloor_resp_le. exact Hhi.
Qed.

Lemma session_data_sane (date : string) (s : MonitorState) :
  session_sound s -> session_readings s <> [] ->
  summary_sane (session_data date s).
Proof.
  intros (_ & Hattained & Hrange & Hb & Havg) Hne.
  destruct (Hattained Hne) as [Hmin Hmax].
  rewrite Forall_forall in Hrange.
  pose proof (Hrange _ Hmin) as Hmin_range.
  pose proof (Hrange _ Hmax) as Hmax_range.
  assert (Hmean : min_bpm s <= avg_bpm s <= max_bpm s).
  { rewrite (Havg Hne). apply mean_between; assumption. }
  destruct (int_is_floor_in_range (min_bpm s) 40 190) as [Hzmin Hfmin];
    [lia | exact Hmin_range |].
  destruct (int_is_floor_in_range (max_bpm s) 40 190) as [Hzmax Hfmax];
    [lia | exact Hmax_range |].
  assert (Hle : (Py.int (min_bpm s) <= Py.int (max_bpm s))%Z).
  { rewrite !int_nonneg by lra. apply Qfloor_resp_le. lra. }
  unfold summary_sane. cbn [session_data sd_min_bpm sd_max_bpm sd_avg_bpm].
  split; [lia |]. split; [exact Hle |]. split; [lia |].
  split.
  - rewrite <- (inject_Z_plus _ 1).
    apply round_keeps_bounds. rewrite inject_Z_plus.
    change (inject_Z 1) with 1. lra.
  - apply (round_keeps_bounds (avg_bpm s) 1 40 190).
    change (inject_Z 40) with 40. change (inject_Z 190) with 190. lra.
Qed.

(** X8.  With draws in the unit interval, every summary the application
    ever records is sound: 40 <= min <= max <= 190, the rounded average
    lies in [[40, 190]] and between the truncated minimum and the truncated
    maximum plus one. *)
Theorem recorded_summaries_are_sane (env : Env) (evs : list Event)
  (Hdraws : unit_draws env) :
  Forall summary_sane (history_sessions (ms (run_events env evs init_world))).
Proof.
  assert (H : session_sound (ms (run_events env evs init_world)) /\
              Forall summary_sane
                (history_sessions (ms (run_events env evs init_world)))).
  { apply (reachable_state_invariant env
             (fun s => session_sound s /\ Forall summary_sane (history_sessions s))).
    - split; [apply session_sound_fresh; reflexivity | constructor].
    - intros a s H. destruct s. exact H.
    - intros w [Hs Hh]. unfold exec. rewrite start_monitoring_exec. cbn [snd].
      destruct (negb _); [| split; assumption].
      split; [apply session_sound_fresh; reflexivity | exact Hh].
    - intros w [Hs Hh]. split.
      + unfold exec. rewrite stop_monitoring_exec. cbn [snd].
        destruct (session_readings (ms w)) eqn:E; cbn [ms]; destruct (ms w);
          exact Hs.
      + rewrite stop_monitoring_sessions.
        destruct (session_readings (ms w)) eqn:E; [exact Hh |].
        apply Forall_app. split; [exact Hh |].
        constructor; [| constructor].
        apply session_data_sane; [exact Hs | congruence].
    - intros p w [Hs Hh] _. split.
      + apply step_keeps_session_sound; assumption.
      + rewrite simulation_step_fields. exact Hh. }
  apply H.
Qed.

Lemma recorded_summaries_are_sane_witness :
  unit_draws sample_env /\
  summary_sane (mkSession "2024-01-01 12:00" "Running" "1:05" 144.1 151 108).
Proof.
  split; [exact sample_random_unit |].
  pose proof (recorded_summaries_are_sane sample_env
                ([SelectActivity "Running"; StartMonitoring]
                 ++ repeat (Resume 0) 65 ++ [StopMonitoring])
                sample_random_unit) as H.
  assert (E : history_sessions
                (ms (run_events sample_env
                       ([SelectActivity "Running"; StartMonitoring]
                        ++ repeat (Resume 0) 65 ++ [StopMonitoring]) init_world)) =
              [mkSession "2024-01-01 12:00" "Running" "1:05" 144.1 151 108])
    by (vm_compute; reflexivity).
  rewrite E in H. inversion H. assumption.
Defined.

(** X9.  [stop_monitoring] does not clear [session_readings]: called again
    before the next start, it records the same session once more, the two
    summaries differing in nothing but the date read from the clock. *)
Theorem second_stop_records_again (env : Env) (w : World)
  (Hreadings : session_readings (ms w) <> []) :
  let s := ms w in
  let w2 := exec (stop_monitoring env) (exec (stop_monitoring env) w) in
  history_sessions (ms w2) =
    history_sessions s ++
    [session_data (now_date env (clock_pos w)) s;
     session_data (now_date env (S (clock_pos w))) s] /\
  session_readings (ms w2) = session_readings s /\
  forall d1 d2,
    sd_activity (session_data d1 s) = sd_activity (session_data d2 s) /\
    sd_duration (session_data d1 s) = sd_duration (session_data d2 s) /\
    sd_avg_bpm (session_data d1 s) = sd_avg_bpm (session_data d2 s) /\
    sd_max_bpm (session_data d1 s) = sd_max_bpm (session_data d2 s) /\
    sd_min_bpm (session_data d1 s) = sd_min_bpm (session_data d2 s).
Proof.
  intros s w2.
  assert (Hone : exec (stop_monitoring env) w =
                 mkWorld
                   (set_history_sessions
                      (history_sessions s ++
                       [session_data (now_date env (clock_pos w))
                          (set_is_monitoring false s)])
                      (set_is_monitoring false s))
                   (rng_pos w) (S (clock_pos w)) (console w) (tasks w)).
  { unfold exec. rewrite stop_monitoring_exec. cbn [snd]. fold s.
    fold s in Hreadings. destruct (session_readings s); [contradiction | reflexivity]. }
  split; [| split; [| intros d1 d2; repeat split; reflexivity]].
  - subst w2. rewrite stop_monitoring_sessions, Hone.
    cbn [ms clock_pos]. rewrite session_data_ignores_flag.
    fold s in Hreadings. destruct s as [a hr h l tc hs mn mx im tt av sr hss].
    cbn in Hreadings |- *. destruct sr; [contradiction |].
    rewrite <- app_assoc. reflexivity.
  - subst w2. unfold exec at 1. rewrite stop_monitoring_exec. cbn [snd].
    rewrite Hone. cbn [ms].
    fold s in Hreadings. destruct s as [a hr h l tc hs mn mx im tt av sr hss].
    cbn in Hreadings |- *. destruct sr; [contradiction | reflexivity].
Qed.

Lemma second_stop_records_again_witness :
  List.length
    (history_sessions
       (ms (exec (stop_monitoring sample_env)
              (exec (stop_monitoring sample_env) (running_session 5))))) = 2%nat.
Proof.
  assert (Hne : session_readings (ms (running_session 5)) <> [])
    by (vm_compute; discriminate).
  destruct (second_stop_records_again sample_env (running_session 5) Hne)
    as (Hhist & _).
  rewrite Hhist. vm_compute. reflexivity.
Defined.

(** ** Stopping is cooperative *)

Lemma stop_monitoring_frame env w :
  tasks (exec (stop_monitoring env) w) = tasks w /\
  rng_pos (exec (stop_monitoring env) w) = rng_pos w /\
  is_monitoring (ms (exec (stop_monitoring env) w)) = false /\
  activity (ms (exec (stop_monitoring env) w)) = activity (ms w).
Proof.
  unfold exec. rewrite stop_monitoring_exec. cbn [snd].
  destruct (session_readings (ms w)); cbn [ms tasks rng_pos];
    destruct (ms w); repeat split; reflexivity.
Qed.

(** X10.  [stop_monitoring] only clears the flag; the coroutine ends when
    it is next resumed, without taking a step.  When [start_monitoring]
    runs before that resumption, the old coroutine finds the flag set
    again and goes on stepping beside the new one. *)
Theorem stop_is_cooperative (env : Env) (w : World) (i : nat) (t : Task)
  (Hi : nth_error (tasks w) i = Some t) :
  let stopped := exec (stop_monitoring env) w in
  let restarted := exec start_monitoring stopped in
  tasks stopped = tasks w /\
  ms (exec (resume env i) stopped) = ms stopped /\
  rng_pos (exec (resume env i) stopped) = rng_pos w /\
  nth_error (tasks (exec (resume env i) stopped)) i = Some Finished /\
  (activity (ms w) <> EmptyString -> live t = true ->
   nth_error (tasks restarted) i = Some t /\
   live_tasks restarted = S (live_tasks w) /\
   ms (exec (resume env i) restarted) =
     ms (exec (simulation_step env (profile_of t (ms restarted))) restarted)).
Proof.
  intros stopped restarted.
  destruct (stop_monitoring_frame env w) as (Htasks & Hrng & Hflag & Hact).
  fold stopped in Htasks, Hrng, Hflag, Hact.
  split; [exact Htasks |].
  assert (Hres : exec (resume env i) stopped =
                 mkWorld (ms stopped) (rng_pos stopped) (clock_pos stopped)
                   (console stopped) (replace_nth i Finished (tasks stopped))).
  { rewrite resume_exec, Htasks, Hi, Hflag, andb_false_r. reflexivity. }
  rewrite Hres. cbn [ms rng_pos tasks].
  split; [reflexivity |]. split; [exact Hrng |].
  split; [rewrite Htasks; eapply replace_nth_same; exact Hi |].
  intros Hne Hlive.
  assert (Hne' : activity (ms stopped) <> EmptyString) by (rewrite Hact; exact Hne).
  assert (Hstart : exec start_monitoring stopped =
                   mkWorld (ms restarted) (rng_pos stopped) (clock_pos stopped)
                     (console stopped) (tasks w ++ [Created])).
  { subst restarted. unfold exec. rewrite start_monitoring_exec. cbn [snd].
    assert (Hb : negb (String.eqb (activity (ms stopped)) EmptyString) = true)
      by (apply negb_true_iff, String.eqb_neq; exact Hne').
    rewrite Hb, Htasks. reflexivity. }
  assert (Htr : tasks restarted = tasks w ++ [Created]).
  { unfold restarted. rewrite Hstart. reflexivity. }
  assert (Hir : nth_error (tasks restarted) i = Some t).
  { rewrite Htr, nth_error_app1; [exact Hi |].
    apply nth_error_Some. congruence. }
  assert (Hmr : is_monitoring (ms restarted) = true).
  { unfold restarted. rewrite (start_monitoring_state stopped Hne'). reflexivity. }
  split; [exact Hir |].
  split.
  { unfold live_tasks. rewrite Htr. apply live_tasks_launch. }
  rewrite resume_exec, Hir, Hlive, Hmr. cbn [andb]. cbv zeta.
  destruct (outcome (simulation_step env (profile_of t (ms restarted))) restarted);
    reflexivity.
Qed.

Lemma stop_is_cooperative_witness :
  nth_error
    (tasks (exec (resume sample_env 0)
              (exec (stop_monitoring sample_env) (running_session 2)))) 0 =
    Some Finished /\
  live_tasks (exec start_monitoring
                (exec (stop_monitoring sample_env) (running_session 2))) = 2%nat.
Proof.
  unfold running_session.
  assert (Hi : nth_error
                 (tasks (run_events sample_env
                           ([SelectActivity "Running"; StartMonitoring]
                            ++ repeat (Resume 0) 2) init_world)) 0 =
               Some (Sleeping running)) by (vm_compute; reflexivity).
  destruct (stop_is_cooperative sample_env _ 0%nat _ Hi)
    as (_ & _ & _ & Hend & Hrace).
  split; [exact Hend |].
  destruct Hrace as (_ & Hlive & _).
  - vm_compute. discriminate.
  - reflexivity.
  - rewrite Hlive. vm_compute. reflexivity.
Defined.

(** * The presentation layer *)

(** ** What [update_ui] shows *)

Lemma try_assign_update fails f c u :
  try_pass (useq (assign f) (update_control fails c)) u =
  (Ok tt, match fails c with Some _ => f u | None => mark_pushed c (f u) end).
Proof.
  unfold try_pass, useq, assign, update_control.
  destruct (fails c); reflexivity.
Qed.

Lemma update_chart_shown fails s u :
  exists u',
    update_chart fails s u = (Ok tt, u') /\
    shown u' =
    shown (match chart_ref u with
           | None => u
           | Some c => set_chart_ref (Some (plot (history s) c)) u
           end).
Proof.
  unfold update_chart. destruct (chart_ref u) as [c |].
  - rewrite try_assign_update. eexists. split; [reflexivity |].
    destruct (fails Chart); reflexivity.
  - eexists. split; reflexivity.
Qed.

Lemma update_heart_icon_shown fails s u :
  exists u',
    update_heart_icon fails s u = (Ok tt, u') /\
    shown u' =
    shown (match heart_icon_ref u with
           | None => u
           | Some _ => set_heart_icon_ref (Some (Some (heart_scale s))) u
           end).
Proof.
  unfold update_heart_icon. destruct (heart_icon_ref u) as [i |].
  - rewrite try_assign_update. eexists. split; [reflexivity |].
    destruct (fails HeartIcon); reflexivity.
  - eexists. split; reflexivity.
Qed.

Lemma update_log_list_shown fails s u :
  exists u',
    update_log_list fails s u = (Ok tt, u') /\
    shown u' =
    shown (if String.eqb (route u) "/monitor"
           then set_dashboard_log_list (map log_row (firstn 8 (logs s))) u
           else u).
Proof.
  unfold update_log_list. destruct (String.eqb (route u) "/monitor").
  - rewrite try_assign_update. eexists. split; [reflexivity |].
    destruct (fails LogList); reflexivity.
  - eexists. split; reflexivity.
Qed.

Lemma push_texts_shown fails u :
  exists u', push_texts fails u = (Ok tt, u') /\ shown u' = shown u.
Proof.
  unfold push_texts, try_pass, useq, update_control.
  destruct (fails HrText); [eexists; split; reflexivity |].
  destruct (fails MinBpmText); [eexists; split; reflexivity |].
  destruct (fails MaxBpmText); [eexists; split; reflexivity |].
  destruct (fails AvgBpmText); eexists; split; reflexivity.
Qed.

Lemma update_texts_shown s u :
  shown (update_texts s u) =
  (Py.str (Py.int (heart_rate s)),
   (if Py.ltb (min_bpm s) 999 then Py.str (Py.int (min_bpm s)) else min_bpm_text u),
   (if Py.ltb 0 (max_bpm s) then Py.str (Py.int (max_bpm s)) else max_bpm_text u),
   (match session_readings s with
    | [] => avg_bpm_text u
    | _ :: _ => Py.str (Py.int (avg_bpm s))
    end),
   chart_ref u, heart_icon_ref u, dashboard_log_list u, route u).
Proof.
  destruct u. unfold update_texts.
  destruct (Py.ltb (min_bpm s) 999), (Py.ltb 0 (max_bpm s)),
    (session_readings s); reflexivity.
Qed.

(** [update_ui] returns normally and shows the state, whatever [update()]
    does. *)
Lemma update_ui_shown fails s u :
  exists u',
    update_ui fails s u = (Ok tt, u') /\
    shown u' =
    (Py.str (Py.int (heart_rate s)),
     (if Py.ltb (min_bpm s) 999 then Py.str (Py.int (min_bpm s)) else min_bpm_text u),
     (if Py.ltb 0 (max_bpm s) then Py.str (Py.int (max_bpm s)) else max_bpm_text u),
     (match session_readings s with
      | [] => avg_bpm_text u
      | _ :: _ => Py.str (Py.int (avg_bpm s))
      end),
     option_map (plot (history s)) (chart_ref u),
     (match heart_icon_ref u with
      | None => None
      | Some _ => Some (Some (heart_scale s))
      end),
     (if String.eqb (route u) "/monitor"
      then map log_row (firstn 8 (logs s))
      else dashboard_log_list u),
     route u).
Proof.
  pose proof (update_texts_shown s u) as H1.
  set (u1 := update_texts s u) in *.
  destruct (update_chart_shown fails s u1) as (u2 & E2 & H2).
  destruct (update_heart_icon_shown fails s u2) as (u3 & E3 & H3).
  destruct (update_log_list_shown fails s u3) as (u4 & E4 & H4).
  destruct (push_texts_shown fails u4) as (u5 & E5 & H5).
  exists u5. split.
  { unfold update_ui, useq at 1, assign. fold u1.
    unfold useq at 1. rewrite E2. unfold useq at 1. rewrite E3.
    unfold useq. rewrite E4. exact E5. }
  rewrite H5, H4.
  destruct u1 as [a1 b1 c1 d1 e1 f1 g1 r1 p1].
  destruct u2 as [a2 b2 c2 d2 e2 f2 g2 r2 p2].
  destruct u3 as [a3 b3 c3 d3 e3 f3 g3 r3 p3].
  unfold shown in *. cbn [hr_text min_bpm_text max_bpm_text avg_bpm_text chart_ref
    heart_icon_ref dashboard_log_list route] in *.
  assert (H3' : (a3, b3, c3, d3, e3, f3, g3, r3) =
                (a2, b2, c2, d2, e2,
                 match f2 with None => None | Some _ => Some (Some (heart_scale s)) end,
                 g2, r2)).
  { rewrite H3. destruct f2; reflexivity. }
  assert (H2' : (a2, b2, c2, d2, e2, f2, g2, r2) =
                (a1, b1, c1, d1, option_map (plot (history s)) e1, f1, g1, r1)).
  { rewrite H2. destruct e1; reflexivity. }
  injection H3' as -> -> -> -> -> -> -> ->.
  injection H2' as -> -> -> -> -> -> -> ->.
  injection H1 as -> -> -> -> -> -> -> ->.
  destruct (String.eqb (route u) "/monitor"); reflexivity.
Qed.

Lemma update_ui_ok fails s u : fst (update_ui fails s u) = Ok tt.
Proof.
  destruct (update_ui_shown fails s u) as (u' & E & _). rewrite E. reflexivity.
Qed.

Lemma ui_env_step_ok env fails u p w :
  outcome (simulation_step (ui_env env fails u) p) w = Ok tt.
Proof.
  unfold outcome. rewrite simulation_step_exec. cbn [fst ui_env on_update].
  unfold ui_callback. rewrite update_ui_ok. reflexivity.
Qed.

Lemma handle_keeps_console_empty env fails u ev w :
  console w = [] -> console (exec (handle (ui_env env fails u) ev) w) = [].
Proof.
  intros Hc. destruct ev as [a | | | i]; cbn [handle].
  - exact Hc.
  - unfold exec. rewrite start_monitoring_exec. cbn [snd].
    destruct (negb _); exact Hc.
  - unfold exec. rewrite stop_monitoring_exec. cbn [snd].
    destruct (session_readings (ms w)); exact Hc.
  - rewrite resume_exec.
    destruct (nth_error (tasks w) i) as [t |]; [| exact Hc].
    destruct (live t && is_monitoring (ms w)); [| exact Hc].
    cbv zeta. rewrite ui_env_step_ok. cbn [console].
    destruct (simulation_step_console (ui_env env fails u) (profile_of t (ms w)) w)
      as [H _].
    rewrite H. exact Hc.
Qed.

(** X11.  [update_ui] never raises: every [update()] call that can fail
    sits inside a [try ... except Exception: pass].  With [update_ui]
    registered as [on_update], therefore, no step of [run_simulation]
    raises, a resumed coroutine always goes back to sleep while monitoring
    is on, and "Simulation Error" is never printed. *)
Theorem refresh_never_raises (env : Env) (fails : Control -> option string)
  (u : Ui) :
  (forall s u0, fst (update_ui fails s u0) = Ok tt) /\
  (forall p w, outcome (simulation_step (ui_env env fails u) p) w = Ok tt) /\
  (forall t w,
     live t = true -> is_monitoring (ms w) = true ->
     outcome (run_simulation (ui_env env fails u) t) w =
     Ok (Sleeping (profile_of t (ms w)))) /\
  (forall evs, console (run_events (ui_env env fails u) evs init_world) = []).
Proof.
  split; [intros s u0; apply update_ui_ok |].
  split; [intros p w; apply ui_env_step_ok |].
  split.
  - intros t w Hlive Hm. unfold outcome. rewrite run_simulation_exec.
    pose proof (ui_env_step_ok env fails u (profile_of t (ms w)) w) as Hok.
    unfold outcome in Hok.
    destruct t; [| | discriminate]; rewrite try_loop_iteration, Hm;
      destruct (simulation_step _ _ w) as [[[] | e] w1];
      cbn [fst] in *; try reflexivity; discriminate.
  - intros evs.
    apply (reachable_world_invariant (ui_env env fails u)
             (fun w => console w = [])); [reflexivity |].
    intros ev w. apply handle_keeps_console_empty.
Qed.

Lemma refresh_never_raises_witness :
  outcome
    (run_simulation
       (ui_env sample_env (fun _ => Some "control is detached"%string)
          (init_ui "/monitor"))
       Created)
    (exec start_monitoring (exec (select_activity "Gym") init_world)) =
  Ok (Sleeping (110, 140, 0.5, 1.5)).
Proof.
  destruct (refresh_never_raises sample_env
              (fun _ => Some "control is detached"%string) (init_ui "/monitor"))
    as (_ & _ & Hsleep & _).
  apply (Hsleep Created); reflexivity.
Defined.

(** ** The chart *)

Lemma reachable_window_consistent env evs :
  window_consistent (ms (run_events env evs init_world)).
Proof.
  apply reachable_state_invariant.
  - split; reflexivity.
  - intros a s0 H. destruct s0. exact H.
  - intros w H. unfold exec. rewrite start_monitoring_exec. cbn [snd].
    destruct (negb _); [split; reflexivity | exact H].
  - intros w H. unfold exec. rewrite stop_monitoring_exec. cbn [snd].
    destruct (session_readings (ms w)) eqn:E; cbn [ms]; destruct (ms w); exact H.
  - intros p w H _. apply step_keeps_window. exact H.
Qed.

Lemma last_in {A : Type} (l : list A) (d : A) : l <> [] -> In (last l d) l.
Proof.
  induction l as [| a l IH]; intros Hne; [contradiction |].
  destruct l as [| b l]; [left; reflexivity |].
  right. apply IH. discriminate.
Qed.

(** The ticks of a consistent window: at most 60 of them, counting up to
    [time_counter]. *)
Lemma window_ticks (s : MonitorState) :
  window_consistent s ->
  (List.length (history s) <= 60)%nat /\
  forall i point,
    nth_error (history s) i = Some point ->
    fst point =
    (time_counter s - Z.of_nat (List.length (history s)) + 1 + Z.of_nat i)%Z.
Proof.
  intros [Hh Ht].
  assert (Hlen : List.length (history s) =
                 Nat.min 60 (List.length (session_readings s))).
  { rewrite Hh, last_n_length. unfold session_samples.
    rewrite length_combine, ticks_from_length. lia. }
  split; [lia |].
  intros i point Hi.
  assert (Hbound : (i < List.length (history s))%nat).
  { apply nth_error_Some. congruence. }
  rewrite Hh in Hi. unfold last_n, session_samples in Hi.
  rewrite nth_error_skipn in Hi.
  apply combine_nth_fst, ticks_from_nth in Hi.
  rewrite length_combine, ticks_from_length in Hi.
  rewrite Hi, Ht, Hlen. lia.
Qed.

(** X12.  When the chart is mounted, [update_ui] plots exactly [history],
    also when [update()] fails; in every world the application reaches the
    x axis then starts at the oldest charted tick and always spans 60
    ticks, every point lies on it, and with draws in the unit interval every
    value lies within the y axis [30, 180] the chart is built with. *)
Theorem chart_spans_sixty_ticks (env : Env) (evs : list Event)
  (fails : Control -> option string) (u : Ui) (c : LineChart)
  (Hmounted : chart_ref u = Some c) :
  let s := ms (run_events env evs init_world) in
  let u' := snd (update_ui fails s u) in
  exists c',
    chart_ref u' = Some c' /\
    data_points c' = history s /\
    min_y c' = min_y c /\ max_y c' = max_y c /\
    (history s = [] -> min_x c' = min_x c /\ max_x c' = max_x c) /\
    (history s <> [] ->
     let lo := (time_counter s - Z.of_nat (List.length (history s)) + 1)%Z in
     min_x c' = Some lo /\ max_x c' = Some (lo + 60)%Z /\
     Forall (fun point => (lo <= fst point < lo + 60)%Z) (history s)) /\
    (unit_draws env ->
     Forall (fun point => min_y new_chart <= snd point <= max_y new_chart)
       (history s)).
Proof.
  intros s u'.
  destruct (update_ui_shown fails s u) as (u1 & E & Hshown).
  assert (Hu' : u' = u1) by (unfold u'; rewrite E; reflexivity).
  assert (Hchart : chart_ref u' = Some (plot (history s) c)).
  { rewrite Hu'. unfold shown in Hshown. rewrite Hmounted in Hshown.
    injection Hshown as _ _ _ _ H _ _ _. exact H. }
  destruct (window_ticks s (reachable_window_consistent env evs)) as [Hlen Hticks].
  fold s in Hlen, Hticks.
  exists (plot (history s) c).
  split; [exact Hchart |].
  split; [unfold plot; destruct (history s); reflexivity |].
  split; [unfold plot; destruct (history s); reflexivity |].
  split; [unfold plot; destruct (history s); reflexivity |].
  split; [intros E0; rewrite E0; split; reflexivity |].
  split.
  - intros Hne lo.
    assert (Hall : Forall (fun point => (lo <= fst point < lo + 60)%Z) (history s)).
    { apply Forall_forall. intros point Hin.
      apply In_nth_error in Hin. destruct Hin as [i Hi].
      assert (Hbound : (i < List.length (history s))%nat)
        by (apply nth_error_Some; congruence).
      rewrite (Hticks i point Hi). subst lo. lia. }
    destruct (history s) as [| first rest] eqn:Eh; [contradiction |].
    assert (Hfirst : fst first = lo).
    { rewrite (Hticks 0%nat first eq_refl). subst lo. lia. }
    assert (Hlast : (fst (last (first :: rest) first) < lo + 60)%Z).
    { rewrite Forall_forall in Hall. apply Hall. apply last_in. discriminate. }
    unfold plot. cbn [min_x max_x]. rewrite Hfirst.
    assert ((lo + 60 <? fst (last (first :: rest) first))%Z = false) as ->
      by (apply Z.ltb_ge; lia).
    repeat split. exact Hall.
  - intros Hdraws.
    pose proof (reachable_quiet env evs Hdraws) as Hq.
    destruct Hq as (_ & _ & _ & Hhist & _).
    eapply Forall_impl; [| exact Hhist].
    cbn beta. intros point Hp. cbn [new_chart min_y max_y]. lra.
Qed.

Lemma chart_spans_sixty_ticks_witness :
  exists c',
    chart_ref (snd (update_ui (fun _ => None) (ms (running_session 65))
                      (set_chart_ref (Some new_chart) (init_ui "/monitor")))) =
      Some c' /\
    min_x c' = Some 6%Z /\ max_x c' = Some 66%Z.
Proof.
  unfold running_session.
  destruct (chart_spans_sixty_ticks sample_env
              ([SelectActivity "Running"; StartMonitoring] ++ repeat (Resume 0) 65)
              (fun _ => None)
              (set_chart_ref (Some new_chart) (init_ui "/monitor")) new_chart eq_refl)
    as (c' & Hc & _ & _ & _ & _ & Haxis & _).
  exists c'. split; [exact Hc |].
  destruct Haxis as (Hlo & Hhi & _).
  - vm_compute. discriminate.
  - split.
    + rewrite Hlo. vm_compute. reflexivity.
    + rewrite Hhi. vm_compute. reflexivity.
Defined.

(** ** The alert panel *)

(** X13.  On the monitor route [update_ui] rebuilds the alert panel from
    the eight most recent log entries, newest first, also when [update()]
    fails; on any other route the panel is left as it was.  An ALERT row
    is red with a warning icon, a WARNING row orange with an info icon,
    any other grey with a circle.  With draws in the unit interval the
    panel of a reachable world is empty. *)
Theorem alert_panel_shows_latest (fails : Control -> option string)
  (s : MonitorState) (u : Ui) :
  let u' := snd (update_ui fails s u) in
  (route u = "/monitor"%string ->
   dashboard_log_list u' = map log_row (firstn 8 (logs s)) /\
   List.length (dashboard_log_list u') = Nat.min 8 (List.length (logs s)) /\
   forall i e, (i < 8)%nat -> nth_error (logs s) i = Some e ->
     nth_error (dashboard_log_list u') i = Some (log_row e)) /\
  (route u <> "/monitor"%string -> dashboard_log_list u' = dashboard_log_list u) /\
  (forall e,
     row_message (log_row e) = log_message e /\ row_time (log_row e) = log_time e /\
     (log_type e = "ALERT"%string ->
      row_color (log_row e) = "redAccent"%string /\
      row_icon (log_row e) = "warning"%string) /\
     (log_type e = "WARNING"%string ->
      row_color (log_row e) = "orangeAccent"%string /\
      row_icon (log_row e) = "info"%string) /\
     (log_type e <> "ALERT"%string -> log_type e <> "WARNING"%string ->
      row_color (log_row e) = "grey"%string /\
      row_icon (log_row e) = "circle"%string)) /\
  (forall env evs,
     unit_draws env -> route u = "/monitor"%string ->
     dashboard_log_list
       (snd (update_ui fails (ms (run_events env evs init_world)) u)) = []).
Proof.
  intros u'.
  assert (Hpanel : forall s0,
            dashboard_log_list (snd (update_ui fails s0 u)) =
            if String.eqb (route u) "/monitor"
            then map log_row (firstn 8 (logs s0))
            else dashboard_log_list u).
  { intros s0. destruct (update_ui_shown fails s0 u) as (u1 & E & Hshown).
    rewrite E. cbn [snd]. unfold shown in Hshown.
    injection Hshown as _ _ _ _ _ _ H _. exact H. }
  split; [| split; [| split]].
  - intros Hroute. unfold u'. rewrite Hpanel, Hroute. cbn [String.eqb Ascii.eqb Bool.eqb].
    split; [reflexivity |].
    split; [rewrite length_map, length_firstn; reflexivity |].
    intros i e Hi He. rewrite nth_error_map, nth_error_firstn.
    destruct (Nat.ltb_spec i 8); [| lia]. rewrite He. reflexivity.
  - intros Hroute. unfold u'. rewrite Hpanel.
    destruct (String.eqb_spec (route u) "/monitor"); [contradiction | reflexivity].
  - intros e. unfold log_row. cbn [row_message row_time row_color row_icon].
    split; [reflexivity |]. split; [reflexivity |].
    split; [intros ->; split; reflexivity |].
    split; [intros ->; split; reflexivity |].
    intros H1 H2.
    destruct (String.eqb_spec (log_type e) "ALERT"); [contradiction |].
    destruct (String.eqb_spec (log_type e) "WARNING"); [contradiction |].
    split; reflexivity.
  - intros env evs Hdraws Hroute. rewrite Hpanel, Hroute.
    cbn [String.eqb Ascii.eqb Bool.eqb].
    pose proof (reachable_quiet env evs Hdraws) as Hq.
    destruct Hq as (_ & Hlogs & _). rewrite Hlogs. reflexivity.
Qed.

Lemma alert_panel_shows_latest_witness :
  dashboard_log_list
    (snd (update_ui (fun _ => None) (ms alert_world) (init_ui "/monitor"))) =
  [mkRow "warning" "redAccent" "12:00:00" "Low HR boundary hit: 44 bpm" "redAccent30"].
Proof.
  destruct (alert_panel_shows_latest (fun _ => None) (ms alert_world)
              (init_ui "/monitor")) as (Hshow & _).
  destruct (Hshow eq_refl) as (Hrows & _).
  rewrite Hrows. vm_compute. reflexivity.
Defined.

(** ** Routing *)

Lemma create_history_page_raises (sessions : list SessionData) :
  fst (build_history_list sessions) = Raise "Control must be added to the page first" /\
  create_history_page sessions = Raise "Control must be added to the page first".
Proof. split; reflexivity. Qed.

(** X14.  [route_change] always puts "/profile" at the bottom of the view
    stack and never stacks a route twice.  For "/profile", "/activity" and
    "/monitor" it ends normally with the requested route on top; any
    unknown route leaves "/profile" alone.  For "/history" it ends by the
    exception of [create_history_page], after "/activity" and "/monitor"
    were stacked: no "/history" view is ever on the stack.  [view_pop]
    leads from "/activity" to "/profile" and from "/monitor" to
    "/activity"; on "/profile" or an unknown route it raises IndexError,
    the stack being empty after the pop. *)
Theorem view_stack_and_back (r : string) (sessions : list SessionData) :
  let views := snd (route_change r sessions) in
  hd_error views = Some "/profile"%string /\
  NoDup views /\
  ~ In "/history"%string views /\
  (r = "/profile"%string \/ r = "/activity"%string \/ r = "/monitor"%string ->
   fst (route_change r sessions) = Ok tt /\ last views EmptyString = r) /\
  (~ In r known_routes ->
   fst (route_change r sessions) = Ok tt /\ views = ["/profile"%string]) /\
  (r = "/history"%string ->
   (exists e, fst (route_change r sessions) = Raise e) /\
   views = ["/profile"; "/activity"; "/monitor"]%string) /\
  (r = "/activity"%string -> fst (view_pop views) = Ok "/profile"%string) /\
  (r = "/monitor"%string -> fst (view_pop views) = Ok "/activity"%string) /\
  (r <> "/activity"%string -> r <> "/monitor"%string -> r <> "/history"%string ->
   view_pop views = (Raise "list index out of range", [])).
Proof.
  intros views. subst views. unfold route_change.
  destruct (String.eqb_spec r "/activity") as [-> | Ha].
  { cbn.
    split; [reflexivity |].
    split; [repeat constructor; cbn; intuition discriminate |].
    split; [intuition discriminate |].
    split; [intros _; split; reflexivity |].
    split; [intros H; exfalso; apply H; cbn; tauto |].
    split; [intros E; discriminate E |].
    split; [intros _; reflexivity |].
    split; [intros E; discriminate E |].
    intros H1 H2 H3; congruence. }
  destruct (String.eqb_spec r "/monitor") as [-> | Hm].
  { cbn.
    split; [reflexivity |].
    split; [repeat constructor; cbn; intuition discriminate |].
    split; [intuition discriminate |].
    split; [intros _; split; reflexivity |].
    split; [intros H; exfalso; apply H; cbn; tauto |].
    split; [intros E; discriminate E |].
    split; [intros E; discriminate E |].
    split; [intros _; reflexivity |].
    intros H1 H2 H3; congruence. }
  destruct (String.eqb_spec r "/history") as [-> | Hh].
  { cbn.
    split; [reflexivity |].
    split; [repeat constructor; cbn; intuition discriminate |].
    split; [intuition discriminate |].
    split; [intros [E | [E | E]]; discriminate E |].
    split; [intros H; exfalso; apply H; cbn; tauto |].
    split; [intros _; split; [eexists; reflexivity | reflexivity] |].
    split; [intros E; discriminate E |].
    split; [intros E; discriminate E |].
    intros H1 H2 H3; congruence. }
  cbn.
  split; [reflexivity |].
  split; [repeat constructor; cbn; intuition |].
  split; [intuition discriminate |].
  split.
  { intros [E | [E | E]]; [subst r; split; reflexivity | congruence | congruence]. }
  split; [intros _; split; reflexivity |].
  split; [intros E; congruence |].
  split; [intros E; congruence |].
  split; [intros E; congruence |].
  intros _ _ _. reflexivity.
Qed.

Lemma view_stack_and_back_witness :
  route_change "/history" [] =
    (Raise "Control must be added to the page first",
     ["/profile"; "/activity"; "/monitor"]%string) /\
  fst (view_pop (snd (route_change "/monitor" []))) = Ok "/activity"%string /\
  view_pop (snd (route_change "/settings" [])) = (Raise "list index out of range", []).
Proof.
  destruct (view_stack_and_back "/monitor" []) as (_ & _ & _ & _ & _ & _ & _ & Hm & _).
  destruct (view_stack_and_back "/settings" []) as (_ & _ & _ & _ & _ & _ & _ & _ & Hs).
  split; [reflexivity |].
  split; [apply Hm; reflexivity |].
  apply Hs; discriminate.
Defined.

(** ** The activity cards *)

Lemma activity_cards_of (a : string) (s : MonitorState) :
  activity s = a ->
  activity_cards s =
  [ build_activity_card "Resting" "spa" "#9C27B0" (String.eqb a "Resting");
    build_activity_card "Walking" "directions_walk" "#4CAF50" (String.eqb a "Walking");
    build_activity_card "Running" "directions_run" "#FF9800" (String.eqb a "Running");
    build_activity_card "Gym" "fitness_center" "#F44336" (String.eqb a "Gym");
    build_activity_card "Swimming" "pool" "#2196F3" (String.eqb a "Swimming") ].
Proof. intros <-. reflexivity. Qed.

(** X15.  The five activity cards carry exactly the keys of
    [activity_profiles], in the same order and none of them empty, so an
    activity picked on a card always has a profile of its own and enables
    the session.  A card is drawn selected exactly when its name is the
    current activity: one card when the activity is one of the five, none
    otherwise. *)
Theorem cards_match_profiles (s : MonitorState) :
  map card_name (activity_cards s) = activity_names /\
  Forall (fun c => card_name c <> EmptyString /\
                   In (card_name c,
                       dict_get activity_profiles (card_name c) default_profile)
                      activity_profiles)
    (activity_cards s) /\
  (forall c, In c (activity_cards s) ->
     (card_selected c = true <-> card_name c = activity s)) /\
  (In (activity s) activity_names ->
   List.length (filter card_selected (activity_cards s)) = 1%nat) /\
  (~ In (activity s) activity_names ->
   List.length (filter card_selected (activity_cards s)) = 0%nat).
Proof.
  split; [reflexivity |].
  split.
  { unfold activity_cards, build_activity_card.
    repeat constructor; cbn; try discriminate; tauto. }
  remember (activity s) as a eqn:Ea. symmetry in Ea.
  rewrite (activity_cards_of a s Ea). clear Ea.
  assert (Hnames : activity_names =
                   ["Resting"; "Walking"; "Running"; "Gym"; "Swimming"]%string)
    by reflexivity.
  rewrite Hnames.
  destruct (String.eqb_spec a "Resting") as [-> | H1].
  { cbn. split; [| split; [intros _; reflexivity | intros Hn; exfalso; apply Hn; cbn; tauto]].
    intros c Hc.
    repeat (destruct Hc as [<- | Hc];
            [cbn; split; intros E; first [reflexivity | discriminate E] |]).
    destruct Hc. }
  destruct (String.eqb_spec a "Walking") as [-> | H2].
  { cbn. split; [| split; [intros _; reflexivity | intros Hn; exfalso; apply Hn; cbn; tauto]].
    intros c Hc.
    repeat (destruct Hc as [<- | Hc];
            [cbn; split; intros E; first [reflexivity | discriminate E] |]).
    destruct Hc. }
  destruct (String.eqb_spec a "Running") as [-> | H3].
  { cbn. split; [| split; [intros _; reflexivity | intros Hn; exfalso; apply Hn; cbn; tauto]].
    intros c Hc.
    repeat (destruct Hc as [<- | Hc];
            [cbn; split; intros E; first [reflexivity | discriminate E] |]).
    destruct Hc. }
  destruct (String.eqb_spec a "Gym") as [-> | H4].
  { cbn. split; [| split; [intros _; reflexivity | intros Hn; exfalso; apply Hn; cbn; tauto]].
    intros c Hc.
    repeat (destruct Hc as [<- | Hc];
            [cbn; split; intros E; first [reflexivity | discriminate E] |]).
    destruct Hc. }
  destruct (String.eqb_spec a "Swimming") as [-> | H5].
  { cbn. split; [| split; [intros _; reflexivity | intros Hn; exfalso; apply Hn; cbn; tauto]].
    intros c Hc.
    repeat (destruct Hc as [<- | Hc];
            [cbn; split; intros E; first [reflexivity | discriminate E] |]).
    destruct Hc. }
  cbn. split; [| split; [| intros _; reflexivity]].
  - intros c Hc.
    repeat (destruct Hc as [<- | Hc];
            [cbn; split; intros E; first [discriminate E | congruence] |]).
    destruct Hc.
  - intros [E | [E | [E | [E | [E | []]]]]]; congruence.
Qed.

Lemma cards_match_profiles_witness :
  List.length
    (filter card_selected
       (activity_cards (ms (exec (select_activity "Gym") init_world)))) = 1%nat /\
  List.length (filter card_selected (activity_cards init_state)) = 0%nat.
Proof.
  destruct (cards_match_profiles (ms (exec (select_activity "Gym") init_world)))
    as (_ & _ & _ & Hone & _).
  destruct (cards_match_profiles init_state) as (_ & _ & _ & _ & Hnone).
  split.
  - apply Hone. cbn. tauto.
  - apply Hnone. cbn. intros [E | [E | [E | [E | [E | []]]]]]; discriminate E.
Defined.

(** ** The history page *)

Lemma insert_front_reverses {A B : Type} (f : A -> B) (l : list A) (acc : list B) :
  fold_left (fun controls x => f x :: controls) l acc = rev (map f l) ++ acc.
Proof.
  revert acc. induction l as [| x l IH]; intros acc; cbn [fold_left map rev];
    [reflexivity |].
  rewrite IH, <- app_assoc. reflexivity.
Qed.

Lemma build_history_list_rows (sessions : list SessionData) :
  sessions <> [] ->
  snd (build_history_list sessions) = rev (map session_row sessions).
Proof.
  intros Hne. destruct sessions as [| sd rest]; [contradiction |].
  unfold build_history_list. cbn [snd].
  rewrite insert_front_reverses, app_nil_r. reflexivity.
Qed.

Ltac selected_card Hc Hsel :=
  cbn in Hc;
  repeat (destruct Hc as [<- | Hc];
          [first [discriminate Hsel | reflexivity] |]);
  destruct Hc.

(** X16.  [build_history_list] fills the list with the placeholder text
    exactly when no session was recorded, otherwise with one row per
    summary, the most recent first, each with the colour of its
    activity's card, or white for an activity that has no card.  It then
    calls [update()] on the list, which is on no page yet, and ends by the
    exception of that call: [create_history_page] returns no page and
    [route_change] fails for "/history", whatever was recorded. *)
Theorem history_page_newest_first (sessions : list SessionData) :
  let controls := snd (build_history_list sessions) in
  (sessions = [] -> controls = [Placeholder "No sessions recorded yet"]) /\
  (sessions <> [] ->
   controls = rev (map session_row sessions) /\
   List.length controls = List.length sessions) /\
  (forall older latest,
     hd_error (snd (build_history_list (older ++ [latest]))) =
       Some (session_row latest)) /\
  (forall sd s c,
     activity s = sd_activity sd -> In c (activity_cards s) ->
     card_selected c = true ->
     session_row sd = SessionRow (card_border_color c) sd) /\
  (forall sd,
     ~ In (sd_activity sd) activity_names ->
     session_row sd = SessionRow "white" sd) /\
  (exists e,
     fst (build_history_list sessions) = Raise e /\
     create_history_page sessions = Raise e /\
     fst (route_change "/history" sessions) = Raise e).
Proof.
  intros controls. subst controls.
  split; [intros ->; reflexivity |].
  split.
  { intros Hne. rewrite (build_history_list_rows sessions Hne).
    split; [reflexivity |]. rewrite length_rev, length_map. reflexivity. }
  split.
  { intros older latest. rewrite build_history_list_rows.
    - rewrite map_app, rev_app_distr. reflexivity.
    - destruct older; discriminate. }
  split.
  { intros sd s c Ha Hc Hsel. unfold session_row.
    rewrite (activity_cards_of (sd_activity sd) s Ha) in Hc.
    generalize dependent (sd_activity sd). intros a _ Hc.
    destruct (String.eqb_spec a "Resting") as [E | H1]; [subst a; selected_card Hc Hsel |].
    destruct (String.eqb_spec a "Walking") as [E | H2]; [subst a; selected_card Hc Hsel |].
    destruct (String.eqb_spec a "Running") as [E | H3]; [subst a; selected_card Hc Hsel |].
    destruct (String.eqb_spec a "Gym") as [E | H4]; [subst a; selected_card Hc Hsel |].
    destruct (String.eqb_spec a "Swimming") as [E | H5]; [subst a; selected_card Hc Hsel |].
    selected_card Hc Hsel. }
  split.
  { intros sd Hnot. unfold session_row.
    rewrite (dict_get_default activity_colors); [reflexivity | exact Hnot]. }
  exists "Control must be added to the page first"%string.
  repeat split; reflexivity.
Qed.

Lemma history_page_newest_first_witness :
  snd (build_history_list []) = [Placeholder "No sessions recorded yet"] /\
  snd (build_history_list
    [mkSession "2024-01-01 12:00" "Running" "1:05" 144.1 151 108;
     mkSession "2024-01-01 12:05" "Yoga" "0:03" 75.2 76 74]) =
  [SessionRow "white" (mkSession "2024-01-01 12:05" "Yoga" "0:03" 75.2 76 74);
   SessionRow "#FF9800" (mkSession "2024-01-01 12:00" "Running" "1:05" 144.1 151 108)].
Proof.
  destruct (history_page_newest_first []) as (Hempty & _).
  destruct (history_page_newest_first
              [mkSession "2024-01-01 12:00" "Running" "1:05" 144.1 151 108;
               mkSession "2024-01-01 12:05" "Yoga" "0:03" 75.2 76 74])
    as (_ & Hrows & _).
  split; [apply Hempty; reflexivity |].
  destruct Hrows as [Hrev _]; [discriminate |].
  rewrite Hrev. reflexivity.
Defined.
